(** * books-scrapper: a shallow embedding of [scraper.py]

    The development follows the layout of the Python module: the library
    functions the scraper calls ([str] methods, the two regular
    expressions, [float], the part of BeautifulSoup it uses, [requests],
    [json]) are modelled first, then [get_book_data] and [scrape_books],
    then the properties.

    Python [str] values are modelled as [string], one [ascii] per character,
    read as the code point of the same number: the model covers the
    characters U+0000..U+00FF (among them the pound sign U+00A3 of the
    reference site).  Python [int] is [Z], Python [float] is a binary64
    value ([spec_float]).

    Left out: the scheduler and [job] at the end of the module, the
    request headers, the bytes of the saved file (it is kept as text; the
    UTF-8 layer belongs to [open]), and the interpreter's limit on the
    number of digits [int] and [str] convert. *)

From Stdlib Require Import ZArith NArith Bool List String Ascii Lia Floats.
Import ListNotations.

Local Open Scope string_scope.
Local Open Scope Z_scope.

(** ** Characters and [str] methods *)

Module Str.

(** [\d] on code points below 256: the ASCII digits. *)
Definition isdigit (c : ascii) : bool :=
  let n := N_of_ascii c in ((48 <=? n) && (n <=? 57))%N.

(** [\s], [str.isspace], and the characters [str.split()] and
    [str.strip()] treat as blank, on code points below 256:
    TAB..CR, FS..US, space, NEL and NBSP. *)
Definition isspace (c : ascii) : bool :=
  let n := N_of_ascii c in
  (((9 <=? n) && (n <=? 13)) || ((28 <=? n) && (n <=? 32))
   || (n =? 133) || (n =? 160))%N.

Definition is_empty (s : string) : bool :=
  match s with EmptyString => true | String _ _ => false end.

Fixpoint lstrip (s : string) : string :=
  match s with
  | EmptyString => EmptyString
  | String c r => if isspace c then lstrip r else s
  end.

Fixpoint rstrip (s : string) : string :=
  match s with
  | EmptyString => EmptyString
  | String c r =>
      let r' := rstrip r in
      if is_empty r' && isspace c then EmptyString else String c r'
  end.

(** [s.strip()] *)
Definition strip (s : string) : string := rstrip (lstrip s).

(** [split_aux s] is the word the string starts with (empty when it
    starts with a blank) and the words after it. *)
Fixpoint split_aux (s : string) : string * list string :=
  match s with
  | EmptyString => (EmptyString, [])
  | String c r =>
      let '(w, ws) := split_aux r in
      if isspace c then (EmptyString, if is_empty w then ws else w :: ws)
      else (String c w, ws)
  end.

(** [s.split()] : the maximal runs of non-blank characters. *)
Definition split (s : string) : list string :=
  let '(w, ws) := split_aux s in if is_empty w then ws else w :: ws.

(** [sep.join(l)] *)
Fixpoint join (sep : string) (l : list string) : string :=
  match l with
  | [] => EmptyString
  | [x] => x
  | x :: r => x ++ sep ++ join sep r
  end.

(** [s.startswith(p)] *)
Fixpoint startswith (s p : string) {struct p} : bool :=
  match p with
  | EmptyString => true
  | String a p' =>
      match s with
      | EmptyString => false
      | String b s' => Ascii.eqb a b && startswith s' p'
      end
  end.

(** [s.replace(old, new)] for a non-empty [old]: the occurrences of
    [old] are found from the left and do not overlap.  [skip] counts the
    characters of the occurrence being replaced that are still to be
    dropped. *)
Fixpoint replace_aux (old new : string) (skip : nat) (s : string) : string :=
  match s with
  | EmptyString => EmptyString
  | String c r =>
      match skip with
      | S k => replace_aux old new k r
      | O =>
          if startswith s old
          then new ++ replace_aux old new (Nat.pred (String.length old)) r
          else String c (replace_aux old new O r)
      end
  end.

Definition replace (s old new : string) : string := replace_aux old new O s.

(** [old in s] *)
Fixpoint contains (old s : string) : bool :=
  startswith s old ||
  match s with
  | EmptyString => false
  | String _ r => contains old r
  end.

(** The longest prefix made of digits, and what follows it: a greedy
    [\d*]. *)
Fixpoint span_digits (s : string) : string * string :=
  match s with
  | EmptyString => (EmptyString, EmptyString)
  | String c r =>
      if isdigit c
      then let '(ds, rest) := span_digits r in (String c ds, rest)
      else (EmptyString, s)
  end.

(** A greedy [\s*]. *)
Fixpoint skip_spaces (s : string) : string :=
  match s with
  | EmptyString => EmptyString
  | String c r => if isspace c then skip_spaces r else s
  end.

Definition all_digits (s : string) : bool :=
  forallb isdigit (list_ascii_of_string s).

Definition all_spaces (s : string) : bool :=
  forallb isspace (list_ascii_of_string s).

Definition digit_val (c : ascii) : Z := Z.of_N (N_of_ascii c) - 48.

(** [int(s)] for a string of digits, most significant first. *)
Fixpoint int_of_digits_from (acc : Z) (s : string) : Z :=
  match s with
  | EmptyString => acc
  | String c r => int_of_digits_from (10 * acc + digit_val c) r
  end.

Definition int (s : string) : Z := int_of_digits_from 0 s.

(** The longest digit string [int] converts: past this length [int(s)]
    raises [ValueError] (the default of [sys.set_int_max_str_digits]);
    [int] above is the value [int(s)] has when it returns one. *)
Definition int_max_str_digits : nat := 4300.

Definition digit_char (d : Z) : ascii := ascii_of_N (Z.to_N (48 + d)).

(** The decimal digits of a non-negative integer, most significant
    first; [fuel] bounds the number of digits. *)
Fixpoint digits_of (fuel : nat) (n : Z) (acc : string) : string :=
  match fuel with
  | O => acc
  | S f =>
      let acc' := String (digit_char (n mod 10)) acc in
      if n <? 10 then acc' else digits_of f (n / 10) acc'
  end.

(** [str(n)] for an [int]. *)
Definition of_int (n : Z) : string :=
  let a := Z.abs n in
  let ds := digits_of (S (Z.to_nat (Z.log2 a))) a EmptyString in
  if n <? 0 then String "-" ds else ds.

End Str.

(** ** [float]: binary64 values, [float(s)] and [repr] *)

Module Float.

Definition float : Type := spec_float.

Definition prec : Z := 53.
Definition emax : Z := 1024.

(** The binary64 value nearest to [num / den] (ties to even), with the
    sign [neg]; an infinity when the quotient is out of range. *)
Definition of_ratio (neg : bool) (num den : Z) : float :=
  match num, den with
  | Zpos n, Zpos d =>
      SFdiv prec emax (S754_finite neg n 0) (S754_finite false d 0)
  | _, _ => S754_zero neg
  end.

(** The value of the decimal literal [ip.fp] times ten to the [e],
    correctly rounded as [float] does. *)
Definition of_decimal (neg : bool) (ip fp : string) (e : Z) : float :=
  let m := Str.int (ip ++ fp) in
  let k := e - Z.of_nat (String.length fp) in
  if 0 <=? k then of_ratio neg (m * 10 ^ k) 1
  else of_ratio neg m (10 ^ (- k)).

(** [float(s)] for [s] of the form [digits] or [digits.digits], the only
    strings the price pattern's group [val] can hold. *)
Definition of_str (s : string) : float :=
  let '(ip, r) := Str.span_digits s in
  match r with
  | String "." fp => of_decimal false ip fp 0
  | _ => of_decimal false ip EmptyString 0
  end.

Definition eqb (x y : float) : bool :=
  match x, y with
  | S754_zero a, S754_zero b => Bool.eqb a b
  | S754_infinity a, S754_infinity b => Bool.eqb a b
  | S754_nan, S754_nan => true
  | S754_finite a m e, S754_finite b m' e' =>
      Bool.eqb a b && Pos.eqb m m' && Z.eqb e e'
  | _, _ => false
  end.

(** *** [repr]: the shortest decimal string that reads back as the
    same value *)

(** [10^k <= num / den] *)
Definition pow10_leb (k num den : Z) : bool :=
  if 0 <=? k then den * 10 ^ k <=? num else den <=? num * 10 ^ (- k).

Fixpoint decpt_from (fuel : nat) (k num den : Z) : Z :=
  match fuel with
  | O => k
  | S f => if pow10_leb k num den then decpt_from f (k + 1) num den else k
  end.

(** The position of the decimal point: the [k] with
    [10^(k-1) <= num/den < 10^k]. *)
Definition decpt (num den : Z) : Z := decpt_from 700 (-330) num den.

(** The candidate with [p] significant digits for the value [num/den]
    whose decimal point is at [k]: the [p]-digit integer [c], standing
    for [c * 10^(k-p)], below or above the value, whichever reads back
    as [x] (the nearer one when both do). *)
Definition candidate (x : float) (num den k : Z) (p : Z) : option Z :=
  let s := p - k in
  let xn := if 0 <=? s then num * 10 ^ s else num in
  let xd := if 0 <=? s then den else den * 10 ^ (- s) in
  let lo := xn / xd in
  let hi := lo + 1 in
  let back c := of_decimal false (Str.of_int c) EmptyString (k - p) in
  let lo_ok := eqb (back lo) x in
  let hi_ok := eqb (back hi) x in
  let lo_nearer :=
    (2 * xn <? (2 * lo + 1) * xd)
    || ((2 * xn =? (2 * lo + 1) * xd) && Z.even lo) in
  if lo_ok && hi_ok then Some (if lo_nearer then lo else hi)
  else if lo_ok then Some lo
  else if hi_ok then Some hi
  else None.

Fixpoint shortest (fuel : nat) (x : float) (num den k : Z) (p : Z) : Z * Z :=
  match candidate x num den k p with
  | Some c => (c, p)
  | None =>
      match fuel with
      | O => ((if 0 <=? p - k then num * 10 ^ (p - k) / den
               else num / (den * 10 ^ (k - p))), p)
      | S f => shortest f x num den k (p + 1)
      end
  end.

Fixpoint strip_zeros_rev (s : list ascii) : list ascii :=
  match s with
  | "0"%char :: r => strip_zeros_rev r
  | _ => s
  end.

Definition strip_trailing_zeros (s : string) : string :=
  string_of_list_ascii
    (List.rev (strip_zeros_rev (List.rev (list_ascii_of_string s)))).

Fixpoint zeros (n : nat) : string :=
  match n with O => EmptyString | S k => String "0" (zeros k) end.

(** The digits [ds] with the decimal point after the first [dp] of them,
    laid out as [repr] does: exponent notation when [dp <= -4] or
    [dp > 16]. *)
Definition layout (ds : string) (dp : Z) : string :=
  let n := Z.of_nat (String.length ds) in
  if (dp <=? -4) || (16 <? dp) then
    let e := dp - 1 in
    let tail := substring 1 (String.length ds - 1) ds in
    let mant := substring 0 1 ds
                ++ (if Str.is_empty tail then EmptyString else "." ++ tail) in
    let ea := Str.of_int (Z.abs e) in
    mant ++ "e" ++ (if e <? 0 then "-" else "+")
         ++ (if Z.abs e <? 10 then "0" ++ ea else ea)
  else if dp <=? 0 then "0." ++ zeros (Z.to_nat (- dp)) ++ ds
  else if n <=? dp then ds ++ zeros (Z.to_nat (dp - n)) ++ ".0"
  else substring 0 (Z.to_nat dp) ds ++ "."
       ++ substring (Z.to_nat dp) (String.length ds - Z.to_nat dp) ds.

Definition repr_finite (x : float) (m : positive) (e : Z) : string :=
  let num := if 0 <=? e then Zpos m * 2 ^ e else Zpos m in
  let den := if 0 <=? e then 1 else 2 ^ (- e) in
  let k := decpt num den in
  let '(c, p) := shortest 16 x num den k 1 in
  let ds := Str.of_int c in
  let dp := k + (Z.of_nat (String.length ds) - p) in
  layout (strip_trailing_zeros ds) dp.

(** [repr(x)] *)
Definition repr (x : float) : string :=
  match x with
  | S754_zero false => "0.0"
  | S754_zero true => "-0.0"
  | S754_infinity false => "inf"
  | S754_infinity true => "-inf"
  | S754_nan => "nan"
  | S754_finite neg m e =>
      (if neg then "-" else EmptyString) ++ repr_finite (S754_finite false m e) m e
  end.

End Float.

(** ** The two regular expressions of the scraper *)

Module Re.

(** The groups of a match of
    [(?P<cur>[^\d\s])\s*(?P<val>\d+(?:\.\d+)?)]. *)
Record price_match := { cur : string; val : string }.

(** The optional group [(?:\.\d+)?] at the head of [s]: what it
    consumes.  It is greedy, and empty when no digit follows the dot. *)
Definition opt_fraction (s : string) : string :=
  match s with
  | String "." r =>
      let '(fs, _) := Str.span_digits r in
      if Str.is_empty fs then EmptyString else String "." fs
  | _ => EmptyString
  end.

(** The match of the price pattern that starts at the first character of
    [s], if there is one: a character that is neither a digit nor a
    blank, then [\s*] and [\d+], each taking all it can (a shorter run of
    either leaves a blank or a digit where the pattern wants a digit or
    accepts anything, so the first attempt of the backtracking matcher
    is the only one that matters), then the optional fraction. *)
Definition match_price_here (s : string) : option price_match :=
  match s with
  | EmptyString => None
  | String c r =>
      if negb (Str.isdigit c) && negb (Str.isspace c) then
        let '(ds, rest) := Str.span_digits (Str.skip_spaces r) in
        if Str.is_empty ds then None
        else Some {| cur := String c EmptyString;
                     val := ds ++ opt_fraction rest |}
      else None
  end.

(** [re.search(price_pattern, s)]: the match at the leftmost position
    that has one. *)
Fixpoint search_price (s : string) : option price_match :=
  match match_price_here s with
  | Some m => Some m
  | None =>
      match s with
      | EmptyString => None
      | String _ r => search_price r
      end
  end.

(** [re.search(r"(\d+)", s)], group 1: the leftmost maximal run of
    digits. *)
Fixpoint search_digits (s : string) : option string :=
  match s with
  | EmptyString => None
  | String c r =>
      if Str.isdigit c then Some (fst (Str.span_digits s))
      else search_digits r
  end.

End Re.

(** ** The part of BeautifulSoup the scraper uses *)

Module Bs4.

(** A parsed document: text nodes and tags.  The multi-valued attribute
    [class] is kept as its list of tokens, the way the parser stores it;
    the other attributes map a name to a string. *)
#[local] Unset Elimination Schemes.
Inductive node : Type :=
| NavigableString (s : string)
| Element (name : string) (classes : list string)
          (attrs : list (string * string)) (contents : list node).
#[local] Set Elimination Schemes.

(** A tag as the program holds it: the node, with its place in the
    document ([parents], nearest first, and [next_elements], the tags
    that start after it in document order, its own descendants first). *)
Record Tag := mkTag {
  tag_node : node;
  tag_parents : list node;
  tag_next : list node
}.

Definition node_name (n : node) : string :=
  match n with NavigableString _ => EmptyString | Element nm _ _ _ => nm end.

Definition node_classes (n : node) : list string :=
  match n with NavigableString _ => [] | Element _ cls _ _ => cls end.

Definition node_attrs (n : node) : list (string * string) :=
  match n with NavigableString _ => [] | Element _ _ a _ => a end.

Definition node_contents (n : node) : list node :=
  match n with NavigableString _ => [] | Element _ _ _ k => k end.

Fixpoint lookup (k : string) (l : list (string * string)) : option string :=
  match l with
  | [] => None
  | (k', v) :: r => if String.eqb k k' then Some v else lookup k r
  end.

(** [tag.get(name)] for a single-valued attribute. *)
Definition get (t : Tag) (name : string) : option string :=
  lookup name (node_attrs (tag_node t)).

(** [tag.get("class", [])] *)
Definition get_class (t : Tag) : list string := node_classes (tag_node t).

(** The tags of a subtree in document order, each with its ancestors. *)
Fixpoint walk (anc : list node) (n : node) : list (list node * node) :=
  match n with
  | NavigableString _ => []
  | Element _ _ _ kids => (anc, n) :: flat_map (walk (n :: anc)) kids
  end.

Fixpoint with_next (l : list (list node * node)) (after : list node)
  : list Tag :=
  match l with
  | [] => []
  | (anc, n) :: r =>
      mkTag n anc (List.map snd r ++ after) :: with_next r after
  end.

(** The document object [BeautifulSoup(...)] returns, as a tag. *)
Definition soup_of (root : node) : Tag :=
  mkTag root [] (List.map snd (List.tl (walk [] root))).

(** The tags below [t], in document order. *)
Definition descendants (t : Tag) : list Tag :=
  let sub := walk (tag_parents t) (tag_node t) in
  List.tl (with_next sub (skipn (Nat.pred (List.length sub)) (tag_next t))).

(** The text nodes below a node, in document order. *)
Fixpoint strings (n : node) : list string :=
  match n with
  | NavigableString s => [s]
  | Element _ _ _ kids => flat_map strings kids
  end.

(** [tag.get_text()] *)
Definition get_text (t : Tag) : string :=
  String.concat EmptyString (strings (tag_node t)).

(** [tag.get_text(strip=True)]: every text node stripped, the empty
    ones dropped. *)
Definition get_text_strip (t : Tag) : string :=
  String.concat EmptyString
    (List.filter (fun s => negb (Str.is_empty s))
                 (List.map Str.strip (strings (tag_node t)))).

(** *** Selectors *)

(** A compound selector: [name.class1.class2#id], every part optional. *)
Record compound := {
  sel_name : option string;
  sel_classes : list string;
  sel_id : option string
}.

Definition mem (s : string) (l : list string) : bool :=
  List.existsb (String.eqb s) l.

Definition matches_compound (c : compound) (n : node) : bool :=
  match n with
  | NavigableString _ => false
  | Element nm cls a _ =>
      match sel_name c with Some x => String.eqb x nm | None => true end
      && List.forallb (fun k => mem k cls) (sel_classes c)
      && match sel_id c with
         | Some i => match lookup "id" a with
                     | Some j => String.eqb i j
                     | None => false
                     end
         | None => true
         end
  end.

(** The compounds [sel], innermost first, are met in this order along
    the ancestors [anc], nearest first. *)
Fixpoint match_ancestors (anc : list node) (sel : list compound) : bool :=
  match sel with
  | [] => true
  | c :: cs =>
      match anc with
      | [] => false
      | a :: anc' =>
          if matches_compound c a then match_ancestors anc' cs
          else match_ancestors anc' sel
      end
  end.

(** A selector is a chain of compounds joined by the descendant
    combinator, written here innermost first: ["div.product_main h1"] is
    [[h1; div.product_main]]. *)
Definition matches (sel : list compound) (t : Tag) : bool :=
  match sel with
  | [] => false
  | c :: cs =>
      matches_compound c (tag_node t) && match_ancestors (tag_parents t) cs
  end.

(** [tag.select(sel)] *)
Definition select (t : Tag) (sel : list compound) : list Tag :=
  List.filter (matches sel) (descendants t).

(** [tag.select_one(sel)] *)
Definition select_one (t : Tag) (sel : list compound) : option Tag :=
  List.hd_error (select t sel).

Definition by_name (nm : string) : compound :=
  {| sel_name := Some nm; sel_classes := []; sel_id := None |}.

(** [tag.find(name)]: the first tag of that name below [t]. *)
Definition find (t : Tag) (nm : string) : option Tag :=
  List.hd_error
    (List.filter (fun d => String.eqb nm (node_name (tag_node d)))
                 (descendants t)).

(** [tag.find_next(name)]: the first tag of that name that starts after
    [t] in the document.  Only its text is read afterwards. *)
Definition find_next (t : Tag) (nm : string) : option Tag :=
  match List.filter (fun n => String.eqb nm (node_name n)) (tag_next t) with
  | [] => None
  | n :: _ => Some (mkTag n [] [])
  end.

End Bs4.

(** ** [dict] with string keys, in insertion order *)

(** [d[k] = v]: a key already there keeps its place and takes the new
    value. *)
Fixpoint setitem {V : Type} (d : list (string * V)) (k : string) (v : V)
  : list (string * V) :=
  match d with
  | [] => [(k, v)]
  | (k', v') :: r =>
      if String.eqb k k' then (k', v) :: r else (k', v') :: setitem r k v
  end.

(** [dict(pairs)] *)
Definition dict_of {V : Type} (pairs : list (string * V)) : list (string * V) :=
  List.fold_left (fun d kv => setitem d (fst kv) (snd kv)) pairs [].

(** ** [json.dumps(obj, ensure_ascii=False)] *)

Module Json.

(** The Python values [json] writes and reads.  A [dict] keeps its items
    in insertion order. *)
#[local] Unset Elimination Schemes.
Inductive value : Type :=
| Null
| Bool (b : bool)
| Int (n : Z)
| Float (x : Float.float)
| Str (s : string)
| List (l : list value)
| Dict (items : list (string * value)).
#[local] Set Elimination Schemes.

Definition hex_digit (n : N) : ascii :=
  if (n <? 10)%N then ascii_of_N (48 + n) else ascii_of_N (87 + n).

Definition quote : string := String "034" EmptyString.

(** What the encoder writes for one character when [ensure_ascii] is
    off: the quote, the backslash and the control characters are
    escaped, every other character is written as it is. *)
Definition escape_char (c : ascii) : string :=
  let n := N_of_ascii c in
  if (n =? 34)%N then "\" ++ quote
  else if (n =? 92)%N then "\\"
  else if (n =? 10)%N then "\n"
  else if (n =? 13)%N then "\r"
  else if (n =? 9)%N then "\t"
  else if (n =? 8)%N then "\b"
  else if (n =? 12)%N then "\f"
  else if (n <? 32)%N then
    "\u00" ++ String (hex_digit (n / 16)) (String (hex_digit (n mod 16)) EmptyString)
  else String c EmptyString.

Fixpoint escape (s : string) : string :=
  match s with
  | EmptyString => EmptyString
  | String c r => escape_char c ++ escape r
  end.

Definition encode_str (s : string) : string := quote ++ escape s ++ quote.

(** [floatstr]: [repr], with the names JSON readers use for the
    non-finite values. *)
Definition floatstr (x : Float.float) : string :=
  match x with
  | S754_nan => "NaN"
  | S754_infinity false => "Infinity"
  | S754_infinity true => "-Infinity"
  | _ => Float.repr x
  end.

(** The items of a list or a [dict], written by [f] and separated by a
    comma and a space. *)
Definition join_items {A : Type} (f : A -> string) : list A -> string :=
  fix go (l : list A) : string :=
    match l with
    | [] => EmptyString
    | x :: r =>
        f x ++ match r with
               | [] => EmptyString
               | _ :: _ => ", " ++ go r
               end
    end.

Fixpoint dumps (v : value) : string :=
  match v with
  | Null => "null"
  | Bool true => "true"
  | Bool false => "false"
  | Int n => Str.of_int n
  | Float x => floatstr x
  | Str s => encode_str s
  | List l => "[" ++ join_items dumps l ++ "]"
  | Dict d =>
      "{" ++ join_items (fun kv : string * value =>
                           let '(k, x) := kv in
                           encode_str k ++ ": " ++ dumps x) d
          ++ "}"
  end.

(** *** [json.loads] *)

(** The blanks the decoder skips between tokens: space, TAB, LF, CR. *)
Definition is_ws (c : ascii) : bool :=
  let n := N_of_ascii c in
  ((n =? 32) || (n =? 9) || (n =? 10) || (n =? 13))%N.

Fixpoint skip_ws (s : string) : string :=
  match s with
  | EmptyString => EmptyString
  | String c r => if is_ws c then skip_ws r else s
  end.

Definition hex_val (c : ascii) : option N :=
  let n := N_of_ascii c in
  if ((48 <=? n) && (n <=? 57))%N then Some (n - 48)%N
  else if ((97 <=? n) && (n <=? 102))%N then Some (n - 87)%N
  else if ((65 <=? n) && (n <=? 70))%N then Some (n - 55)%N
  else None.

(** The character a [\uXXXX] escape stands for; [None] for malformed
    digits and for the code points above U+00FF, which the model of
    [str] does not hold. *)
Definition unicode_escape (a b c d : ascii) : option ascii :=
  match hex_val a, hex_val b, hex_val c, hex_val d with
  | Some x, Some y, Some z, Some t =>
      let n := (((x * 16 + y) * 16 + z) * 16 + t)%N in
      if (n <? 256)%N then Some (ascii_of_N n) else None
  | _, _, _, _ => None
  end.

Definition simple_escape (c : ascii) : option ascii :=
  let n := N_of_ascii c in
  if (n =? 34)%N then Some c
  else if (n =? 92)%N then Some c
  else if (n =? 47)%N then Some c
  else if (n =? 98)%N then Some (ascii_of_N 8)
  else if (n =? 102)%N then Some (ascii_of_N 12)
  else if (n =? 110)%N then Some (ascii_of_N 10)
  else if (n =? 114)%N then Some (ascii_of_N 13)
  else if (n =? 116)%N then Some (ascii_of_N 9)
  else None.

Definition cons_char (c : ascii) (r : option (string * string))
  : option (string * string) :=
  match r with
  | Some (t, rest) => Some (String c t, rest)
  | None => None
  end.

(** [scanstring], strict: [s] starts after the opening quote; the result
    is the decoded string and what follows the closing quote. *)
Fixpoint scanstring (s : string) : option (string * string) :=
  match s with
  | EmptyString => None
  | String c r =>
      let n := N_of_ascii c in
      if (n =? 34)%N then Some (EmptyString, r)
      else if (n =? 92)%N then
        match r with
        | String e r1 =>
            if (N_of_ascii e =? 117)%N then
              match r1 with
              | String a (String b (String x (String d r2))) =>
                  match unicode_escape a b x d with
                  | Some u => cons_char u (scanstring r2)
                  | None => None
                  end
              | _ => None
              end
            else
              match simple_escape e with
              | Some u => cons_char u (scanstring r1)
              | None => None
              end
        | EmptyString => None
        end
      else if (n <? 32)%N then None
      else cons_char c (scanstring r)
  end.

(** The three groups of a match of the decoder's number pattern: an
    optional minus sign and an integer part (a lone zero, or digits
    that start with a non-zero one), an optional fraction (a dot and
    digits), an optional exponent ([e] or [E], an optional sign,
    digits). *)
Record number_match := {
  num_neg : bool;
  num_int : string;
  num_frac : option string;
  num_exp : option (bool * string)
}.

Definition scan_int_part (s : string) : option (string * string) :=
  match s with
  | String c r =>
      if (N_of_ascii c =? 48)%N then Some (String c EmptyString, r)
      else if Str.isdigit c then Some (Str.span_digits s)
      else None
  | EmptyString => None
  end.

Definition scan_frac (s : string) : option string * string :=
  match s with
  | String c r =>
      if (N_of_ascii c =? 46)%N then
        let '(fs, rest) := Str.span_digits r in
        if Str.is_empty fs then (None, s) else (Some fs, rest)
      else (None, s)
  | EmptyString => (None, s)
  end.

Definition scan_exp (s : string) : option (bool * string) * string :=
  match s with
  | String c r =>
      if ((N_of_ascii c =? 101) || (N_of_ascii c =? 69))%N then
        let '(neg, r1) :=
          match r with
          | String g r' =>
              if (N_of_ascii g =? 45)%N then (true, r')
              else if (N_of_ascii g =? 43)%N then (false, r')
              else (false, r)
          | EmptyString => (false, r)
          end in
        let '(es, rest) := Str.span_digits r1 in
        if Str.is_empty es then (None, s) else (Some (neg, es), rest)
      else (None, s)
  | EmptyString => (None, s)
  end.

Definition match_number (s : string) : option (number_match * string) :=
  let '(neg, s1) :=
    match s with
    | String c r => if (N_of_ascii c =? 45)%N then (true, r) else (false, s)
    | EmptyString => (false, s)
    end in
  match scan_int_part s1 with
  | None => None
  | Some (ip, s2) =>
      let '(fr, s3) := scan_frac s2 in
      let '(ex, s4) := scan_exp s3 in
      Some ({| num_neg := neg; num_int := ip;
               num_frac := fr; num_exp := ex |}, s4)
  end.

(** The value of a number token: a [float] when it has a fraction or an
    exponent, an [int] otherwise. *)
Definition number_value (m : number_match) : value :=
  match num_frac m, num_exp m with
  | None, None =>
      Int (if num_neg m then - Str.int (num_int m) else Str.int (num_int m))
  | fr, ex =>
      let fp := match fr with Some f => f | None => EmptyString end in
      let e := match ex with
               | Some (true, es) => - Str.int es
               | Some (false, es) => Str.int es
               | None => 0
               end in
      Float (Float.of_decimal (num_neg m) (num_int m) fp e)
  end.

Fixpoint drop (n : nat) (s : string) : string :=
  match n, s with
  | S k, String _ r => drop k r
  | _, _ => s
  end.

(** A literal at the head of [s]. *)
Definition literal (lit : string) (v : value) (s : string)
  : option (value * string) :=
  if Str.startswith s lit then Some (v, drop (String.length lit) s)
  else None.

Definition constant (s : string) : option (value * string) :=
  match literal "NaN" (Float S754_nan) s with
  | Some r => Some r
  | None =>
      match literal "Infinity" (Float (S754_infinity false)) s with
      | Some r => Some r
      | None => literal "-Infinity" (Float (S754_infinity true)) s
      end
  end.

(** The branches of [scan_once] for what is neither a string, an object
    nor an array: the three literals, a number, the three constants, tried
    in this order. *)
Definition scan_atom (s : string) : option (value * string) :=
  match literal "null" Null s with
  | Some x => Some x
  | None =>
      match literal "true" (Bool true) s with
      | Some x => Some x
      | None =>
          match literal "false" (Bool false) s with
          | Some x => Some x
          | None =>
              match match_number s with
              | Some (m, rest) => Some (number_value m, rest)
              | None => constant s
              end
          end
      end
  end.

(** [scan_once]: the value at the head of [s] and what follows it.
    [object_items] is the loop of [JSONObject], entered after the
    opening quote of a key; [array_items] is the loop of [JSONArray],
    entered at a value.  [fuel] bounds the calls; [None] is a decoding
    error or an exhausted bound. *)
Fixpoint scan_once (fuel : nat) (s : string) : option (value * string) :=
  match fuel with
  | O => None
  | S f =>
      match s with
      | EmptyString => None
      | String c r =>
          let n := N_of_ascii c in
          if (n =? 34)%N then
            match scanstring r with
            | Some (t, rest) => Some (Str t, rest)
            | None => None
            end
          else if (n =? 123)%N then
            match skip_ws r with
            | String c1 r1 =>
                if (N_of_ascii c1 =? 125)%N then Some (Dict [], r1)
                else if (N_of_ascii c1 =? 34)%N then
                  match object_items f r1 [] with
                  | Some (pairs, rest) => Some (Dict (dict_of pairs), rest)
                  | None => None
                  end
                else None
            | EmptyString => None
            end
          else if (n =? 91)%N then
            match skip_ws r with
            | String c1 r1 =>
                if (N_of_ascii c1 =? 93)%N then Some (List [], r1)
                else
                  match array_items f (String c1 r1) [] with
                  | Some (vs, rest) => Some (List vs, rest)
                  | None => None
                  end
            | EmptyString => None
            end
          else scan_atom s
      end
  end

with object_items (fuel : nat) (s : string) (pairs : list (string * value))
  : option (list (string * value) * string) :=
  match fuel with
  | O => None
  | S f =>
      match scanstring s with
      | None => None
      | Some (key, s1) =>
          match skip_ws s1 with
          | String c r =>
              if (N_of_ascii c =? 58)%N then
                match scan_once f (skip_ws r) with
                | None => None
                | Some (v, s2) =>
                    let pairs' := (pairs ++ [(key, v)])%list in
                    match skip_ws s2 with
                    | String d r2 =>
                        if (N_of_ascii d =? 125)%N then Some (pairs', r2)
                        else if (N_of_ascii d =? 44)%N then
                          match skip_ws r2 with
                          | String q r3 =>
                              if (N_of_ascii q =? 34)%N
                              then object_items f r3 pairs'
                              else None
                          | EmptyString => None
                          end
                        else None
                    | EmptyString => None
                    end
                end
              else None
          | EmptyString => None
          end
      end
  end

with array_items (fuel : nat) (s : string) (vs : list value)
  : option (list value * string) :=
  match fuel with
  | O => None
  | S f =>
      match scan_once f s with
      | None => None
      | Some (v, s1) =>
          let vs' := (vs ++ [v])%list in
          match skip_ws s1 with
          | String d r =>
              if (N_of_ascii d =? 93)%N then Some (vs', r)
              else if (N_of_ascii d =? 44)%N
              then array_items f (skip_ws r) vs'
              else None
          | EmptyString => None
          end
      end
  end.

(** [json.loads(s)]: one value, blanks around it allowed, nothing
    else. *)
Definition loads (s : string) : option value :=
  match scan_once (S (String.length s)) (skip_ws s) with
  | Some (v, rest) => if Str.is_empty (skip_ws rest) then Some v else None
  | None => None
  end.

(** The lines of a text, each without its line feed; what follows the
    last line feed is a line only when it is not empty. *)
Fixpoint lines_from (cur : string) (s : string) : list string :=
  match s with
  | EmptyString => if Str.is_empty cur then [] else [cur]
  | String c r =>
      if (N_of_ascii c =? 10)%N then cur :: lines_from EmptyString r
      else lines_from (cur ++ String c EmptyString) r
  end.

Definition splitlines (s : string) : list string := lines_from EmptyString s.

Fixpoint all_some {A : Type} (l : list (option A)) : option (list A) :=
  match l with
  | [] => Some []
  | Some a :: r =>
      match all_some r with Some t => Some (a :: t) | None => None end
  | None :: _ => None
  end.

(** Modelled from the spec: the repository writes the file and never
    reads it; the re-parsing the round trip speaks of is taken to be
    [json.loads] applied to each line of the text. *)
Definition read_lines (content : string) : option (list value) :=
  all_some (List.map loads (splitlines content)).

End Json.

(** ** [requests]: replies, exceptions and the observable world *)

Record Response := { status_code : Z; text : string }.

(** What a GET comes back with: a response, or no response at all (the
    transport raises). *)
Inductive reply : Type :=
| Reply (r : Response)
| NoReply.

Inductive exn : Type :=
| HTTPError (status : Z) (url : string)
| ConnectionError (url : string).

Inductive result (A : Type) : Type :=
| Ok (a : A)
| Raise (e : exn).
Arguments Ok {A} a.
Arguments Raise {A} e.

(** ** The record [get_book_data] returns *)

Record BookRecord := {
  url : string;
  title : option string;
  price : option Float.float;
  currency : option string;
  price_text : option string;
  rating : option Z;
  availability_count : option Z;
  availability_text : option string;
  description : option string;
  product_info : list (string * string)
}.

(** Which of the two [session.get] calls of the module sent a request:
    the one of [scrape_books] (a catalogue page) or the one of
    [get_book_data] (a book page). *)
Inductive origin : Type := Catalog | Detail.

Record request := { req_by : origin; req_url : string; req_reply : reply }.

(** What a run can change: the requests sent so far (oldest first), what
    was printed, and the content of [artifacts/books_data.txt] ([None]
    while the file does not exist). *)
Record world := {
  requests : list request;
  stdout : list BookRecord;
  books_file : option string
}.

Definition M (A : Type) : Type := world -> result A * world.

Definition ret {A} (a : A) : M A := fun w => (Ok a, w).

Definition raise {A} (e : exn) : M A := fun w => (Raise e, w).

Definition bind {A B} (c : M A) (k : A -> M B) : M B :=
  fun w =>
    match c w with
    | (Ok a, w') => k a w'
    | (Raise e, w') => (Raise e, w')
    end.

Notation "x <- c ;; k" := (bind c (fun x => k))
  (at level 61, c at next level, right associativity).

(** [response.raise_for_status()]: the client and server error codes
    raise, every other status returns. *)
Definition raise_for_status (u : string) (r : Response) : M unit :=
  if (400 <=? status_code r) && (status_code r <? 600)
  then raise (HTTPError (status_code r) u)
  else ret tt.

(** [print(data)] *)
Definition print (data : BookRecord) : M unit :=
  fun w => (Ok tt, {| requests := requests w;
                      stdout := stdout w ++ [data];
                      books_file := books_file w |}).

(** [open(path, "w")] followed by the writes: the file holds exactly
    [content] afterwards. *)
Definition write_books_file (content : string) (w : world) : world :=
  {| requests := requests w; stdout := stdout w; books_file := Some content |}.

Definition BASE_URL : string := "http://books.toscrape.com".

(** The selectors of the module, innermost compound first. *)
Module Sel.
Import Bs4.

Definition tag_class (nm : string) (cls : list string) : compound :=
  {| sel_name := Some nm; sel_classes := cls; sel_id := None |}.

(** ["div.product_main h1"] *)
Definition title : list compound :=
  [by_name "h1"; tag_class "div" ["product_main"]].
(** ["div.product_main p.price_color"] *)
Definition price : list compound :=
  [tag_class "p" ["price_color"]; tag_class "div" ["product_main"]].
(** ["p.star-rating"] *)
Definition rating : list compound := [tag_class "p" ["star-rating"]].
(** ["div.product_main p.instock.availability"] *)
Definition availability : list compound :=
  [tag_class "p" ["instock"; "availability"];
   tag_class "div" ["product_main"]].
(** ["#product_description"] *)
Definition description : list compound :=
  [{| sel_name := None; sel_classes := [];
      sel_id := Some "product_description" |}].
(** ["table.table.table-striped"] *)
Definition info_table : list compound :=
  [tag_class "table" ["table"; "table-striped"]].
(** ["tr"] *)
Definition row : list compound := [by_name "tr"].
(** ["article.product_pod h3 a"] *)
Definition book_cards : list compound :=
  [by_name "a"; by_name "h3"; tag_class "article" ["product_pod"]].
End Sel.

(** ** The helpers nested in [get_book_data] *)

Definition text_or_none (node : option Bs4.Tag) : option string :=
  match node with
  | Some t => Some (Bs4.get_text_strip t)
  | None => None
  end.

(** [parse_price]: price, currency and raw text. *)
Definition parse_price (raw : option string)
  : option Float.float * option string * option string :=
  match raw with
  | None => (None, None, None)
  | Some r =>
      if Str.is_empty r then (None, None, None)
      else
        match Re.search_price r with
        | None => (None, None, raw)
        | Some m => (Some (Float.of_str (Re.val m)), Some (Re.cur m), raw)
        end
  end.

Definition rating_map : list (string * Z) :=
  [("One", 1); ("Two", 2); ("Three", 3); ("Four", 4); ("Five", 5)].

Fixpoint rating_lookup (c : string) (m : list (string * Z)) : option Z :=
  match m with
  | [] => None
  | (k, v) :: r => if String.eqb c k then Some v else rating_lookup c r
  end.

(** The [for c in classes] loop of [parse_rating]. *)
Fixpoint first_rating (classes : list string) : option Z :=
  match classes with
  | [] => None
  | c :: r =>
      match rating_lookup c rating_map with
      | Some n => Some n
      | None => first_rating r
      end
  end.

Definition parse_rating (star_node : option Bs4.Tag) : option Z :=
  match star_node with
  | None => None
  | Some t => first_rating (Bs4.get_class t)
  end.

(** [parse_availability]: the count and the text, when [int] returns
    (a run of more than [Str.int_max_str_digits] digits makes it raise,
    and [get_book_data] with it; that case is not modelled). *)
Definition parse_availability (raw : option string)
  : option Z * option string :=
  match raw with
  | None => (None, None)
  | Some r =>
      if Str.is_empty r then (None, None)
      else (match Re.search_digits r with
            | Some ds => Some (Str.int ds)
            | None => None
            end, Some (Str.strip r))
  end.

(** The body of the [for tr in info_table.select("tr")] loop. *)
Definition add_row (product_info : list (string * string)) (tr : Bs4.Tag)
  : list (string * string) :=
  match Bs4.find tr "th", Bs4.find tr "td" with
  | Some th, Some td =>
      setitem product_info (Bs4.get_text_strip th) (Bs4.get_text_strip td)
  | _, _ => product_info
  end.

(** Lines 77 to 118 of [get_book_data]: the record read off the parsed
    page. *)
Definition book_data_of (soup : Bs4.Tag) (book_url : string) : BookRecord :=
  let title := text_or_none (Bs4.select_one soup Sel.title) in
  let price_node := Bs4.select_one soup Sel.price in
  let price_text := text_or_none price_node in
  let '(price_val, currency_symbol, price_raw) := parse_price price_text in
  let rating_node := Bs4.select_one soup Sel.rating in
  let rating := parse_rating rating_node in
  let avail_node := Bs4.select_one soup Sel.availability in
  let avail_text :=
    match avail_node with
    | Some t => Some (Str.join " " (Str.split (Bs4.get_text t)))
    | None => None
    end in
  let '(availability_count, availability_text) :=
    parse_availability avail_text in
  let description :=
    match Bs4.select_one soup Sel.description with
    | Some desc_anchor => text_or_none (Bs4.find_next desc_anchor "p")
    | None => None
    end in
  let product_info :=
    match Bs4.select_one soup Sel.info_table with
    | Some info_table =>
        List.fold_left add_row (Bs4.select info_table Sel.row) []
    | None => []
    end in
  {| url := book_url;
     title := title;
     price := price_val;
     currency := currency_symbol;
     price_text := price_raw;
     rating := rating;
     availability_count := availability_count;
     availability_text := availability_text;
     description := description;
     product_info := product_info |}.

(** The [dict] the record stands for, as [json.dumps] receives it. *)
Definition opt {A} (f : A -> Json.value) (o : option A) : Json.value :=
  match o with Some a => f a | None => Json.Null end.

Definition as_dict (b : BookRecord) : Json.value :=
  Json.Dict
    [("url", Json.Str (url b));
     ("title", opt Json.Str (title b));
     ("price", opt Json.Float (price b));
     ("currency", opt Json.Str (currency b));
     ("price_text", opt Json.Str (price_text b));
     ("rating", opt Json.Int (rating b));
     ("availability_count", opt Json.Int (availability_count b));
     ("availability_text", opt Json.Str (availability_text b));
     ("description", opt Json.Str (description b));
     ("product_info",
      Json.Dict (List.map (fun kv => (fst kv, Json.Str (snd kv)))
                          (product_info b)))].

(** The text [scrape_books] writes to the file: one line per book. *)
Definition books_lines (all_books : list BookRecord) : list string :=
  List.map (fun book => Json.dumps (as_dict book) ++ String "010" EmptyString)
           all_books.

(** ** [get_book_data] and [scrape_books] *)

Section Scraper.

(** The site: the reply to a GET, given the URLs requested so far. *)
Variable server : list string -> string -> reply.

(** [BeautifulSoup(text, "html.parser")]: the tree the parser builds,
    under the document node. *)
Variable html_parser : string -> Bs4.node.

(** [session.get(url, headers=headers)], called from [by]: the call is
    logged with the URL it was handed and the reply it got.  What the
    HTTP library makes of the URL on the way (dot segments, redirects)
    is not modelled: the log is one of calls, not of fetches. *)
Definition session_get (by_ : origin) (u : string) : M Response :=
  fun w =>
    let r := server (List.map req_url (requests w)) u in
    let w' := {| requests := requests w
                             ++ [{| req_by := by_; req_url := u;
                                    req_reply := r |}];
                 stdout := stdout w;
                 books_file := books_file w |} in
    match r with
    | Reply resp => (Ok resp, w')
    | NoReply => (Raise (ConnectionError u), w')
    end.

Definition BeautifulSoup (t : string) : Bs4.Tag :=
  Bs4.soup_of (html_parser t).

Definition get_book_data (book_url : string) : M BookRecord :=
  response <- session_get Detail book_url ;;
  _ <- raise_for_status book_url response ;;
  let soup := BeautifulSoup (text response) in
  let data := book_data_of soup book_url in
  _ <- print data ;;
  ret data.

(** The URL a card's [href] is turned into (lines 164 to 166). *)
Definition book_url_of (href : string) : string :=
  let href := if Str.startswith href "../"
              then Str.replace href "../" EmptyString else href in
  BASE_URL ++ "/catalogue/" ++ href.

(** [for a in book_cards: ...] *)
Fixpoint for_cards (book_cards : list Bs4.Tag) (all_books : list BookRecord)
  : M (list BookRecord) :=
  match book_cards with
  | [] => ret all_books
  | a :: rest =>
      match Bs4.get a "href" with
      | None => for_cards rest all_books
      | Some href =>
          if Str.is_empty href then for_cards rest all_books
          else
            book_data <- get_book_data (book_url_of href) ;;
            for_cards rest (all_books ++ [book_data])
      end
  end.

Definition page_url (page_num : Z) : string :=
  BASE_URL ++ "/catalogue/page-" ++ Str.of_int page_num ++ ".html".

Definition is_limit (page_num : Z) (pages_to_scrape : option Z) : bool :=
  match pages_to_scrape with
  | Some n => page_num =? n
  | None => false
  end.

(** The [while True] loop of [scrape_books]; [fuel] bounds the number of
    iterations, and [None] means the bound was reached with the loop
    still running. *)
Fixpoint while_true (fuel : nat) (pages_to_scrape : option Z)
    (page_num : Z) (all_books : list BookRecord) (w : world)
  : option (result (list BookRecord) * world) :=
  match fuel with
  | O => None
  | S fuel' =>
      match session_get Catalog (page_url page_num) w with
      | (Raise e, w1) => Some (Raise e, w1)
      | (Ok resp, w1) =>
          if negb (status_code resp =? 200) then Some (Ok all_books, w1)
          else
            let soup := BeautifulSoup (text resp) in
            let book_cards := Bs4.select soup Sel.book_cards in
            match for_cards book_cards all_books w1 with
            | (Raise e, w2) => Some (Raise e, w2)
            | (Ok all_books', w2) =>
                if is_limit page_num pages_to_scrape
                then Some (Ok all_books', w2)
                else while_true fuel' pages_to_scrape (page_num + 1)
                                all_books' w2
            end
      end
  end.

Definition scrape_books (fuel : nat) (is_save : bool)
    (pages_to_scrape : option Z) (w : world)
  : option (result (list BookRecord) * world) :=
  match while_true fuel pages_to_scrape 1 [] w with
  | None => None
  | Some (Raise e, w1) => Some (Raise e, w1)
  | Some (Ok all_books, w1) =>
      if is_save
      then Some (Ok all_books,
                 write_books_file
                   (String.concat EmptyString (books_lines all_books)) w1)
      else Some (Ok all_books, w1)
  end.

End Scraper.

(** ** Predicates the properties are stated with *)

(** The price pattern occurs somewhere in [s]: a character that is neither
    a digit nor a blank, then blanks, then a digit. *)
Definition price_pattern_occurs (s : string) : Prop :=
  exists pre c ws d rest,
    s = pre ++ String c (ws ++ String d rest)
    /\ Str.isdigit c = false /\ Str.isspace c = false
    /\ Str.all_spaces ws = true /\ Str.isdigit d = true.

(** The words [parse_rating] knows. *)
Definition rating_words : list string :=
  ["One"; "Two"; "Three"; "Four"; "Five"].

(** The [href]s of the cards that have a non-empty one, in order. *)
Fixpoint detail_links (cards : list Bs4.Tag) : list string :=
  match cards with
  | [] => []
  | a :: rest =>
      match Bs4.get a "href" with
      | Some h => if Str.is_empty h then detail_links rest
                  else h :: detail_links rest
      | None => detail_links rest
      end
  end.

Definition has_link (a : Bs4.Tag) : bool :=
  match Bs4.get a "href" with
  | Some h => negb (Str.is_empty h)
  | None => false
  end.

(** How a request bears on the run: [None] when the run goes on after it,
    [Some None] when it ends the loop, [Some (Some e)] when it raises. *)
Definition verdict (q : request) : option (option exn) :=
  match req_reply q with
  | NoReply => Some (Some (ConnectionError (req_url q)))
  | Reply r =>
      match req_by q with
      | Catalog => if status_code r =? 200 then None else Some None
      | Detail =>
          if (400 <=? status_code r) && (status_code r <? 600)
          then Some (Some (HTTPError (status_code r) (req_url q)))
          else None
      end
  end.

(** A book page whose fetch raises: no response, or a client or server
    error status. *)
Definition detail_fetch_raises (q : request) : Prop :=
  req_by q = Detail /\
  (req_reply q = NoReply \/
   exists r, req_reply q = Reply r /\ 400 <= status_code r < 600).

(** A catalogue page that came back with another status than 200. *)
Definition catalog_fetch_fails (q : request) : Prop :=
  req_by q = Catalog /\
  exists r, req_reply q = Reply r /\ status_code r <> 200.

Definition sent (q : request) : origin * string := (req_by q, req_url q).

(** The exception a request that got no usable reply raises. *)
Definition failure_of (q : request) : exn :=
  match req_reply q with
  | Reply r => HTTPError (status_code r) (req_url q)
  | NoReply => ConnectionError (req_url q)
  end.

(** [w'] is [w] after the requests [new] and the printing of [recs]; the
    file is untouched. *)
Definition extends (w w' : world) (new : list request)
    (recs : list BookRecord) : Prop :=
  requests w' = (requests w ++ new)%list
  /\ stdout w' = (stdout w ++ recs)%list
  /\ books_file w' = books_file w.

(** The requests of a run: all let the run go on, but possibly the last,
    which ends the loop when the run returns and raises when it aborts. *)
Definition run_shape {A : Type} (new : list request) (res : result A) : Prop :=
  exists pre tail,
    new = (pre ++ tail)%list
    /\ Forall (fun q => verdict q = None) pre
    /\ match res with
       | Ok _ => tail = [] \/ exists q, tail = [q] /\ verdict q = Some None
       | Raise e => exists q, tail = [q] /\ verdict q = Some (Some e)
       end.

Definition history (w : world) : list string := List.map req_url (requests w).

(** The request [session.get] logs, and the world after it. *)
Definition request_of (server : list string -> string -> reply)
    (by_ : origin) (u : string) (w : world) : request :=
  {| req_by := by_; req_url := u; req_reply := server (history w) u |}.

Definition after_request (q : request) (w : world) : world :=
  {| requests := requests w ++ [q]; stdout := stdout w;
     books_file := books_file w |}.

Definition after_print (d : BookRecord) (w : world) : world :=
  {| requests := requests w; stdout := stdout w ++ [d];
     books_file := books_file w |}.

(** How many nested calls the decoder makes to read a value back. *)
Fixpoint need (v : Json.value) : nat :=
  match v with
  | Json.List l => S (List.fold_right (fun x n => S (need x + n)) O l)
  | Json.Dict d =>
      S (List.fold_right (fun kv n => S (need (snd kv) + n)) O d)
  | _ => 1
  end.

(** The values that are Python values [json] can write and read: a
    [dict] has each key once, and a [float] is one the decoder reads back
    from the text the encoder writes for it. *)
Fixpoint readable (v : Json.value) : Prop :=
  match v with
  | Json.Float x => Json.loads (Json.dumps (Json.Float x)) = Some (Json.Float x)
  | Json.List l => List.fold_right (fun x P => readable x /\ P) True l
  | Json.Dict d =>
      NoDup (List.map fst d)
      /\ List.fold_right (fun kv P => readable (snd kv) /\ P) True d
  | _ => True
  end.

(** No blank of the decoder in [s]. *)
Definition clean (s : string) : bool :=
  List.forallb (fun c => negb (Json.is_ws c)) (list_ascii_of_string s).

(** What may follow a value in a JSON text: nothing, a comma, or a
    closing bracket or brace. *)
Definition is_delim (c : ascii) : bool :=
  (Ascii.eqb c ",") || (Ascii.eqb c "}") || (Ascii.eqb c "]").

Definition delimited (rest : string) : Prop :=
  match rest with
  | EmptyString => True
  | String c _ => is_delim c = true
  end.

(** [r] with [rest] put after what is left of the input. *)
Definition framed {A : Type} (rest : string) (r : option (A * string))
  : option (A * string) :=
  match r with
  | Some (a, s) => Some (a, s ++ rest)
  | None => None
  end.

(** A number after its sign has been looked at: the rest of
    [match_number]. *)
Definition number_after_sign (neg : bool) (s : string)
  : option (Json.number_match * string) :=
  match Json.scan_int_part s with
  | Some (ip, s2) =>
      let '(fr, s3) := Json.scan_frac s2 in
      let '(ex, s4) := Json.scan_exp s3 in
      Some ({| Json.num_neg := neg; Json.num_int := ip;
               Json.num_frac := fr; Json.num_exp := ex |}, s4)
  | None => None
  end.

(** The fuel the items of a list, and of a [dict], ask for. *)
Definition need_list (l : list Json.value) : nat :=
  List.fold_right (fun x n => S (need x + n)) O l.

Definition need_items (d : list (string * Json.value)) : nat :=
  List.fold_right (fun kv n => S (need (snd kv) + n)) O d.

(** The decoder, given enough fuel, reads [v] back from its text when a
    delimiter follows, up to blanks it skips afterwards. *)
Definition reads_back (v : Json.value) : Prop :=
  forall (fuel : nat) (rest : string),
    (need v <= fuel)%nat -> delimited rest ->
    exists mid,
      Json.scan_once fuel (Json.dumps v ++ rest) = Some (v, mid ++ rest)
      /\ Json.skip_ws (mid ++ rest) = rest.

(** The text of a value starts with a character that is neither a blank
    nor a closing bracket. *)
Definition value_head (s : string) : Prop :=
  exists c r, s = String c r /\ Json.is_ws c = false /\ c <> "]"%char.

(** What [json.dumps] writes for one item of a [dict], and for the items
    after it. *)
Definition item_text (kv : string * Json.value) : string :=
  let '(k, x) := kv in Json.encode_str k ++ ": " ++ Json.dumps x.

Definition more_items {A : Type} (f : A -> string) (l : list A) : string :=
  match l with
  | [] => EmptyString
  | _ :: _ => ", " ++ Json.join_items f l
  end.

(** The price of a record, when it has one, is a [float] the decoder
    reads back from the text the encoder writes for it. *)
Definition price_reads_back (b : BookRecord) : Prop :=
  forall x, price b = Some x ->
            Json.loads (Json.dumps (Json.Float x)) = Some (Json.Float x).

(** [product_info] is a mapping: no key comes twice. *)
Definition keys_unique (b : BookRecord) : Prop :=
  NoDup (List.map fst (product_info b)).

(** No line feed in [s]. *)
Definition no_lf (s : string) : bool :=
  List.forallb (fun c => negb (N.eqb (N_of_ascii c) 10))
               (list_ascii_of_string s).

(** What a string starts with, for the scanners that stop at the first
    character outside a class: nothing, or a character [p] rejects. *)
Definition stops (p : ascii -> bool) (s : string) : Prop :=
  match s with
  | EmptyString => True
  | String c _ => p c = false
  end.

(** No digit in [s]. *)
Definition no_digit (s : string) : bool :=
  List.forallb (fun c => negb (Str.isdigit c)) (list_ascii_of_string s).

(** No blank in [s]. *)
Definition no_space (s : string) : bool :=
  List.forallb (fun c => negb (Str.isspace c)) (list_ascii_of_string s).

(** [prev] tells whether the character before [s] was a blank (or [s] is
    the start of the text): every blank of [s] is one space between two
    other characters. *)
Fixpoint collapsed_from (prev : bool) (s : string) : bool :=
  match s with
  | EmptyString => negb prev
  | String c r =>
      if Str.isspace c
      then Ascii.eqb c " " && negb prev && collapsed_from true r
      else collapsed_from false r
  end.

(** A text with its blanks collapsed: not empty, no blank at either end,
    and no blank inside but single spaces. *)
Definition collapsed (s : string) : bool := collapsed_from true s.

(** A [float] that is a number and not below zero: a zero, a finite value
    or the infinity, with the sign bit off. *)
Definition nonneg_float (x : Float.float) : bool :=
  match x with
  | S754_zero s => negb s
  | S754_infinity s => negb s
  | S754_finite s _ _ => negb s
  | S754_nan => false
  end.

(** What follows the digits of a price with no fraction: not a digit, and
    not a dot with a digit after it. *)
Definition ends_number (rest : string) : Prop :=
  match rest with
  | EmptyString => True
  | String c r =>
      Str.isdigit c = false
      /\ (c = "."%char -> match r with
                          | EmptyString => True
                          | String d _ => Str.isdigit d = false
                          end)
  end.

(** The item a row of the product table stands for, if it has both
    cells. *)
Definition row_item (tr : Bs4.Tag) : option (string * string) :=
  match Bs4.find tr "th", Bs4.find tr "td" with
  | Some th, Some td => Some (Bs4.get_text_strip th, Bs4.get_text_strip td)
  | _, _ => None
  end.

Fixpoint row_items (rows : list Bs4.Tag) : list (string * string) :=
  match rows with
  | [] => []
  | tr :: rest =>
      match row_item tr with
      | Some kv => kv :: row_items rest
      | None => row_items rest
      end
  end.

(** The page numbers [page], [page + 1], ... ([k] of them). *)
Fixpoint pages_from (page : Z) (k : nat) : list Z :=
  match k with
  | O => []
  | S k' => page :: pages_from (page + 1) k'
  end.

Definition is_catalog (q : request) : bool :=
  match req_by q with Catalog => true | Detail => false end.

Definition is_detail (q : request) : bool :=
  match req_by q with Catalog => false | Detail => true end.

(** The record a book-page request leads to: the page read off the
    reply, when there is a reply and [raise_for_status] lets it through
    (any status outside 400 to 599). *)
Definition record_of (html_parser : string -> Bs4.node) (q : request)
  : option BookRecord :=
  match req_by q, req_reply q with
  | Detail, Reply r =>
      if (400 <=? status_code r) && (status_code r <? 600) then None
      else Some (book_data_of (BeautifulSoup html_parser (text r))
                              (req_url q))
  | _, _ => None
  end.

(** The records of a list of requests, in order. *)
Fixpoint records_of (html_parser : string -> Bs4.node) (new : list request)
  : list BookRecord :=
  match new with
  | [] => []
  | q :: rest =>
      match record_of html_parser q with
      | Some d => d :: records_of html_parser rest
      | None => records_of html_parser rest
      end
  end.

(** ** A small site to run the model on *)

Module Sample.
Import Bs4.

Definition el (nm : string) (cls : list string) (kids : list node) : node :=
  Element nm cls [] kids.

Definition pound : string := String (ascii_of_N 163) EmptyString.

Definition book_page (name price_txt : string) (stars : list string) : node :=
  Element "[document]" [] []
    [el "html" []
       [el "body" []
          [el "div" ["col-sm-6"; "product_main"]
             [el "h1" [] [NavigableString name];
              el "p" ["price_color"] [NavigableString price_txt];
              el "p" ["instock"; "availability"]
                [el "i" ["icon-ok"] [];
                 NavigableString "  In stock (22 available) "];
              el "p" stars [el "i" ["icon-star"] []]];
           Element "div" ["sub-header"] [("id", "product_description")]
             [el "h2" [] [NavigableString "Product Description"]];
           el "p" [] [NavigableString "Poems and drawings."];
           el "table" ["table"; "table-striped"]
             [el "tr" []
                [el "th" [] [NavigableString "UPC"];
                 el "td" [] [NavigableString "a897fe39b1053632"]];
              el "tr" []
                [el "th" [] [NavigableString "Product Type"];
                 el "td" [] [NavigableString "Books"]]]]]].

Definition attic : node :=
  book_page "A Light in the Attic" (pound ++ "51.77") ["star-rating"; "Three"].

Definition velvet : node :=
  book_page "Tipping the Velvet" "51.77" ["star-rating"].

Definition card (attrs : list (string * string)) (label : string) : node :=
  el "article" ["product_pod"]
    [el "h3" [] [Element "a" [] attrs [NavigableString label]]].

Definition listing : node :=
  Element "[document]" [] []
    [el "html" []
       [el "body" []
          [el "ol" ["row"]
             [card [("href", "a-light-in-the-attic_1000/index.html")]
                   "A Light in the ...";
              card [("title", "no link")] "Missing";
              card [("href", EmptyString)] "Empty";
              card [("href", "../tipping-the-velvet_999/index.html")]
                   "Tipping the Velvet"];
           Element "a" [] [("href", "page-2.html")]
             [NavigableString "next"]]]].

Definition blank : node := Element "[document]" [] [] [].

(** The tags the extractor finds on a page. *)
Definition found_in (doc : node) (sel : list compound) : Tag :=
  match select_one (soup_of doc) sel with
  | Some t => t
  | None => soup_of blank
  end.

Definition found (sel : list compound) : Tag := found_in attic sel.

(** The parser, on the three bodies the sample site serves. *)
Definition html_parser (t : string) : node :=
  if String.eqb t "<listing>" then listing
  else if String.eqb t "<attic>" then attic
  else if String.eqb t "<velvet>" then velvet
  else blank.

Definition attic_url : string :=
  "http://books.toscrape.com/catalogue/a-light-in-the-attic_1000/index.html".
Definition velvet_url : string :=
  "http://books.toscrape.com/catalogue/tipping-the-velvet_999/index.html".
Definition page1_url : string :=
  "http://books.toscrape.com/catalogue/page-1.html".

Definition ok (t : string) : reply :=
  Reply {| status_code := 200; text := t |}.
Definition status (n : Z) : reply :=
  Reply {| status_code := n; text := EmptyString |}.

(** One catalogue page, two books, 404 for everything else. *)
Definition server (history : list string) (u : string) : reply :=
  if String.eqb u page1_url then ok "<listing>"
  else if String.eqb u attic_url then ok "<attic>"
  else if String.eqb u velvet_url then ok "<velvet>"
  else status 404.

(** The same site, with the second book gone. *)
Definition server_gone (history : list string) (u : string) : reply :=
  if String.eqb u velvet_url then status 404 else server history u.

(** The same site, answering 304 with an empty body for the second
    book. *)
Definition server_304 (history : list string) (u : string) : reply :=
  if String.eqb u velvet_url then status 304 else server history u.

(** A site that serves a book page once and another page under the same
    URL afterwards. *)
Definition server_moving (history : list string) (u : string) : reply :=
  if List.existsb (String.eqb u) history then ok "<velvet>"
  else ok "<attic>".

(** The same site, with the second catalogue page out of reach. *)
Definition server_cut (history : list string) (u : string) : reply :=
  if String.eqb u "http://books.toscrape.com/catalogue/page-2.html"
  then NoReply else server history u.

(** A site that is down: 503 for everything. *)
Definition server_down (history : list string) (u : string) : reply :=
  status 503.

Definition start : world :=
  {| requests := []; stdout := []; books_file := None |}.

(** A run of [scrape_books] on a site, from the empty world. *)
Definition run_of (site : list string -> string -> reply) (fuel : nat)
    (is_save : bool) (pages_to_scrape : option Z)
  : result (list BookRecord) * world :=
  match scrape_books site html_parser fuel is_save pages_to_scrape start with
  | Some x => x
  | None => (Ok [], start)
  end.

(** A book page whose rating element names two levels, and one whose
    price runs into a grouping comma. *)
Definition two_levels : node :=
  book_page "Sharp Objects" (pound ++ "1,234.50") ["star-rating"; "Two"; "Five"].

(** A book page whose price has words before the marker, a blank after
    it and words after the number. *)
Definition per_copy : node :=
  book_page "Soumission" ("now " ++ pound ++ " 51.77 a copy")
            ["star-rating"; "One"].

(** A book page with the elements there and nothing in them. *)
Definition hollow : node :=
  Element "[document]" [] []
    [el "div" ["product_main"]
       [el "h1" [] [];
        el "p" ["price_color"] [NavigableString "  "];
        el "p" ["instock"; "availability"] [NavigableString " "]]].

(** A product table with a row short of a cell and a key that comes
    twice. *)
Definition table_page : node :=
  Element "[document]" [] []
    [el "table" ["table"; "table-striped"]
       [el "tr" [] [el "th" [] [NavigableString "UPC"];
                    el "td" [] [NavigableString "old"]];
        el "tr" [] [el "th" [] [NavigableString "Tax"]];
        el "tr" [] [el "th" [] [NavigableString "Price"];
                    el "td" [] [NavigableString "51.77"]];
        el "tr" [] [el "th" [] [NavigableString "UPC"];
                    el "td" [] [NavigableString "new"]]]].

(** The records of the two book pages. *)
Definition books : list BookRecord :=
  [book_data_of (soup_of attic) attic_url;
   book_data_of (soup_of velvet) velvet_url].

(** The cards of the listing; the second has no [href]. *)
Definition cards : list Tag := select (soup_of listing) Sel.book_cards.
Definition missing : Tag := List.nth 1 cards (soup_of blank).
Definition after_missing : list Tag := List.skipn 2 cards.

End Sample.

(** * Properties *)

(** ** The model at work *)

Example of_int_1000 : Str.of_int 1000 = "1000".
Proof. reflexivity. Qed.

Example split_join :
  Str.join " " (Str.split "  In stock   (22 available) ")
  = "In stock (22 available)".
Proof. reflexivity. Qed.

Example replace_all : Str.replace "../../a/../b.html" "../" EmptyString = "a/b.html".
Proof. reflexivity. Qed.

(** [float("51.77")] is the binary64 value [0x1.9e28f5c28f5c3p+5]. *)
Example float_51_77 :
  Float.of_str "51.77" = S754_finite false 7285979772155331 (-47).
Proof. reflexivity. Qed.

Example repr_51_77 : Float.repr (Float.of_str "51.77") = "51.77".
Proof. vm_compute. reflexivity. Qed.

Example repr_77 : Float.repr (Float.of_str "77") = "77.0".
Proof. vm_compute. reflexivity. Qed.

Example repr_large : Float.repr (Float.of_str "12345678901234567890") = "1.2345678901234567e+19".
Proof. vm_compute. reflexivity. Qed.

Example repr_small : Float.repr (Float.of_str "0.00001") = "1e-05".
Proof. vm_compute. reflexivity. Qed.

Example search_price_pound :
  Re.search_price (Sample.pound ++ " 51.77 net")
  = Some {| Re.cur := Sample.pound; Re.val := "51.77" |}.
Proof. reflexivity. Qed.

Example loads_number_forms :
  Json.loads " [1, -0, 2.5e3, null, {}] "
  = Some (Json.List [Json.Int 1; Json.Int 0;
                     Json.Float (S754_finite false 5497558138880000 (-41));
                     Json.Null; Json.Dict []]).
Proof. vm_compute. reflexivity. Qed.

Example sample_crawl :
  List.map title (match fst (Sample.run_of Sample.server 3 true None) with
                  | Ok books => books
                  | Raise _ => []
                  end)
  = [Some "A Light in the Attic"; Some "Tipping the Velvet"]
  /\ List.map sent (requests (snd (Sample.run_of Sample.server 3 true None)))
     = [(Catalog, Sample.page1_url); (Detail, Sample.attic_url);
        (Detail, Sample.velvet_url);
        (Catalog, "http://books.toscrape.com/catalogue/page-2.html")].
Proof. vm_compute. split; reflexivity. Qed.

(** ** Strings *)

Lemma append_nil_r (s : string) : s ++ EmptyString = s.
Proof. induction s as [|c s IH]; simpl; [reflexivity | now rewrite IH]. Qed.

Lemma append_assoc (a b c : string) : (a ++ b) ++ c = a ++ (b ++ c).
Proof. induction a as [|x a IH]; simpl; [reflexivity | now rewrite IH]. Qed.

Lemma is_empty_true (s : string) : Str.is_empty s = true <-> s = EmptyString.
Proof. destruct s; simpl; split; intros H; try reflexivity; discriminate. Qed.

Lemma is_empty_false (s : string) : Str.is_empty s = false <-> s <> EmptyString.
Proof.
  destruct s; simpl; split; intros H; try reflexivity; try discriminate.
  now elim H.
Qed.

Lemma digit_not_space (c : ascii) : Str.isdigit c = true -> Str.isspace c = false.
Proof.
  unfold Str.isdigit, Str.isspace; cbv zeta.
  generalize (N_of_ascii c); intros n H.
  apply andb_true_iff in H as [H1 H2].
  apply N.leb_le in H1; apply N.leb_le in H2.
  repeat (apply orb_false_iff; split);
    try (apply andb_false_iff);
    try (right; apply N.leb_gt; lia);
    try (apply N.eqb_neq; lia).
Qed.

Lemma span_digits_app (ds t : string) :
  Str.all_digits ds = true -> stops Str.isdigit t ->
  Str.span_digits (ds ++ t) = (ds, t).
Proof.
  unfold Str.all_digits.
  induction ds as [|c ds IH]; simpl; intros Hd Ht.
  - destruct t as [|x t]; simpl in *; [reflexivity | now rewrite Ht].
  - apply andb_true_iff in Hd as [Hc Hd].
    rewrite Hc, (IH Hd Ht). reflexivity.
Qed.

Lemma span_digits_all (ds : string) :
  Str.all_digits ds = true -> Str.span_digits ds = (ds, EmptyString).
Proof.
  intros H. rewrite <- (append_nil_r ds) at 1.
  now apply span_digits_app.
Qed.

Lemma skip_spaces_app (ws t : string) :
  Str.all_spaces ws = true -> stops Str.isspace t ->
  Str.skip_spaces (ws ++ t) = t.
Proof.
  unfold Str.all_spaces.
  induction ws as [|c ws IH]; simpl; intros Hs Ht.
  - destruct t as [|x t]; simpl in *; [reflexivity | now rewrite Ht].
  - apply andb_true_iff in Hs as [Hc Hs].
    rewrite Hc. now apply IH.
Qed.

Lemma digits_stop_spaces (ds t : string) :
  Str.all_digits ds = true -> ds <> EmptyString -> stops Str.isspace (ds ++ t).
Proof.
  destruct ds as [|c ds]; [now intros _ H | ].
  unfold Str.all_digits; simpl. intros H _.
  apply andb_true_iff in H as [H _]. now apply digit_not_space.
Qed.

(** ** The price pattern *)

Lemma match_price_here_digit (c : ascii) (s : string) :
  Str.isdigit c = true -> Re.match_price_here (String c s) = None.
Proof. intros H. unfold Re.match_price_here. now rewrite H. Qed.

Lemma search_price_skip_digits (ds t : string) :
  Str.all_digits ds = true -> Re.search_price (ds ++ t) = Re.search_price t.
Proof.
  unfold Str.all_digits.
  induction ds as [|c ds IH]; simpl; intros H; [reflexivity | ].
  apply andb_true_iff in H as [Hc Hd].
  rewrite Hc. simpl. now apply IH.
Qed.

Lemma search_price_here (s : string) (m : Re.price_match) :
  Re.match_price_here s = Some m -> Re.search_price s = Some m.
Proof. intros H. destruct s; simpl in *; [discriminate | now rewrite H]. Qed.

(** A marker, blanks, digits, and a fraction when [fr] is one. *)
Lemma match_price_here_marker (c : ascii) (ws ds fs : string) :
  Str.isdigit c = false -> Str.isspace c = false ->
  Str.all_spaces ws = true ->
  Str.all_digits ds = true -> ds <> EmptyString ->
  Str.all_digits fs = true -> fs <> EmptyString ->
  Re.match_price_here (String c (ws ++ ds ++ "." ++ fs))
  = Some {| Re.cur := String c EmptyString; Re.val := ds ++ "." ++ fs |}.
Proof.
  intros Hc1 Hc2 Hws Hds Hne Hfs Hnf.
  unfold Re.match_price_here. rewrite Hc1, Hc2. simpl negb. simpl andb.
  rewrite skip_spaces_app by (auto using digits_stop_spaces).
  rewrite span_digits_app by (simpl; auto).
  apply is_empty_false in Hne. rewrite Hne.
  unfold Re.opt_fraction. simpl append.
  rewrite span_digits_all by assumption.
  apply is_empty_false in Hnf. rewrite Hnf. reflexivity.
Qed.

Lemma of_str_decimal (ds fs : string) :
  Str.all_digits ds = true ->
  Float.of_str (ds ++ "." ++ fs) = Float.of_decimal false ds fs 0.
Proof.
  intros H. unfold Float.of_str.
  rewrite span_digits_app by (simpl; auto). reflexivity.
Qed.

Lemma of_str_digits (ds : string) :
  Str.all_digits ds = true ->
  Float.of_str ds = Float.of_decimal false ds EmptyString 0.
Proof.
  intros H. unfold Float.of_str.
  rewrite span_digits_all by assumption. reflexivity.
Qed.

Lemma all_digits_cons (c : ascii) (r : string) :
  Str.isdigit c = true -> Str.all_digits r = true ->
  Str.all_digits (String c r) = true.
Proof. unfold Str.all_digits. cbn. now intros -> ->. Qed.

Lemma skip_spaces_split (r : string) :
  exists ws, r = ws ++ Str.skip_spaces r /\ Str.all_spaces ws = true
             /\ stops Str.isspace (Str.skip_spaces r).
Proof.
  induction r as [|c r (ws & E & Hws & Hst)]; simpl.
  - exists EmptyString. now repeat split.
  - destruct (Str.isspace c) eqn:Hc.
    + exists (String c ws). simpl. rewrite <- E.
      repeat split; auto. unfold Str.all_spaces in *. simpl. now rewrite Hc.
    + exists EmptyString. simpl. now repeat split.
Qed.

Lemma skip_spaces_stop (t : string) :
  stops Str.isspace t -> Str.skip_spaces t = t.
Proof. exact (skip_spaces_app EmptyString t eq_refl). Qed.

Lemma span_digits_head (t ds rest : string) :
  Str.span_digits t = (ds, rest) -> ds <> EmptyString ->
  exists d t', t = String d t' /\ Str.isdigit d = true.
Proof.
  destruct t as [|d t]; simpl.
  - intros [= <- _] H. now elim H.
  - destruct (Str.isdigit d) eqn:Hd.
    + intros _ _. now exists d, t.
    + intros [= <- _] H. now elim H.
Qed.

(** The pattern matches at the head of [s] exactly when [s] starts with a
    marker, blanks and a digit. *)
Lemma match_price_here_some (s : string) :
  Re.match_price_here s <> None <->
  exists c ws d rest,
    s = String c (ws ++ String d rest)
    /\ Str.isdigit c = false /\ Str.isspace c = false
    /\ Str.all_spaces ws = true /\ Str.isdigit d = true.
Proof.
  split.
  - destruct s as [|c r]; simpl; [now intros H | ].
    destruct (Str.isdigit c) eqn:Hc1; simpl; [now intros H | ].
    destruct (Str.isspace c) eqn:Hc2; simpl; [now intros H | ].
    destruct (Str.span_digits (Str.skip_spaces r)) as [ds rest] eqn:Hsp.
    destruct (Str.is_empty ds) eqn:He; [now intros H | intros _].
    apply is_empty_false in He.
    destruct (span_digits_head _ _ _ Hsp He) as (d & t' & Et & Hd).
    destruct (skip_spaces_split r) as (ws & Er & Hws & _).
    exists c, ws, d, t'. rewrite <- Et, <- Er. now repeat split.
  - intros (c & ws & d & rest & -> & Hc1 & Hc2 & Hws & Hd).
    unfold Re.match_price_here. rewrite Hc1, Hc2. simpl.
    rewrite skip_spaces_app by (simpl; auto using digit_not_space).
    simpl. rewrite Hd.
    destruct (Str.span_digits rest) as [ds r']. simpl. discriminate.
Qed.

Lemma price_pattern_occurs_cons (c : ascii) (s : string) :
  price_pattern_occurs (String c s) <->
  Re.match_price_here (String c s) <> None \/ price_pattern_occurs s.
Proof.
  split.
  - intros (pre & x & ws & d & rest & E & H).
    destruct pre as [|p pre]; simpl in E.
    + left. apply match_price_here_some. exists x, ws, d, rest. now split.
    + right. injection E as _ E. now exists pre, x, ws, d, rest.
  - intros [H | (pre & x & ws & d & rest & E & H)].
    + apply match_price_here_some in H as (x & ws & d & rest & E & H).
      exists EmptyString, x, ws, d, rest. now split.
    + exists (String c pre), x, ws, d, rest. simpl. rewrite E. now split.
Qed.

(** [re.search] finds a match exactly when the pattern occurs. *)
Lemma search_price_none (s : string) :
  Re.search_price s = None <-> ~ price_pattern_occurs s.
Proof.
  induction s as [|c s IH].
  - simpl. split; [ | reflexivity].
    intros _ (pre & x & ws & d & rest & E & _).
    destruct pre; discriminate.
  - rewrite price_pattern_occurs_cons.
    change (Re.search_price (String c s))
      with (match Re.match_price_here (String c s) with
            | Some m => Some m
            | None => Re.search_price s
            end).
    destruct (Re.match_price_here (String c s)) as [m|].
    + split; [discriminate | ]. intros H. elim H. now left.
    + rewrite IH. split.
      * intros H [H' | H']; [now apply H' | now apply H].
      * intros H H'. apply H. now right.
Qed.

(** ** Claim C10 *)

Lemma opt_fraction_none (rest : string) :
  ends_number rest -> Re.opt_fraction rest = EmptyString.
Proof.
  destruct rest as [|c r]; [reflexivity | ]. cbn [ends_number].
  intros [_ H]. unfold Re.opt_fraction.
  destruct (Ascii.eqb_spec c ".") as [-> | Hne].
  - specialize (H eq_refl). destruct r as [|d r]; [reflexivity | ].
    cbn [Str.span_digits]. rewrite H. reflexivity.
  - destruct c as [[] [] [] [] [] [] [] []]; try reflexivity. now elim Hne.
Qed.

Lemma ends_number_stops (rest : string) :
  ends_number rest -> stops Str.isdigit rest.
Proof. destruct rest as [|c r]; [trivial | now intros [H _]]. Qed.

Lemma match_price_here_whole (c : ascii) (ws ds rest : string) :
  Str.isdigit c = false -> Str.isspace c = false ->
  Str.all_spaces ws = true ->
  Str.all_digits ds = true -> ds <> EmptyString ->
  ends_number rest ->
  Re.match_price_here (String c (ws ++ ds ++ rest))
  = Some {| Re.cur := String c EmptyString; Re.val := ds |}.
Proof.
  intros Hc1 Hc2 Hws Hds Hne Hrest.
  unfold Re.match_price_here. rewrite Hc1, Hc2. simpl negb. simpl andb.
  rewrite skip_spaces_app by (auto using digits_stop_spaces).
  rewrite span_digits_app by (auto using ends_number_stops).
  apply is_empty_false in Hne. rewrite Hne.
  now rewrite opt_fraction_none, append_nil_r.
Qed.

Lemma match_price_here_fraction (c : ascii) (ws ds fs rest : string) :
  Str.isdigit c = false -> Str.isspace c = false ->
  Str.all_spaces ws = true ->
  Str.all_digits ds = true -> ds <> EmptyString ->
  Str.all_digits fs = true -> fs <> EmptyString ->
  stops Str.isdigit rest ->
  Re.match_price_here (String c (ws ++ ds ++ "." ++ fs ++ rest))
  = Some {| Re.cur := String c EmptyString; Re.val := ds ++ "." ++ fs |}.
Proof.
  intros Hc1 Hc2 Hws Hds Hne Hfs Hnf Hrest.
  unfold Re.match_price_here. rewrite Hc1, Hc2. simpl negb. simpl andb.
  rewrite skip_spaces_app by (auto using digits_stop_spaces).
  rewrite span_digits_app by (simpl; auto).
  apply is_empty_false in Hne. rewrite Hne.
  unfold Re.opt_fraction. simpl append.
  rewrite span_digits_app by assumption.
  apply is_empty_false in Hnf. rewrite Hnf. reflexivity.
Qed.

(** Where one string ends inside another: [pre] followed by [c] is
    [ws] followed by [d]. *)
Lemma append_meet (pre ws t rest : string) (c d : ascii) :
  pre ++ String c t = ws ++ String d rest ->
  (exists r, pre = ws ++ String d r)
  \/ (exists v, ws = pre ++ String c v)
  \/ (pre = ws /\ c = d).
Proof.
  revert ws. induction pre as [|x pre IH]; intros ws E.
  - destruct ws as [|y ws]; cbn in E.
    + right. right. injection E as -> _. now split.
    + right. left. injection E as -> _. now exists ws.
  - destruct ws as [|y ws]; cbn in E.
    + left. injection E as -> E. now exists pre.
    + injection E as -> E. destruct (IH ws E) as [(r & ->) | [(v & ->) | [-> ->]]].
      * left. now exists r.
      * right. left. now exists v.
      * right. right. now split.
Qed.

Lemma all_spaces_in (a b : string) (c : ascii) :
  Str.all_spaces (a ++ String c b) = true -> Str.isspace c = true.
Proof.
  unfold Str.all_spaces. induction a as [|x a IH]; cbn; intros H;
    apply andb_true_iff in H as [H1 H2]; [exact H1 | now apply IH].
Qed.

(** No match of the price pattern starts in a text where the pattern
    does not occur, when a marker comes after it. *)
Lemma search_price_skip_prefix (pre : string) (c : ascii) (t : string) :
  ~ price_pattern_occurs pre ->
  Str.isdigit c = false -> Str.isspace c = false ->
  Re.search_price (pre ++ String c t) = Re.search_price (String c t).
Proof.
  intros Hpre Hc1 Hc2. induction pre as [|x pre IH]; [reflexivity | ].
  rewrite price_pattern_occurs_cons in Hpre.
  change (Re.search_price (String x pre ++ String c t))
    with (match Re.match_price_here (String x (pre ++ String c t)) with
          | Some m => Some m
          | None => Re.search_price (pre ++ String c t)
          end).
  destruct (Re.match_price_here (String x (pre ++ String c t))) as [m|] eqn:E.
  - exfalso.
    assert (Hm : Re.match_price_here (String x (pre ++ String c t)) <> None)
      by (rewrite E; discriminate).
    apply match_price_here_some in Hm
      as (x' & ws & d & rest & Es & Hx1 & Hx2 & Hws & Hd).
    injection Es as <- Es.
    destruct (append_meet _ _ _ _ _ _ Es) as [(r & ->) | [(v & ->) | [-> ->]]].
    + apply Hpre. left. apply match_price_here_some.
      exists x, ws, d, r. now repeat split.
    + apply all_spaces_in in Hws. congruence.
    + congruence.
  - apply IH. intros H. apply Hpre. now right.
Qed.

Lemma span_digits_split (s : string) :
  s = fst (Str.span_digits s) ++ snd (Str.span_digits s)
  /\ Str.all_digits (fst (Str.span_digits s)) = true
  /\ stops Str.isdigit (snd (Str.span_digits s)).
Proof.
  unfold Str.all_digits.
  induction s as [|c s (E & Hd & Hs)]; [now repeat split | ].
  cbn [Str.span_digits]. destruct (Str.isdigit c) eqn:Hc.
  - destruct (Str.span_digits s) as [ds r]. cbn [fst snd] in *.
    split; [cbn; now rewrite <- E | ]. split; [cbn; now rewrite Hc | exact Hs].
  - cbn [fst snd]. now repeat split.
Qed.

(** Where the pattern occurs there is a first place where it does: a
    marker with blanks and a full run of digits behind it, and no
    occurrence in the text before it. *)
Lemma first_occurrence (raw : string) :
  price_pattern_occurs raw ->
  exists pre c ws ds rest,
    raw = pre ++ String c (ws ++ ds ++ rest)
    /\ ~ price_pattern_occurs pre
    /\ Str.isdigit c = false /\ Str.isspace c = false
    /\ Str.all_spaces ws = true
    /\ Str.all_digits ds = true /\ ds <> EmptyString
    /\ stops Str.isdigit rest.
Proof.
  induction raw as [|x s IH]; intros H.
  - destruct H as (pre & c & ws & d & rest & E & _). destruct pre; discriminate.
  - destruct (Re.match_price_here (String x s)) as [m|] eqn:E.
    + assert (Hm : Re.match_price_here (String x s) <> None)
        by (rewrite E; discriminate).
      apply match_price_here_some in Hm
        as (c & ws & d & rest0 & Es & Hc1 & Hc2 & Hws & Hd).
      destruct (span_digits_split rest0) as (Er & Hds & Hst).
      exists EmptyString, c, ws,
        (String d (fst (Str.span_digits rest0))), (snd (Str.span_digits rest0)).
      split; [cbn; now rewrite <- Er | ].
      split.
      { intros (pre & y & ws' & d' & r' & E' & _). destruct pre; discriminate. }
      repeat split; try assumption; [ | discriminate].
      now apply all_digits_cons.
    + apply price_pattern_occurs_cons in H as [H | H];
        [now rewrite E in H | ].
      destruct (IH H) as (pre & c & ws & ds & rest & -> & Hpre & Hc1 & Hc2
                          & Hws & Hds & Hne & Hst).
      exists (String x pre), c, ws, ds, rest.
      split; [reflexivity | ]. split; [ | now repeat split].
      intros Ho. apply price_pattern_occurs_cons in Ho as [Ho | Ho];
        [ | now apply Hpre].
      apply match_price_here_some in Ho
        as (x' & ws' & d' & r' & Es & Hx1 & Hx2 & Hws' & Hd').
      injection Es as <- ->.
      assert (Hm : Re.match_price_here
                     (String x ((ws' ++ String d' r')
                                ++ String c (ws ++ ds ++ rest))) <> None).
      { apply match_price_here_some.
        exists x, ws', d', (r' ++ String c (ws ++ ds ++ rest)).
        split; [now rewrite append_assoc | now repeat split]. }
      now rewrite E in Hm.
Qed.

Lemma prefix_nonempty (pre : string) (c : ascii) (t : string) :
  Str.is_empty (pre ++ String c t) = false.
Proof. destruct pre; reflexivity. Qed.

(** C10, as the code has it: in a price text that starts with digits the
    leading digits are passed over, and so is everything before the
    first character that is neither a digit nor a blank and has a digit
    behind it, blanks apart.  That character is the currency, the run of
    digits behind it, with a fraction when a dot and digits follow, is
    the price ([.] and [77.0] for [51.77]), and the raw text is kept.
    When no character of the text is followed in this way by a digit,
    price and currency are [None].  Every text falls under one of the
    two cases. *)
Theorem C10_price_without_marker :
  (forall ds t,
      Str.all_digits ds = true -> t <> EmptyString ->
      fst (parse_price (Some (ds ++ t))) = fst (parse_price (Some t)))
  /\ (forall raw,
        raw <> EmptyString -> ~ price_pattern_occurs raw ->
        parse_price (Some raw) = (None, None, Some raw))
  /\ (forall pre c ws ds rest,
        ~ price_pattern_occurs pre ->
        Str.isdigit c = false -> Str.isspace c = false ->
        Str.all_spaces ws = true ->
        Str.all_digits ds = true -> ds <> EmptyString ->
        (ends_number rest ->
         parse_price (Some (pre ++ String c (ws ++ ds ++ rest)))
         = (Some (Float.of_decimal false ds EmptyString 0),
            Some (String c EmptyString),
            Some (pre ++ String c (ws ++ ds ++ rest))))
        /\ (forall fs rest',
              rest = "." ++ fs ++ rest' ->
              Str.all_digits fs = true -> fs <> EmptyString ->
              stops Str.isdigit rest' ->
              parse_price (Some (pre ++ String c (ws ++ ds ++ rest)))
              = (Some (Float.of_decimal false ds fs 0),
                 Some (String c EmptyString),
                 Some (pre ++ String c (ws ++ ds ++ rest)))))
  /\ (forall raw,
        price_pattern_occurs raw ->
        exists pre c ws ds rest,
          raw = pre ++ String c (ws ++ ds ++ rest)
          /\ ~ price_pattern_occurs pre
          /\ Str.isdigit c = false /\ Str.isspace c = false
          /\ Str.all_spaces ws = true
          /\ Str.all_digits ds = true /\ ds <> EmptyString
          /\ stops Str.isdigit rest
          /\ (ends_number rest
              \/ exists fs rest',
                   rest = "." ++ fs ++ rest'
                   /\ Str.all_digits fs = true /\ fs <> EmptyString
                   /\ stops Str.isdigit rest')).
Proof.
  split; [ | split; [ | split]].
  - intros ds t Hds Ht. unfold parse_price.
    assert (E : Str.is_empty (ds ++ t) = false).
    { destruct ds; [now apply is_empty_false | reflexivity]. }
    apply is_empty_false in Ht.
    rewrite E, Ht, search_price_skip_digits by assumption.
    destruct (Re.search_price t); reflexivity.
  - intros raw Hne Hno. unfold parse_price.
    apply is_empty_false in Hne. rewrite Hne.
    apply search_price_none in Hno. now rewrite Hno.
  - intros pre c ws ds rest Hpre Hc1 Hc2 Hws Hds Hne. split.
    + intros Hrest. unfold parse_price.
      rewrite prefix_nonempty, search_price_skip_prefix by assumption.
      rewrite (search_price_here _ _
                 (match_price_here_whole c ws ds rest
                    Hc1 Hc2 Hws Hds Hne Hrest)).
      cbn [Re.val Re.cur]. now rewrite of_str_digits.
    + intros fs rest' -> Hfs Hnf Hrest. unfold parse_price.
      rewrite prefix_nonempty, search_price_skip_prefix by assumption.
      rewrite (search_price_here _ _
                 (match_price_here_fraction c ws ds fs rest'
                    Hc1 Hc2 Hws Hds Hne Hfs Hnf Hrest)).
      cbn [Re.val Re.cur]. now rewrite of_str_decimal.
  - intros raw Ho.
    destruct (first_occurrence raw Ho)
      as (pre & c & ws & ds & rest & E & Hpre & Hc1 & Hc2 & Hws & Hds & Hne
          & Hst).
    exists pre, c, ws, ds, rest. repeat split; try assumption.
    destruct rest as [|y r]; [now left | ]. cbn [stops] in Hst.
    destruct (Ascii.eqb_spec y ".") as [-> | Hy].
    + destruct r as [|z r']; [left; split; [exact Hst | now intros _] | ].
      destruct (Str.isdigit z) eqn:Hz.
      * right. destruct (span_digits_split r') as (Er & Hfs & Hst').
        exists (String z (fst (Str.span_digits r'))),
               (snd (Str.span_digits r')).
        split; [cbn; now rewrite <- Er | ].
        split; [now apply all_digits_cons | ]. split; [discriminate | ].
        exact Hst'.
      * left. split; [exact Hst | now intros _].
    + left. split; [exact Hst | ]. intros ->. now elim Hy.
Qed.

Lemma C10_price_without_marker_witness :
  parse_price (Some "51.77")
  = (Some (S754_finite false 5418393301680128 (-46)), Some ".", Some "51.77").
Proof.
  apply (proj1 (proj1 (proj2 (proj2 C10_price_without_marker))
                  "51" "."%char EmptyString "77" EmptyString
                  (proj1 (search_price_none "51") eq_refl)
                  eq_refl eq_refl eq_refl eq_refl
                  (fun H => match H with eq_refl => I end))).
  exact I.
Defined.

(** The claim as the spec states it fails: a text that starts with
    digits need not match at all, and when it does the currency is not
    the first character that is neither a digit nor a blank, but the
    first one with a digit behind it. *)
Lemma C10_counterexample :
  parse_price (Some "51") = (None, None, Some "51")
  /\ parse_price (Some "5x") = (None, None, Some "5x")
  /\ parse_price (Some "5a b7")
     = (Some (Float.of_str "7"), Some "b", Some "5a b7")
  /\ parse_price (Some "1,234.50")
     = (Some (Float.of_str "234.50"), Some ",", Some "1,234.50").
Proof. repeat split. Qed.

(** ** The fields of the record, one by one *)

Lemma book_data_of_price_fields (soup : Bs4.Tag) (u : string) :
  (price (book_data_of soup u), currency (book_data_of soup u),
   price_text (book_data_of soup u))
  = parse_price (text_or_none (Bs4.select_one soup Sel.price)).
Proof.
  unfold book_data_of.
  destruct (parse_price _) as [[a b] c].
  destruct (parse_availability _) as [d e]. reflexivity.
Qed.

Lemma book_data_of_rating (soup : Bs4.Tag) (u : string) :
  rating (book_data_of soup u)
  = parse_rating (Bs4.select_one soup Sel.rating).
Proof.
  unfold book_data_of.
  destruct (parse_price _) as [[a b] c].
  destruct (parse_availability _) as [d e]. reflexivity.
Qed.

Lemma book_data_of_url (soup : Bs4.Tag) (u : string) :
  url (book_data_of soup u) = u.
Proof.
  unfold book_data_of.
  destruct (parse_price _) as [[a b] c].
  destruct (parse_availability _) as [d e]. reflexivity.
Qed.

Lemma parse_price_marker (c : ascii) (ws ds fs : string) :
  Str.isdigit c = false -> Str.isspace c = false ->
  Str.all_spaces ws = true ->
  Str.all_digits ds = true -> ds <> EmptyString ->
  Str.all_digits fs = true -> fs <> EmptyString ->
  parse_price (Some (String c (ws ++ ds ++ "." ++ fs)))
  = (Some (Float.of_decimal false ds fs 0), Some (String c EmptyString),
     Some (String c (ws ++ ds ++ "." ++ fs))).
Proof.
  intros Hc1 Hc2 Hws Hds Hne Hfs Hnf. unfold parse_price.
  cbn [Str.is_empty].
  rewrite (search_price_here _ _
             (match_price_here_marker c ws ds fs Hc1 Hc2 Hws Hds Hne Hfs Hnf)).
  cbn [Re.val Re.cur]. now rewrite of_str_decimal.
Qed.

Lemma parse_price_no_match (raw : string) :
  raw <> EmptyString -> ~ price_pattern_occurs raw ->
  parse_price (Some raw) = (None, None, Some raw).
Proof.
  intros Hne Hno. unfold parse_price.
  apply is_empty_false in Hne. rewrite Hne.
  apply search_price_none in Hno. now rewrite Hno.
Qed.

(** ** Claim C5 *)

(** C5: when the price text of the page is a currency marker (a character
    that is neither a digit nor a blank), optional blanks, digits, a dot
    and digits, the record has the value of that decimal as [price], the
    marker as [currency] and the raw text as [price_text]; when the price
    text is there (not empty) and the pattern occurs nowhere in it,
    [price] and [currency] are [None] and [price_text] is the raw text. *)
Theorem C5_price_fields (soup node : Bs4.Tag) (book_url raw : string) :
  Bs4.select_one soup Sel.price = Some node ->
  Bs4.get_text_strip node = raw ->
  (forall c ws ds fs,
      Str.isdigit c = false -> Str.isspace c = false ->
      Str.all_spaces ws = true ->
      Str.all_digits ds = true -> ds <> EmptyString ->
      Str.all_digits fs = true -> fs <> EmptyString ->
      raw = String c (ws ++ ds ++ "." ++ fs) ->
      price (book_data_of soup book_url)
      = Some (Float.of_decimal false ds fs 0)
      /\ currency (book_data_of soup book_url) = Some (String c EmptyString)
      /\ price_text (book_data_of soup book_url) = Some raw)
  /\ (raw <> EmptyString -> ~ price_pattern_occurs raw ->
      price (book_data_of soup book_url) = None
      /\ currency (book_data_of soup book_url) = None
      /\ price_text (book_data_of soup book_url) = Some raw).
Proof.
  intros Hsel Htxt.
  pose proof (book_data_of_price_fields soup book_url) as E.
  rewrite Hsel in E. cbn [text_or_none] in E. rewrite Htxt in E.
  split.
  - intros c ws ds fs Hc1 Hc2 Hws Hds Hne Hfs Hnf Hraw.
    rewrite Hraw in E |- *.
    rewrite parse_price_marker in E by assumption.
    injection E as -> -> ->. now repeat split.
  - intros Hne Hno.
    rewrite (parse_price_no_match raw Hne Hno) in E.
    injection E as -> -> ->. now repeat split.
Qed.

Lemma C5_price_fields_witness :
  price (book_data_of (Bs4.soup_of Sample.attic) Sample.attic_url)
  = Some (S754_finite false 7285979772155331 (-47))
  /\ currency (book_data_of (Bs4.soup_of Sample.attic) Sample.attic_url)
     = Some Sample.pound
  /\ price_text (book_data_of (Bs4.soup_of Sample.attic) Sample.attic_url)
     = Some (Sample.pound ++ "51.77").
Proof.
  exact (proj1 (C5_price_fields (Bs4.soup_of Sample.attic)
                  (Sample.found Sel.price) Sample.attic_url
                  (Sample.pound ++ "51.77") eq_refl eq_refl)
           (ascii_of_N 163) EmptyString "51" "77"
           eq_refl eq_refl eq_refl eq_refl
           (fun H => match H with eq_refl => I end)
           eq_refl
           (fun H => match H with eq_refl => I end)
           eq_refl).
Defined.

(** ** Claim C6 *)

Lemma rating_lookup_none (c : string) :
  ~ In c rating_words -> rating_lookup c rating_map = None.
Proof.
  intros H. unfold rating_map, rating_lookup.
  repeat match goal with
         | |- context [String.eqb c ?w] =>
             destruct (String.eqb_spec c w) as [-> | _];
             [elim H; simpl; tauto | ]
         end.
  reflexivity.
Qed.

Lemma first_rating_none (classes : list string) :
  (forall c, In c classes -> ~ In c rating_words) ->
  first_rating classes = None.
Proof.
  induction classes as [|c r IH]; cbn [first_rating]; intros H;
    [reflexivity | ].
  rewrite rating_lookup_none by (apply H; now left).
  apply IH. intros x Hx. apply H. now right.
Qed.

Lemma first_rating_one (pre post : list string) (tok : string) (n : Z) :
  (forall c, In c pre -> ~ In c rating_words) ->
  rating_lookup tok rating_map = Some n ->
  first_rating (pre ++ tok :: post) = Some n.
Proof.
  induction pre as [|c r IH]; cbn [app first_rating]; intros H Htok.
  - now rewrite Htok.
  - rewrite rating_lookup_none by (apply H; now left).
    apply IH; [ | assumption]. intros x Hx. apply H. now right.
Qed.

Lemma rating_map_values (tok : string) (n : Z) :
  In (tok, n) rating_map -> rating_lookup tok rating_map = Some n /\ 1 <= n <= 5.
Proof.
  simpl. intros [H | [H | [H | [H | [H | []]]]]];
    injection H as <- <-; split; (reflexivity || lia).
Qed.

(** C6: when the rating element's class tokens hold exactly one word of
    One, Two, Three, Four, Five, wherever it stands among the other
    tokens, the record's rating is the integer of that word, from 1 to 5;
    when no token is one of the words, or the page has no rating element,
    the rating is [None]. *)
Theorem C6_rating (soup : Bs4.Tag) (book_url : string) :
  (forall (node : Bs4.Tag) (pre post : list string) (tok : string) (n : Z),
      Bs4.select_one soup Sel.rating = Some node ->
      Bs4.get_class node = (pre ++ tok :: post)%list ->
      In (tok, n)
         [("One", 1); ("Two", 2); ("Three", 3); ("Four", 4); ("Five", 5)] ->
      (forall c, In c (pre ++ post)%list ->
                 ~ In c ["One"; "Two"; "Three"; "Four"; "Five"]) ->
      rating (book_data_of soup book_url) = Some n /\ 1 <= n <= 5)
  /\ (forall node,
      Bs4.select_one soup Sel.rating = Some node ->
      (forall c, In c (Bs4.get_class node) ->
                 ~ In c ["One"; "Two"; "Three"; "Four"; "Five"]) ->
      rating (book_data_of soup book_url) = None)
  /\ (Bs4.select_one soup Sel.rating = None ->
      rating (book_data_of soup book_url) = None).
Proof.
  rewrite book_data_of_rating. repeat split.
  - destruct (rating_map_values tok n H1) as [Hl _].
    rewrite H. cbn [parse_rating]. rewrite H0.
    apply first_rating_one; [ | assumption].
    intros c Hc. apply H2. apply in_or_app. now left.
  - now destruct (rating_map_values tok n H1).
  - now destruct (rating_map_values tok n H1).
  - intros node Hsel Hno. rewrite Hsel. cbn [parse_rating].
    now apply first_rating_none.
  - intros Hsel. now rewrite Hsel.
Qed.

Lemma C6_rating_witness :
  rating (book_data_of (Bs4.soup_of Sample.attic) Sample.attic_url) = Some 3
  /\ rating (book_data_of (Bs4.soup_of Sample.velvet) Sample.velvet_url) = None.
Proof.
  split.
  - refine (proj1 (proj1 (C6_rating (Bs4.soup_of Sample.attic) Sample.attic_url)
              (Sample.found Sel.rating) ["star-rating"] [] "Three" 3
              eq_refl eq_refl _ _)).
    + simpl. tauto.
    + intros c [<- | []]. simpl.
      intros [H | [H | [H | [H | [H | []]]]]]; discriminate.
  - refine (proj1 (proj2 (C6_rating (Bs4.soup_of Sample.velvet) Sample.velvet_url))
              (Sample.found_in Sample.velvet Sel.rating) eq_refl _).
    intros c [<- | []]. simpl.
    intros [H | [H | [H | [H | [H | []]]]]]; discriminate.
Defined.

(** ** Claim C7 *)

Lemma replace_absent (old new s : string) :
  Str.contains old s = false -> Str.replace_aux old new O s = s.
Proof.
  induction s as [|c s IH]; [reflexivity | ].
  cbn [Str.contains Str.replace_aux]. intros H.
  apply orb_false_iff in H as [Hp Hc].
  rewrite Hp, (IH Hc). reflexivity.
Qed.

Lemma book_url_of_dotdot (x : string) :
  book_url_of ("../" ++ x)
  = BASE_URL ++ "/catalogue/" ++ Str.replace x "../" EmptyString.
Proof. reflexivity. Qed.

(** C7, as the code has it: for an [href] of the form [../X], every
    occurrence of [../] is removed, the leading one and those inside [X],
    and the rest is put under the catalogue path; the result is
    [{base}/catalogue/X] when [X] holds no [../]. *)
Theorem C7_detail_url (x : string) :
  book_url_of ("../" ++ x)
  = BASE_URL ++ "/catalogue/" ++ Str.replace x "../" EmptyString
  /\ (Str.contains "../" x = false ->
      book_url_of ("../" ++ x) = BASE_URL ++ "/catalogue/" ++ x).
Proof.
  split; [apply book_url_of_dotdot | ].
  intros H. rewrite book_url_of_dotdot.
  unfold Str.replace. now rewrite replace_absent.
Qed.

Lemma C7_detail_url_witness :
  book_url_of "../tipping-the-velvet_999/index.html" = Sample.velvet_url.
Proof.
  exact (proj2 (C7_detail_url "tipping-the-velvet_999/index.html") eq_refl).
Defined.

(** The claim as the spec states it fails for [X = ../x.html]: the [../]
    inside [X] is removed too. *)
Lemma C7_counterexample :
  book_url_of ("../" ++ "../x.html")
  <> BASE_URL ++ "/catalogue/" ++ "../x.html"
  /\ book_url_of ("../" ++ "../x.html") = BASE_URL ++ "/catalogue/" ++ "x.html".
Proof. split; [discriminate | reflexivity]. Qed.

(** ** Claim C9 *)

Section Cards.

Variable server : list string -> string -> reply.
Variable html_parser : string -> Bs4.node.

Lemma for_cards_skip (a : Bs4.Tag) (rest : list Bs4.Tag)
    (all_books : list BookRecord) :
  has_link a = false ->
  for_cards server html_parser (a :: rest) all_books
  = for_cards server html_parser rest all_books.
Proof.
  unfold has_link. cbn [for_cards].
  destruct (Bs4.get a "href") as [h|]; [ | reflexivity].
  destruct (Str.is_empty h); [reflexivity | discriminate].
Qed.

Lemma for_cards_filter (cards : list Bs4.Tag) :
  forall all_books w,
    for_cards server html_parser cards all_books w
    = for_cards server html_parser (List.filter has_link cards) all_books w.
Proof.
  induction cards as [|a rest IH]; intros all_books w; [reflexivity | ].
  cbn [List.filter]. destruct (has_link a) eqn:Ha.
  - unfold has_link in Ha. cbn [for_cards].
    destruct (Bs4.get a "href") as [h|]; [ | discriminate].
    destruct (Str.is_empty h); [discriminate | ].
    unfold bind. destruct (get_book_data _ _ _ w) as [[d|e] w1];
      [apply IH | reflexivity].
  - rewrite for_cards_skip by assumption. apply IH.
Qed.

End Cards.

(** C9: a card whose anchor has no [href], or an empty one, is skipped:
    the loop over the cards does with it in front exactly what it does
    without it (same records, same requests, same outcome), and a whole
    listing is processed as the listing without such cards. *)
Theorem C9_card_without_href
    (server : list string -> string -> reply)
    (html_parser : string -> Bs4.node)
    (a : Bs4.Tag) (rest : list Bs4.Tag)
    (all_books : list BookRecord) (w : world) :
  Bs4.get a "href" = None \/ Bs4.get a "href" = Some EmptyString ->
  for_cards server html_parser (a :: rest) all_books w
  = for_cards server html_parser rest all_books w
  /\ for_cards server html_parser (a :: rest) all_books w
     = for_cards server html_parser (List.filter has_link rest) all_books w
  /\ detail_links (a :: rest) = detail_links rest.
Proof.
  intros H.
  assert (Ha : has_link a = false)
    by (unfold has_link; destruct H as [-> | ->]; reflexivity).
  rewrite for_cards_skip by assumption.
  repeat split.
  - apply for_cards_filter.
  - cbn [detail_links]. destruct H as [-> | ->]; reflexivity.
Qed.

Lemma C9_card_without_href_witness :
  for_cards Sample.server Sample.html_parser
    (Sample.missing :: Sample.after_missing) [] Sample.start
  = for_cards Sample.server Sample.html_parser Sample.after_missing []
      Sample.start.
Proof.
  exact (proj1 (C9_card_without_href Sample.server Sample.html_parser
                  Sample.missing Sample.after_missing [] Sample.start
                  (or_introl eq_refl))).
Defined.

(** ** Runs: what a call does to the world *)

Lemma extends_refl (w : world) : extends w w [] [].
Proof. unfold extends. now rewrite !app_nil_r. Qed.

Lemma extends_trans (w1 w2 w3 : world) (n1 n2 : list request)
    (r1 r2 : list BookRecord) :
  extends w1 w2 n1 r1 -> extends w2 w3 n2 r2 ->
  extends w1 w3 (n1 ++ n2) (r1 ++ r2).
Proof.
  unfold extends. intros (A1 & B1 & C1) (A2 & B2 & C2).
  rewrite A2, A1, B2, B1, C2, C1, !app_assoc. now repeat split.
Qed.

Lemma extends_request (q : request) (w : world) :
  extends w (after_request q w) [q] [].
Proof. unfold extends, after_request. simpl. now rewrite app_nil_r. Qed.

Lemma extends_print (d : BookRecord) (w : world) :
  extends w (after_print d w) [] [d].
Proof. unfold extends, after_print. simpl. now rewrite app_nil_r. Qed.

Section Run.

Variable server : list string -> string -> reply.
Variable html_parser : string -> Bs4.node.

Lemma session_get_run (by_ : origin) (u : string) (w : world) :
  session_get server by_ u w
  = (match server (history w) u with
     | Reply r => Ok r
     | NoReply => Raise (ConnectionError u)
     end, after_request (request_of server by_ u w) w).
Proof.
  unfold session_get, after_request, request_of, history.
  destruct (server _ u); reflexivity.
Qed.

(** [get_book_data] sends one request; it raises when the verdict on
    that request says so, and otherwise prints and returns the record
    read off the reply. *)
Lemma get_book_data_run (u : string) (w : world) :
  let q := request_of server Detail u w in
  match verdict q with
  | Some (Some e) =>
      e = failure_of q /\ detail_fetch_raises q
      /\ get_book_data server html_parser u w = (Raise e, after_request q w)
  | Some None => False
  | None =>
      exists r,
        req_reply q = Reply r
        /\ ~ (400 <= status_code r < 600)
        /\ get_book_data server html_parser u w
           = (Ok (book_data_of (BeautifulSoup html_parser (text r)) u),
              after_print
                (book_data_of (BeautifulSoup html_parser (text r)) u)
                (after_request q w))
  end.
Proof.
  intros q. subst q.
  unfold verdict, failure_of, detail_fetch_raises, get_book_data, bind.
  rewrite session_get_run. cbn [request_of req_reply req_by req_url].
  destruct (server (history w) u) as [r|].
  - unfold raise_for_status.
    destruct ((400 <=? status_code r) && (status_code r <? 600)) eqn:E.
    + repeat split. right. exists r. split; [reflexivity | ].
      apply andb_true_iff in E as [E1 E2]. lia.
    + exists r. repeat split.
      intros [H1 H2]. apply andb_false_iff in E as [E | E]; lia.
  - repeat split. now left.
Qed.

(** The two ways [get_book_data] ends, for the loops that call it. *)
Lemma get_book_data_cases (u : string) (w : world) :
  let q := request_of server Detail u w in
  (exists d, verdict q = None /\ url d = u
             /\ get_book_data server html_parser u w
                = (Ok d, after_print d (after_request q w)))
  \/ (exists e, verdict q = Some (Some e)
                /\ get_book_data server html_parser u w
                   = (Raise e, after_request q w)).
Proof.
  intros q. pose proof (get_book_data_run u w) as H. cbv zeta in H.
  fold q in H. destruct (verdict q) as [[e|]|].
  - right. exists e. now destruct H as (_ & _ & H).
  - contradiction.
  - left. destruct H as (r & _ & _ & H).
    eexists. split; [reflexivity | ]. split; [ | exact H].
    apply book_data_of_url.
Qed.

(** The loop over the cards: it sends book-page requests only; when it
    returns, every one of them let the run go on and there is one record
    per link, in order; when it raises, the last request is the one that
    raised. *)
Lemma for_cards_run (cards : list Bs4.Tag) :
  forall (acc : list BookRecord) (w : world) res w',
    for_cards server html_parser cards acc w = (res, w') ->
    exists new recs,
      extends w w' new recs
      /\ Forall (fun q => req_by q = Detail) new
      /\ match res with
         | Ok books =>
             books = (acc ++ recs)%list
             /\ Forall (fun q => verdict q = None) new
             /\ List.map sent new
                = List.map (fun h => (Detail, book_url_of h))
                           (detail_links cards)
             /\ List.map url recs
                = List.map book_url_of (detail_links cards)
         | Raise e =>
             exists pre q,
               new = (pre ++ [q])%list
               /\ Forall (fun q => verdict q = None) pre
               /\ verdict q = Some (Some e)
         end.
Proof.
  induction cards as [|a rest IH]; intros acc w res w' H.
  - cbn in H. injection H as <- <-. exists [], [].
    split; [apply extends_refl | ]. split; [constructor | ].
    rewrite app_nil_r. repeat split; constructor.
  - cbn [for_cards detail_links] in *.
    destruct (Bs4.get a "href") as [h|]; [ | now apply IH].
    destruct (Str.is_empty h); [now apply IH | ].
    unfold bind in H.
    destruct (get_book_data_cases (book_url_of h) w)
      as [(d & Hv & Hu & E) | (e & Hv & E)]; rewrite E in H.
    + apply IH in H as (new & recs & Hx & Hd & Hres).
      exists (request_of server Detail (book_url_of h) w :: new), (d :: recs).
      split.
      { change (request_of server Detail (book_url_of h) w :: new)
          with (([request_of server Detail (book_url_of h) w] ++ [])
                  ++ new)%list.
        change (d :: recs) with (([] ++ [d]) ++ recs)%list.
        eapply extends_trans; [ | exact Hx].
        eapply extends_trans; [apply extends_request | apply extends_print]. }
      split; [constructor; [reflexivity | assumption] | ].
      destruct res as [books | e].
      * destruct Hres as (Hb & Hf & Hs & Hurl).
        rewrite <- app_assoc in Hb. repeat split.
        -- exact Hb.
        -- now constructor.
        -- cbn [List.map]. now rewrite Hs.
        -- cbn [List.map]. now rewrite Hurl, Hu.
      * destruct Hres as (pre & q & -> & Hpre & Hq).
        exists (request_of server Detail (book_url_of h) w :: pre), q.
        repeat split; [ | assumption]. now constructor.
    + injection H as <- <-.
      exists [request_of server Detail (book_url_of h) w], [].
      split; [apply extends_request | ].
      split; [repeat constructor | ].
      exists [], (request_of server Detail (book_url_of h) w).
      repeat split; [constructor | assumption].
Qed.

End Run.

Section Loop.

Variable server : list string -> string -> reply.
Variable html_parser : string -> Bs4.node.

(** One iteration of the [while True] loop, unfolded. *)
Lemma while_true_step (fuel : nat) (pages : option Z) (page_num : Z)
    (acc : list BookRecord) (w : world) :
  while_true server html_parser (S fuel) pages page_num acc w
  = let q := request_of server Catalog (page_url page_num) w in
    match req_reply q with
    | NoReply =>
        Some (Raise (ConnectionError (page_url page_num)),
              after_request q w)
    | Reply resp =>
        if negb (status_code resp =? 200)
        then Some (Ok acc, after_request q w)
        else
          match for_cards server html_parser
                  (Bs4.select (BeautifulSoup html_parser (text resp))
                              Sel.book_cards)
                  acc (after_request q w) with
          | (Raise e, w2) => Some (Raise e, w2)
          | (Ok all_books, w2) =>
              if is_limit page_num pages then Some (Ok all_books, w2)
              else while_true server html_parser fuel pages (page_num + 1)
                              all_books w2
          end
    end.
Proof.
  cbn [while_true]. rewrite session_get_run.
  cbn [request_of req_reply]. destruct (server _ _); reflexivity.
Qed.

Lemma run_shape_cons {A : Type} (q : request) (new : list request)
    (res : result A) :
  verdict q = None -> run_shape new res -> run_shape (q :: new) res.
Proof.
  intros Hq (pre & tail & -> & Hpre & Hres).
  exists (q :: pre), tail. repeat split; [now constructor | assumption].
Qed.

Lemma run_shape_app {A : Type} (pre new : list request) (res : result A) :
  Forall (fun q => verdict q = None) pre ->
  run_shape new res -> run_shape (pre ++ new) res.
Proof.
  induction 1 as [|q pre Hq _ IH]; intros H; [assumption | ].
  cbn [app]. apply run_shape_cons; auto.
Qed.

(** The loop: the requests it sends have the shape of a run, and the
    records it returns are the ones it was given followed by the ones
    printed meanwhile. *)
Lemma while_true_run (fuel : nat) :
  forall (pages : option Z) (page_num : Z) (acc : list BookRecord)
         (w : world) res w',
    while_true server html_parser fuel pages page_num acc w = Some (res, w') ->
    exists new recs,
      extends w w' new recs
      /\ run_shape new res
      /\ match res with
         | Ok books => books = (acc ++ recs)%list
         | Raise _ => True
         end.
Proof.
  induction fuel as [|fuel IH]; intros pages page_num acc w res w' H;
    [discriminate | ].
  rewrite while_true_step in H. cbv zeta in H.
  set (q := request_of server Catalog (page_url page_num) w) in *.
  destruct (req_reply q) as [resp|] eqn:Hr.
  - destruct (status_code resp =? 200) eqn:Hs; cbn [negb] in H.
    + assert (Hq : verdict q = None)
        by (unfold verdict; rewrite Hr; cbn; now rewrite Hs).
      destruct (for_cards _ _ _ _ _) as [[books|e] w2] eqn:Hc.
      * apply for_cards_run in Hc
          as (n1 & r1 & X1 & _ & -> & F1 & _ & _).
        destruct (is_limit page_num pages).
        -- injection H as <- <-. exists (q :: n1), r1.
           split; [ | split; [ | reflexivity]].
           ++ change (q :: n1) with ([q] ++ n1)%list.
              change r1 with ([] ++ r1)%list.
              eapply extends_trans; [apply extends_request | exact X1].
           ++ exists (q :: n1), []. rewrite app_nil_r.
              repeat split; [now constructor | now left].
        -- apply IH in H as (n2 & r2 & X2 & S2 & Hb).
           exists (q :: n1 ++ n2)%list, (r1 ++ r2)%list.
           split; [ | split].
           ++ change (q :: n1 ++ n2)%list with ([q] ++ (n1 ++ n2))%list.
              change (r1 ++ r2)%list with ([] ++ (r1 ++ r2))%list.
              eapply extends_trans; [apply extends_request | ].
              eapply extends_trans; eassumption.
           ++ apply run_shape_cons; [assumption | ].
              now apply run_shape_app.
           ++ destruct res; [ | exact I]. now rewrite app_assoc.
      * injection H as <- <-.
        apply for_cards_run in Hc
          as (n1 & r1 & X1 & _ & pre & q1 & -> & Hpre & Hq1).
        exists (q :: pre ++ [q1])%list, r1.
        split; [ | split; [ | exact I]].
        -- change (q :: pre ++ [q1])%list with ([q] ++ (pre ++ [q1]))%list.
           change r1 with ([] ++ r1)%list.
           eapply extends_trans; [apply extends_request | exact X1].
        -- exists (q :: pre), [q1]. repeat split; [now constructor | ].
           now exists q1.
    + injection H as <- <-. exists [q], [].
      split; [apply extends_request | split; [ | now rewrite app_nil_r]].
      exists [], [q]. repeat split; [constructor | ].
      right. exists q. split; [reflexivity | ].
      unfold verdict. rewrite Hr. cbn. now rewrite Hs.
  - injection H as <- <-. exists [q], [].
    split; [apply extends_request | split; [ | exact I]].
    exists [], [q]. repeat split; [constructor | ].
    exists q. split; [reflexivity | ].
    unfold verdict. now rewrite Hr.
Qed.

(** A request of a run that does not let it go on is the last one, and
    it decides how the run ends. *)
Lemma run_shape_stop {A : Type} (new : list request) (res : result A)
    (q : request) :
  run_shape new res -> In q new -> verdict q <> None ->
  exists pre,
    new = (pre ++ [q])%list
    /\ match res with
       | Ok _ => verdict q = Some None
       | Raise e => verdict q = Some (Some e)
       end.
Proof.
  intros (pre & tail & -> & Hpre & Hres) Hin Hq.
  apply in_app_or in Hin as [Hin | Hin].
  - rewrite Forall_forall in Hpre. now elim Hq; apply Hpre.
  - destruct res as [a | e].
    + destruct Hres as [-> | (q' & -> & Hv)]; [destruct Hin | ].
      destruct Hin as [<- | []]. now exists pre.
    + destruct Hres as (q' & -> & Hv).
      destruct Hin as [<- | []]. now exists pre.
Qed.

Lemma verdict_detail_raises (q : request) :
  detail_fetch_raises q -> verdict q = Some (Some (failure_of q)).
Proof.
  unfold detail_fetch_raises, verdict, failure_of.
  intros (Hb & [Hr | (r & Hr & Hs)]); rewrite Hr; [reflexivity | ].
  rewrite Hb.
  replace ((400 <=? status_code r) && (status_code r <? 600)) with true;
    [reflexivity | ].
  symmetry. apply andb_true_iff. split; [apply Z.leb_le | apply Z.ltb_lt]; lia.
Qed.

Lemma verdict_catalog_fails (q : request) :
  catalog_fetch_fails q -> verdict q = Some None.
Proof.
  unfold catalog_fetch_fails, verdict.
  intros (Hb & r & Hr & Hs). rewrite Hr, Hb.
  destruct (Z.eqb_spec (status_code r) 200); [contradiction | reflexivity].
Qed.

(** [scrape_books]: the loop, then the file when the loop returned and
    saving was asked for. *)
Lemma scrape_books_run (fuel : nat) (is_save : bool) (pages : option Z)
    (w : world) res w' :
  scrape_books server html_parser fuel is_save pages w = Some (res, w') ->
  exists new recs,
    requests w' = (requests w ++ new)%list
    /\ stdout w' = (stdout w ++ recs)%list
    /\ run_shape new res
    /\ match res with
       | Ok books =>
           books = recs
           /\ books_file w'
              = if is_save
                then Some (String.concat EmptyString (books_lines books))
                else books_file w
       | Raise _ => books_file w' = books_file w
       end.
Proof.
  unfold scrape_books. intros H.
  destruct (while_true _ _ _ _ _ _ _) as [[[books|e] w1]|] eqn:Hw;
    [ | | discriminate].
  - apply while_true_run in Hw as (new & recs & (Hq & Hp & Hf) & Hs & Hb).
    cbn [app] in Hb. subst books. exists new, recs.
    destruct is_save; injection H as <- <-; cbn; auto.
  - apply while_true_run in Hw as (new & recs & (Hq & Hp & Hf) & Hs & _).
    injection H as <- <-. now exists new, recs.
Qed.

End Loop.

(** ** The records a run prints *)

Lemma records_of_app (html_parser : string -> Bs4.node)
    (a b : list request) :
  records_of html_parser (a ++ b)
  = (records_of html_parser a ++ records_of html_parser b)%list.
Proof.
  induction a as [|q a IH]; [reflexivity | ]. cbn [app records_of].
  destruct (record_of html_parser q); cbn [app]; now rewrite IH.
Qed.

Section Records.

Variable server : list string -> string -> reply.
Variable html_parser : string -> Bs4.node.

(** What [get_book_data] prints is the record of its request. *)
Lemma get_book_data_record (u : string) (w : world) res w' :
  get_book_data server html_parser u w = (res, w') ->
  exists recs,
    extends w w' [request_of server Detail u w] recs
    /\ recs = records_of html_parser [request_of server Detail u w]
    /\ match res with Ok d => recs = [d] | Raise _ => recs = [] end.
Proof.
  intros H. pose proof (get_book_data_run server html_parser u w) as R.
  cbv zeta in R. set (q := request_of server Detail u w) in *.
  cbn [records_of]. unfold record_of.
  change (req_by q) with Detail. change (req_url q) with u.
  destruct (verdict q) as [[e|]|] eqn:Hv.
  - destruct R as (_ & (_ & Hr) & E). rewrite E in H. injection H as <- <-.
    exists []. split; [apply extends_request | ].
    split; [ | reflexivity].
    destruct Hr as [-> | (r & -> & Hs)]; [reflexivity | ].
    replace ((400 <=? status_code r) && (status_code r <? 600)) with true
      by (symmetry; apply andb_true_iff; split;
          [apply Z.leb_le | apply Z.ltb_lt]; lia).
    reflexivity.
  - contradiction.
  - destruct R as (r & Hr & Hs & E). rewrite E in H. injection H as <- <-.
    exists [book_data_of (BeautifulSoup html_parser (text r)) u].
    split.
    { exact (extends_trans _ _ _ _ _ _ _
               (extends_request q w) (extends_print _ _)). }
    split; [ | reflexivity]. rewrite Hr.
    replace ((400 <=? status_code r) && (status_code r <? 600)) with false;
      [reflexivity | ].
    symmetry. apply andb_false_iff.
    destruct (Z.leb_spec 400 (status_code r)); [right | now left].
    apply Z.ltb_ge. lia.
Qed.

Lemma for_cards_records (cards : list Bs4.Tag) :
  forall (acc : list BookRecord) (w : world) res w',
    for_cards server html_parser cards acc w = (res, w') ->
    exists new recs,
      extends w w' new recs
      /\ recs = records_of html_parser new
      /\ match res with
         | Ok books => books = (acc ++ recs)%list
         | Raise _ => True
         end.
Proof.
  induction cards as [|a rest IH]; intros acc w res w' H.
  - cbn in H. injection H as <- <-. exists [], [].
    split; [apply extends_refl | ]. split; [reflexivity | ].
    now rewrite app_nil_r.
  - cbn [for_cards] in H.
    destruct (Bs4.get a "href") as [h|]; [ | now apply IH].
    destruct (Str.is_empty h); [now apply IH | ].
    unfold bind in H.
    destruct (get_book_data server html_parser (book_url_of h) w)
      as [[d|e] w1] eqn:E;
      destruct (get_book_data_record _ _ _ _ E) as (recs1 & Hext & Hr & Hd).
    + apply IH in H as (new & recs & Hext2 & Hr2 & Hres).
      eexists. eexists. split; [exact (extends_trans _ _ _ _ _ _ _ Hext Hext2) | ].
      split; [now rewrite records_of_app, <- Hr, <- Hr2 | ].
      destruct res as [books|e]; [ | exact I].
      rewrite Hres, Hd, <- app_assoc. reflexivity.
    + injection H as <- <-. eexists. eexists.
      split; [exact Hext | ]. split; [exact Hr | exact I].
Qed.

Lemma while_true_records (fuel : nat) :
  forall (pages : option Z) (page_num : Z) (acc : list BookRecord)
         (w : world) res w',
    while_true server html_parser fuel pages page_num acc w = Some (res, w') ->
    exists new recs,
      extends w w' new recs
      /\ recs = records_of html_parser new
      /\ match res with
         | Ok books => books = (acc ++ recs)%list
         | Raise _ => True
         end.
Proof.
  induction fuel as [|fuel IH]; intros pages page_num acc w res w' H;
    [discriminate | ].
  rewrite while_true_step in H. cbv zeta in H.
  set (q := request_of server Catalog (page_url page_num) w) in *.
  assert (Hq : forall w2 new1 recs1,
             extends (after_request q w) w2 new1 recs1 ->
             recs1 = records_of html_parser new1 ->
             extends w w2 (q :: new1) recs1
             /\ recs1 = records_of html_parser (q :: new1)).
  { intros w2 new1 recs1 Hext Hr. split; [ | exact Hr].
    exact (extends_trans _ _ _ _ _ _ _ (extends_request q w) Hext). }
  destruct (req_reply q) as [resp|] eqn:Hrep.
  2:{ injection H as <- <-. exists [q], [].
      destruct (Hq _ [] [] (extends_refl _) eq_refl) as [H1 H2].
      split; [exact H1 | split; [exact H2 | exact I]]. }
  destruct (negb (status_code resp =? 200)).
  { injection H as <- <-. exists [q], [].
    destruct (Hq _ [] [] (extends_refl _) eq_refl) as [H1 H2].
    split; [exact H1 | ]. split; [exact H2 | now rewrite app_nil_r]. }
  destruct (for_cards _ _ _ _ _) as [[books1|e] w2] eqn:Hc;
    apply for_cards_records in Hc as (new1 & recs1 & Hext & Hr1 & Hb).
  2:{ injection H as <- <-. exists (q :: new1), recs1.
      destruct (Hq _ _ _ Hext Hr1) as [H1 H2].
      split; [exact H1 | split; [exact H2 | exact I]]. }
  destruct (is_limit page_num pages).
  { injection H as <- <-. exists (q :: new1), recs1.
    destruct (Hq _ _ _ Hext Hr1) as [H1 H2].
    split; [exact H1 | split; [exact H2 | exact Hb]]. }
  apply IH in H as (new2 & recs2 & Hext2 & Hr2 & Hres).
  destruct (Hq _ _ _ Hext Hr1) as [H1 H2].
  exists ((q :: new1) ++ new2)%list, (recs1 ++ recs2)%list.
  split; [exact (extends_trans _ _ _ _ _ _ _ H1 Hext2) | ].
  split; [now rewrite records_of_app, <- H2, <- Hr2 | ].
  destruct res as [books|e]; [ | exact I].
  now rewrite Hres, Hb, <- app_assoc.
Qed.

Lemma scrape_books_records (fuel : nat) (is_save : bool) (pages : option Z)
    (w : world) res w' :
  scrape_books server html_parser fuel is_save pages w = Some (res, w') ->
  exists new recs,
    requests w' = (requests w ++ new)%list
    /\ stdout w' = (stdout w ++ recs)%list
    /\ recs = records_of html_parser new
    /\ match res with Ok books => books = recs | Raise _ => True end.
Proof.
  unfold scrape_books. intros H.
  destruct (while_true _ _ _ _ _ _ _) as [[res1 w1]|] eqn:Hw;
    [ | discriminate].
  apply while_true_records in Hw as (new & recs & (Hq & Hs & _) & Hr & Hres).
  exists new, recs.
  destruct res1 as [books|e]; [destruct is_save | ];
    injection H as <- <-;
    (split; [exact Hq | split; [exact Hs | split; [exact Hr | ]]]);
    first [exact I | now rewrite Hres].
Qed.

End Records.

Lemma record_of_in (html_parser : string -> Bs4.node) (new : list request)
    (q : request) (d : BookRecord) :
  In q new -> record_of html_parser q = Some d ->
  In d (records_of html_parser new).
Proof.
  induction new as [|x new IH]; [intros [] | ]. cbn [records_of].
  intros [-> | Hin] Hd.
  - rewrite Hd. now left.
  - destruct (record_of html_parser x); [right | ]; now apply IH.
Qed.

(** ** Claim C2 *)

(** C2, as the code has it: in every run of [scrape_books], a book-page
    fetch that raises (no response, or a status from 400 to 599) is the
    last request of the run, the run ends with that exception, and the
    file is left as it was; a catalogue-page fetch that comes back with
    another status than 200 is the last request of the run too, and the
    run returns the records collected (and printed) so far.  A book page
    that answers any other status, a success or not, is read as a page
    and yields a record: the records the run prints, and returns when it
    returns, are the records of the book-page replies with a status
    outside 400 to 599, one for each, in the order of the requests. *)
Theorem C2_failed_fetches
    (server : list string -> string -> reply)
    (html_parser : string -> Bs4.node)
    (fuel : nat) (is_save : bool) (pages_to_scrape : option Z)
    (w : world) (res : result (list BookRecord)) (w' : world) :
  scrape_books server html_parser fuel is_save pages_to_scrape w
  = Some (res, w') ->
  exists new recs,
    requests w' = (requests w ++ new)%list
    /\ stdout w' = (stdout w ++ recs)%list
    /\ (forall q, In q new -> detail_fetch_raises q ->
          res = Raise (failure_of q)
          /\ (exists pre, new = (pre ++ [q])%list)
          /\ books_file w' = books_file w)
    /\ (forall q, In q new -> catalog_fetch_fails q ->
          res = Ok recs /\ exists pre, new = (pre ++ [q])%list)
    /\ recs = records_of html_parser new
    /\ (forall q r, In q new -> req_by q = Detail -> req_reply q = Reply r ->
          ~ (400 <= status_code r < 600) ->
          In (book_data_of (BeautifulSoup html_parser (text r)) (req_url q))
             recs)
    /\ (forall books, res = Ok books -> books = recs).
Proof.
  intros H.
  destruct (scrape_books_records server html_parser _ _ _ _ _ _ H)
    as (new2 & recs2 & Hq2 & Hp2 & Hrec & Hok).
  apply scrape_books_run in H as (new & recs & Hq & Hp & Hs & Hres).
  assert (En : new2 = new)
    by (rewrite Hq in Hq2; apply app_inv_head in Hq2; now symmetry).
  assert (Er : recs2 = recs)
    by (rewrite Hp in Hp2; apply app_inv_head in Hp2; now symmetry).
  rewrite En, Er in Hrec. rewrite Er in Hok. clear Hq2 Hp2 En Er new2 recs2.
  exists new, recs.
  split; [exact Hq | ]. split; [exact Hp | ].
  assert (Hnew : recs = records_of html_parser new
                 /\ (forall q r, In q new -> req_by q = Detail ->
                       req_reply q = Reply r ->
                       ~ (400 <= status_code r < 600) ->
                       In (book_data_of (BeautifulSoup html_parser (text r))
                                        (req_url q)) recs)
                 /\ (forall books, res = Ok books -> books = recs)).
  { split; [exact Hrec | ]. split.
    - intros q r Hin Hby Hrep Hst. rewrite Hrec.
      apply (record_of_in html_parser new q); [exact Hin | ].
      unfold record_of. rewrite Hby, Hrep.
      replace ((400 <=? status_code r) && (status_code r <? 600)) with false;
        [reflexivity | ].
      symmetry. apply andb_false_iff.
      destruct (Z.leb_spec 400 (status_code r)); [right | now left].
      apply Z.ltb_ge. lia.
    - intros books ->. exact Hok. }
  repeat split; try assumption; try apply Hnew.
  - apply verdict_detail_raises in H0.
    destruct (run_shape_stop new res q Hs H) as (pre & _ & Hv);
      [rewrite H0; discriminate | ].
    destruct res as [books | e]; rewrite H0 in Hv; [discriminate | ].
    now injection Hv as <-.
  - apply verdict_detail_raises in H0.
    destruct (run_shape_stop new res q Hs H) as (pre & E & _);
      [rewrite H0; discriminate | now exists pre].
  - apply verdict_detail_raises in H0.
    destruct (run_shape_stop new res q Hs H) as (pre & _ & Hv);
      [rewrite H0; discriminate | ].
    destruct res as [books | e]; rewrite H0 in Hv; [discriminate | ].
    exact Hres.
  - apply verdict_catalog_fails in H0.
    destruct (run_shape_stop new res q Hs H) as (pre & _ & Hv);
      [rewrite H0; discriminate | ].
    destruct res as [books | e]; rewrite H0 in Hv; [ | discriminate].
    destruct Hres as [-> _]. reflexivity.
  - apply verdict_catalog_fails in H0.
    destruct (run_shape_stop new res q Hs H) as (pre & E & _);
      [rewrite H0; discriminate | now exists pre].
Qed.

Lemma C2_failed_fetches_witness :
  fst (Sample.run_of Sample.server_gone 3 true None)
  = Raise (HTTPError 404 Sample.velvet_url)
  /\ books_file (snd (Sample.run_of Sample.server_gone 3 true None)) = None.
Proof.
  destruct (C2_failed_fetches Sample.server_gone Sample.html_parser 3 true None
              Sample.start
              (fst (Sample.run_of Sample.server_gone 3 true None))
              (snd (Sample.run_of Sample.server_gone 3 true None))
              eq_refl)
    as (new & recs & Hq & _ & Hd & _).
  cbn [Sample.start requests app] in Hq.
  destruct (Hd {| req_by := Detail; req_url := Sample.velvet_url;
                  req_reply := Sample.status 404 |})
    as (Hres & _ & Hf).
  - rewrite <- Hq. vm_compute. tauto.
  - split; [reflexivity | ]. right. eexists. split; [reflexivity | ].
    cbn. lia.
  - split; [exact Hres | exact Hf].
Defined.

(** The claim as the spec states it fails: a book page that answers 304
    is a fetch without a success status, and the run neither aborts nor
    skips the save; it collects a record with every field empty. *)
Lemma C2_counterexample :
  exists books w',
    scrape_books Sample.server_304 Sample.html_parser 3 true None Sample.start
    = Some (Ok books, w')
    /\ In {| req_by := Detail; req_url := Sample.velvet_url;
             req_reply := Sample.status 304 |} (requests w')
    /\ List.length books = 2%nat
    /\ List.map title books = [Some "A Light in the Attic"; None]
    /\ books_file w' <> None.
Proof.
  eexists. eexists. split; [vm_compute; reflexivity | ].
  cbn [requests books_file].
  split; [right; right; left; reflexivity | ].
  split; [reflexivity | ]. split; [reflexivity | discriminate].
Qed.

(** ** Claim C3 *)

Section Termination.

Variable server : list string -> string -> reply.
Variable html_parser : string -> Bs4.node.

(** A catalogue page that does not come back with status 200 ends the
    loop in the iteration that fetches it. *)
Lemma while_true_stops_here (fuel : nat) (pages : option Z) (page_num : Z)
    (acc : list BookRecord) (w : world) :
  (forall r, server (history w) (page_url page_num) = Reply r ->
             status_code r <> 200) ->
  exists res,
    while_true server html_parser (S fuel) pages page_num acc w
    = Some (res, after_request
                   (request_of server Catalog (page_url page_num) w) w)
    /\ (forall r, server (history w) (page_url page_num) = Reply r ->
                  res = Ok acc).
Proof.
  intros H. rewrite while_true_step. cbv zeta. cbn [request_of req_reply].
  destruct (server (history w) (page_url page_num)) as [r|] eqn:E.
  - destruct (Z.eqb_spec (status_code r) 200) as [Hs | Hs];
      [now elim (H r) | ].
    cbn [negb]. eexists. split; [reflexivity | reflexivity].
  - eexists. split; [reflexivity | discriminate].
Qed.

(** With no page limit, the loop that starts at page [page_num] is over
    after at most [k + 1] iterations when page [page_num + k] never
    comes back with status 200. *)
Lemma while_true_terminates (n : Z) :
  (forall h r, server h (page_url n) = Reply r -> status_code r <> 200) ->
  forall (k fuel : nat) (page_num : Z) (acc : list BookRecord) (w : world),
    page_num + Z.of_nat k = n -> (k < fuel)%nat ->
    exists res w',
      while_true server html_parser fuel None page_num acc w
      = Some (res, w').
Proof.
  intros Hn. induction k as [|k IH]; intros fuel page_num acc w Hp Hf;
    (destruct fuel as [|fuel]; [lia | ]).
  - replace page_num with n by lia.
    destruct (while_true_stops_here fuel None n acc w (Hn (history w)))
      as (res & E & _).
    eauto.
  - rewrite while_true_step. cbv zeta.
    destruct (req_reply _) as [r|]; [ | eauto].
    destruct (negb _); [eauto | ].
    destruct (for_cards _ _ _ _ _) as [[books|e] w2]; [ | eauto].
    cbn [is_limit]. apply IH; lia.
Qed.

End Termination.

(** C3: with no page limit, the loop ends in the very iteration whose
    catalogue fetch comes back with another status than 200, returning
    what was collected, whatever the earlier fetches were; hence the crawl
    does not run forever on a site where some page [n] never answers 200:
    [n] iterations are enough for [scrape_books] to return or raise. *)
Theorem C3_crawl_terminates
    (server : list string -> string -> reply)
    (html_parser : string -> Bs4.node) :
  (forall (fuel : nat) (page_num : Z) (acc : list BookRecord) (w : world) r,
      server (history w) (page_url page_num) = Reply r ->
      status_code r <> 200 ->
      while_true server html_parser (S fuel) None page_num acc w
      = Some (Ok acc,
              after_request (request_of server Catalog (page_url page_num) w)
                            w))
  /\ (forall (n : Z) (fuel : nat) (is_save : bool) (w : world),
      1 <= n ->
      (forall h r, server h (page_url n) = Reply r -> status_code r <> 200) ->
      (Z.to_nat n <= fuel)%nat ->
      exists res w',
        scrape_books server html_parser fuel is_save None w = Some (res, w')).
Proof.
  split.
  - intros fuel page_num acc w r Hr Hs.
    destruct (while_true_stops_here server html_parser fuel None page_num
                acc w) as (res & E & Hres).
    + intros r' Hr'. rewrite Hr in Hr'. now injection Hr' as <-.
    + now rewrite E, (Hres r Hr).
  - intros n fuel is_save w Hn Hserver Hfuel.
    destruct (while_true_terminates server html_parser n Hserver
                (Z.to_nat (n - 1)) fuel 1 [] w) as (res & w' & E); [lia | lia | ].
    unfold scrape_books. rewrite E.
    destruct res as [books|e]; [destruct is_save | ]; eauto.
Qed.

Lemma C3_crawl_terminates_witness :
  (exists w',
     while_true Sample.server Sample.html_parser 1 None 2 [] Sample.start
     = Some (Ok [], w'))
  /\ exists res w',
       scrape_books Sample.server Sample.html_parser 2 true None Sample.start
       = Some (res, w').
Proof.
  split.
  - eexists.
    exact (proj1 (C3_crawl_terminates Sample.server Sample.html_parser)
             O 2 [] Sample.start {| status_code := 404; text := EmptyString |}
             eq_refl
             (fun H : 404 = 200 => match H with eq_refl => I end)).
  - refine (proj2 (C3_crawl_terminates Sample.server Sample.html_parser)
              2 2%nat true Sample.start _ _ _).
    + lia.
    + intros h r H. vm_compute in H. injection H as <-. cbn. lia.
    + vm_compute. lia.
Defined.

(** ** Claim C4 *)

Section OnePage.

Variable server : list string -> string -> reply.
Variable html_parser : string -> Bs4.node.

(** With the limit equal to the page number, the iteration is the last
    one, whatever happens in it. *)
Lemma while_true_last_page (fuel : nat) (page_num : Z)
    (acc : list BookRecord) (w : world) :
  exists res w' dnew,
    while_true server html_parser (S fuel) (Some page_num) page_num acc w
    = Some (res, w')
    /\ requests w'
       = (requests w
          ++ request_of server Catalog (page_url page_num) w :: dnew)%list
    /\ Forall (fun q => req_by q = Detail) dnew.
Proof.
  rewrite while_true_step. cbv zeta.
  set (q := request_of server Catalog (page_url page_num) w).
  destruct (req_reply q) as [r|].
  - destruct (negb _).
    + exists (Ok acc), (after_request q w), []. now repeat split.
    + destruct (for_cards _ _ _ _ _) as [res w2] eqn:Hc.
      apply for_cards_run in Hc as (new & recs & (Hq & _) & Hd & _).
      cbn [after_request requests] in Hq. rewrite <- app_assoc in Hq.
      cbn [is_limit]. rewrite Z.eqb_refl.
      destruct res as [books|e]; eexists _, _, new; now repeat split.
  - eexists _, _, []. now repeat split.
Qed.

End OnePage.

(** C4: with a page limit of 1 the crawl fetches catalogue page 1 and no
    other catalogue page, whatever happens: one iteration is enough, and
    every request after the first is a book-page request.  When page 1
    comes back with status 200 and the run returns, it returns one record
    per card link of that page, in the order of the links, and the
    requests sent are page 1 followed by the book pages in that order. *)
Theorem C4_one_page
    (server : list string -> string -> reply)
    (html_parser : string -> Bs4.node)
    (fuel : nat) (is_save : bool) (w : world) :
  (exists res w' dnew,
      scrape_books server html_parser (S fuel) is_save (Some 1) w
      = Some (res, w')
      /\ requests w'
         = (requests w ++ request_of server Catalog (page_url 1) w :: dnew)%list
      /\ Forall (fun q => req_by q = Detail) dnew)
  /\ (forall resp books w',
      server (history w) (page_url 1) = Reply resp ->
      status_code resp = 200 ->
      scrape_books server html_parser (S fuel) is_save (Some 1) w
      = Some (Ok books, w') ->
      let links :=
        detail_links (Bs4.select (BeautifulSoup html_parser (text resp))
                                 Sel.book_cards) in
      List.length books = List.length links
      /\ List.map url books = List.map book_url_of links
      /\ exists new,
           requests w' = (requests w ++ new)%list
           /\ List.map sent new
              = (Catalog, page_url 1)
                :: List.map (fun h => (Detail, book_url_of h)) links).
Proof.
  split.
  - destruct (while_true_last_page server html_parser fuel 1 [] w)
      as (res & w' & dnew & E & Hq & Hd).
    unfold scrape_books. rewrite E.
    destruct res as [books|e]; [destruct is_save | ];
      eexists _, _, dnew; (split; [reflexivity | ]); now split.
  - intros resp books w' Hr Hs H links.
    unfold scrape_books in H. rewrite while_true_step in H. cbv zeta in H.
    cbn [request_of req_reply] in H. rewrite Hr, Hs in H.
    cbn [Z.eqb Pos.eqb negb is_limit] in H.
    fold links in H.
    destruct (for_cards _ _ _ _ _) as [[books1|e] w2] eqn:Hc;
      [ | discriminate].
    apply for_cards_run in Hc
      as (new & recs & (Hq & _) & _ & Hb & _ & Hsent & Hurl).
    cbn [app] in Hb. subst books1.
    assert (books = recs /\ requests w' = requests w2) as [-> Hw].
    { destruct is_save; injection H as <- <-; now split. }
    split; [ | split].
    + rewrite <- (length_map url), Hurl. apply length_map.
    + exact Hurl.
    + exists (request_of server Catalog (page_url 1) w :: new).
      rewrite Hw, Hq. cbn [after_request requests].
      rewrite <- app_assoc. split; [reflexivity | ].
      cbn [List.map]. now rewrite Hsent.
Qed.

Lemma C4_one_page_witness :
  List.length (match fst (Sample.run_of Sample.server 1 false (Some 1)) with
               | Ok books => books
               | Raise _ => []
               end) = 2%nat
  /\ List.map url (match fst (Sample.run_of Sample.server 1 false (Some 1)) with
                   | Ok books => books
                   | Raise _ => []
                   end)
     = [Sample.attic_url; Sample.velvet_url].
Proof.
  destruct (proj2 (C4_one_page Sample.server Sample.html_parser O false
                     Sample.start)
              {| status_code := 200; text := "<listing>" |}
              (match fst (Sample.run_of Sample.server 1 false (Some 1)) with
               | Ok books => books
               | Raise _ => []
               end)
              (snd (Sample.run_of Sample.server 1 false (Some 1)))
              eq_refl eq_refl eq_refl)
    as (Hlen & Hurl & _).
  split; [exact Hlen | exact Hurl].
Defined.

(** ** Claim C1 *)

(** C1, as the code has it: [get_book_data] takes the URL alone and does
    the fetch itself.  Every call sends exactly one GET for that URL and
    leaves the file alone; when the fetch does not raise, the record is
    the one read off the reply's text and the URL, it is printed, and
    nothing else happens.  So two calls on the same URL that get the same
    reply end the same way, with the same record. *)
Theorem C1_get_book_data
    (server : list string -> string -> reply)
    (html_parser : string -> Bs4.node)
    (book_url : string) (w1 w2 : world) :
  server (history w1) book_url = server (history w2) book_url ->
  fst (get_book_data server html_parser book_url w1)
  = fst (get_book_data server html_parser book_url w2)
  /\ forall w res w',
       get_book_data server html_parser book_url w = (res, w') ->
       requests w'
       = (requests w ++ [request_of server Detail book_url w])%list
       /\ books_file w' = books_file w
       /\ match res with
          | Ok data =>
              stdout w' = (stdout w ++ [data])%list
              /\ exists r,
                   server (history w) book_url = Reply r
                   /\ data
                      = book_data_of (BeautifulSoup html_parser (text r))
                                     book_url
          | Raise e => stdout w' = stdout w
          end.
Proof.
  intros Hsame. split.
  - unfold get_book_data, bind. rewrite !session_get_run, Hsame.
    destruct (server (history w2) book_url) as [r|]; [ | reflexivity].
    unfold raise_for_status.
    destruct ((400 <=? status_code r) && (status_code r <? 600));
      reflexivity.
  - intros w res w' H.
    pose proof (get_book_data_run server html_parser book_url w) as R.
    cbv zeta in R.
    destruct (verdict _) as [[e|]|].
    + destruct R as (_ & _ & E). rewrite E in H. injection H as <- <-.
      now repeat split.
    + contradiction.
    + destruct R as (r & Hr & _ & E). rewrite E in H. injection H as <- <-.
      repeat split. exists r. now split.
Qed.

Lemma C1_get_book_data_witness :
  fst (get_book_data Sample.server Sample.html_parser Sample.attic_url
         Sample.start)
  = fst (get_book_data Sample.server Sample.html_parser Sample.attic_url
           (after_request
              (request_of Sample.server Catalog Sample.page1_url Sample.start)
              Sample.start)).
Proof.
  exact (proj1 (C1_get_book_data Sample.server Sample.html_parser
                  Sample.attic_url Sample.start
                  (after_request
                     (request_of Sample.server Catalog Sample.page1_url
                                 Sample.start)
                     Sample.start)
                  eq_refl)).
Defined.

(** The claim as the spec states it fails: the function is given no
    document, it fetches one, so a call changes the world (a request is
    sent, the record is printed), and two calls on the same URL return
    different records when the site's reply changes in between. *)
Lemma C1_counterexample :
  let first := get_book_data Sample.server_moving Sample.html_parser
                 Sample.attic_url Sample.start in
  let second := get_book_data Sample.server_moving Sample.html_parser
                  Sample.attic_url (snd first) in
  snd first <> Sample.start
  /\ List.length (requests (snd first)) = 1%nat
  /\ List.length (stdout (snd first)) = 1%nat
  /\ fst first <> fst second.
Proof.
  cbv zeta. repeat split; try reflexivity.
  - intros H. apply (f_equal (fun w => List.length (requests w))) in H.
    vm_compute in H. discriminate.
  - intros H.
    assert (E : match fst (get_book_data Sample.server_moving
                             Sample.html_parser Sample.attic_url
                             Sample.start) with
                | Ok d => title d
                | Raise _ => None
                end
                = match fst (get_book_data Sample.server_moving
                               Sample.html_parser Sample.attic_url
                               (snd (get_book_data Sample.server_moving
                                       Sample.html_parser Sample.attic_url
                                       Sample.start))) with
                  | Ok d => title d
                  | Raise _ => None
                  end) by (now rewrite <- H).
    vm_compute in E. discriminate.
Qed.

(** ** Reading back what [json.dumps] writes *)

(** *** Strings *)

Lemma scanstring_escape_char (c : ascii) (r : string) :
  Json.scanstring (Json.escape_char c ++ r)
  = Json.cons_char c (Json.scanstring r).
Proof.
  destruct c as [[] [] [] [] [] [] [] []]; reflexivity.
Qed.

Lemma scanstring_escape (s rest : string) :
  Json.scanstring (Json.escape s ++ String "034" rest) = Some (s, rest).
Proof.
  induction s as [|c s IH]; [reflexivity | ].
  cbn [Json.escape]. rewrite append_assoc, scanstring_escape_char, IH.
  reflexivity.
Qed.

Lemma escape_char_no_lf (c : ascii) : no_lf (Json.escape_char c) = true.
Proof.
  destruct c as [[] [] [] [] [] [] [] []]; reflexivity.
Qed.


(** *** Integers *)

Lemma digit_char_spec (d : Z) :
  0 <= d <= 9 ->
  Str.isdigit (Str.digit_char d) = true
  /\ Str.digit_val (Str.digit_char d) = d
  /\ (0 < d -> N.eqb (N_of_ascii (Str.digit_char d)) 48 = false).
Proof.
  intros H.
  assert (E : d = 0 \/ d = 1 \/ d = 2 \/ d = 3 \/ d = 4 \/ d = 5 \/ d = 6
              \/ d = 7 \/ d = 8 \/ d = 9) by lia.
  repeat (destruct E as [-> | E]); try subst d;
    (split; [reflexivity | split; [reflexivity | intros; try reflexivity; lia]]).
Qed.

Lemma int_from_shift (s : string) :
  forall a,
    Str.int_of_digits_from a s
    = a * 10 ^ Z.of_nat (String.length s) + Str.int_of_digits_from 0 s.
Proof.
  induction s as [|c s IH]; intros a.
  - cbn. lia.
  - cbn [Str.int_of_digits_from String.length].
    rewrite IH, (IH (10 * 0 + Str.digit_val c)).
    rewrite Nat2Z.inj_succ, Z.pow_succ_r by lia. lia.
Qed.

Lemma int_cons (c : ascii) (s : string) :
  Str.int (String c s)
  = Str.digit_val c * 10 ^ Z.of_nat (String.length s) + Str.int s.
Proof.
  unfold Str.int. cbn [Str.int_of_digits_from]. rewrite int_from_shift. lia.
Qed.

(** The digits [digits_of] puts in front of [acc]: they start with a
    non-zero digit and read back as [n]. *)
Lemma digits_of_spec (fuel : nat) :
  forall (n : Z) (acc : string),
    0 < n < 2 ^ Z.of_nat fuel ->
    exists c r,
      Str.digits_of fuel n acc = String c (r ++ acc)
      /\ Str.isdigit c = true
      /\ N.eqb (N_of_ascii c) 48 = false
      /\ Str.all_digits r = true
      /\ forall t, Str.all_digits t = true ->
           Str.int (String c (r ++ t))
           = n * 10 ^ Z.of_nat (String.length t) + Str.int t.
Proof.
  induction fuel as [|fuel IH]; intros n acc Hn.
  - cbn in Hn. lia.
  - cbn [Str.digits_of].
    assert (Hm : 0 <= n mod 10 <= 9) by (pose proof (Z.mod_pos_bound n 10); lia).
    destruct (digit_char_spec (n mod 10) Hm) as (Hd & Hv & Hz).
    destruct (Z.ltb_spec n 10) as [Hlt | Hge].
    + exists (Str.digit_char (n mod 10)), EmptyString.
      rewrite Z.mod_small in * by lia.
      repeat split; auto; [apply Hz; lia | ].
      intros t _. cbn [append]. rewrite int_cons, Hv. reflexivity.
    + destruct (IH (n / 10) (String (Str.digit_char (n mod 10)) acc))
        as (c & r & E & Hc & Hnz & Hr & Hval).
      { split; [apply Z.div_str_pos; lia | ].
        apply Z.div_lt_upper_bound; [lia | ].
        rewrite Nat2Z.inj_succ, Z.pow_succ_r in Hn by lia. lia. }
      exists c, (r ++ String (Str.digit_char (n mod 10)) EmptyString).
      rewrite E, append_assoc. repeat split; auto.
      * unfold Str.all_digits in *.
        clear - Hr Hd. induction r as [|x r IHr]; cbn in *.
        -- now rewrite Hd.
        -- apply andb_true_iff in Hr as [Hx Hr]. rewrite Hx. now apply IHr.
      * intros t Ht. rewrite append_assoc. cbn [append].
        rewrite Hval.
        -- rewrite int_cons, Hv. cbn [String.length].
           rewrite Nat2Z.inj_succ, Z.pow_succ_r by lia.
           pose proof (Z.div_mod n 10). lia.
        -- unfold Str.all_digits in *. cbn. now rewrite Hd.
Qed.

(** [str(n)] for a positive [n]: digits, the first of them not zero, that
    read back as [n]. *)
Lemma of_int_pos (n : Z) :
  0 < n ->
  exists c r,
    Str.digits_of (S (Z.to_nat (Z.log2 n))) n EmptyString = String c r
    /\ Str.isdigit c = true
    /\ N.eqb (N_of_ascii c) 48 = false
    /\ Str.all_digits r = true
    /\ Str.int (String c r) = n.
Proof.
  intros Hn.
  destruct (digits_of_spec (S (Z.to_nat (Z.log2 n))) n EmptyString)
    as (c & r & E & Hc & Hz & Hr & Hval).
  { rewrite Nat2Z.inj_succ, Z2Nat.id by apply Z.log2_nonneg.
    pose proof (Z.log2_spec n Hn). lia. }
  exists c, r. rewrite E, append_nil_r. repeat split; auto.
  specialize (Hval EmptyString eq_refl). rewrite append_nil_r in Hval.
  rewrite Hval. cbn. lia.
Qed.

(** *** What follows a value *)

Lemma is_delim_cases (c : ascii) :
  is_delim c = true -> c = ","%char \/ c = "}"%char \/ c = "]"%char.
Proof.
  unfold is_delim. intros H.
  apply orb_true_iff in H as [H | H]; [apply orb_true_iff in H as [H | H] | ];
    apply Ascii.eqb_eq in H; auto.
Qed.

Lemma delimited_stops_digit (rest : string) :
  delimited rest -> stops Str.isdigit rest.
Proof.
  destruct rest as [|c r]; [trivial | ]. cbn. intros H.
  destruct (is_delim_cases c H) as [-> | [-> | ->]]; reflexivity.
Qed.

Lemma delimited_skip_ws (rest : string) :
  delimited rest -> Json.skip_ws rest = rest.
Proof.
  destruct rest as [|c r]; [trivial | ]. cbn [delimited]. intros H.
  destruct (is_delim_cases c H) as [-> | [-> | ->]]; reflexivity.
Qed.

Lemma span_digits_frame (s rest : string) :
  stops Str.isdigit rest ->
  Str.span_digits (s ++ rest)
  = (fst (Str.span_digits s), snd (Str.span_digits s) ++ rest).
Proof.
  intros H. induction s as [|c s IH]; cbn [append Str.span_digits].
  - destruct rest as [|x r]; [reflexivity | ].
    cbn in *. now rewrite H.
  - destruct (Str.isdigit c); [ | reflexivity].
    rewrite IH. now destruct (Str.span_digits s).
Qed.

Lemma scan_int_part_frame (s rest : string) :
  delimited rest ->
  Json.scan_int_part (s ++ rest) = framed rest (Json.scan_int_part s).
Proof.
  intros H. destruct s as [|c s].
  - destruct rest as [|x r]; [reflexivity | ]. cbn in H.
    destruct (is_delim_cases x H) as [-> | [-> | ->]]; reflexivity.
  - cbn [append Json.scan_int_part framed].
    destruct (N_of_ascii c =? 48)%N; [reflexivity | ].
    destruct (Str.isdigit c) eqn:Hc; [ | reflexivity].
    change (String c (s ++ rest)) with (String c s ++ rest).
    rewrite span_digits_frame by now apply delimited_stops_digit.
    now destruct (Str.span_digits (String c s)).
Qed.

Lemma scan_frac_frame (s rest : string) :
  delimited rest ->
  Json.scan_frac (s ++ rest)
  = (fst (Json.scan_frac s), snd (Json.scan_frac s) ++ rest).
Proof.
  intros H. destruct s as [|c s].
  - destruct rest as [|x r]; [reflexivity | ]. cbn in H.
    destruct (is_delim_cases x H) as [-> | [-> | ->]]; reflexivity.
  - cbn [append Json.scan_frac].
    destruct (N_of_ascii c =? 46)%N; [ | reflexivity].
    rewrite span_digits_frame by now apply delimited_stops_digit.
    destruct (Str.span_digits s) as [fs r]. cbn [fst snd].
    destruct (Str.is_empty fs); reflexivity.
Qed.

Lemma scan_exp_frame (s rest : string) :
  delimited rest ->
  Json.scan_exp (s ++ rest)
  = (fst (Json.scan_exp s), snd (Json.scan_exp s) ++ rest).
Proof.
  intros H. pose proof (delimited_stops_digit rest H) as Hd.
  destruct s as [|c s].
  - destruct rest as [|x r]; [reflexivity | ]. cbn in H.
    destruct (is_delim_cases x H) as [-> | [-> | ->]]; reflexivity.
  - cbn [append Json.scan_exp].
    destruct ((N_of_ascii c =? 101) || (N_of_ascii c =? 69))%N;
      [ | reflexivity].
    destruct s as [|g s].
    + cbn [append Str.span_digits Str.is_empty fst snd].
      destruct rest as [|x r]; [reflexivity | ]. cbn in H.
      destruct (is_delim_cases x H) as [-> | [-> | ->]]; reflexivity.
    + cbn [append].
      destruct (N_of_ascii g =? 45)%N;
        [ | destruct (N_of_ascii g =? 43)%N ].
      * rewrite span_digits_frame by assumption.
        destruct (Str.span_digits s) as [es r]. cbn [fst snd].
        destruct (Str.is_empty es); reflexivity.
      * rewrite span_digits_frame by assumption.
        destruct (Str.span_digits s) as [es r]. cbn [fst snd].
        destruct (Str.is_empty es); reflexivity.
      * change (String g (s ++ rest)) with (String g s ++ rest).
        rewrite span_digits_frame by assumption.
        destruct (Str.span_digits (String g s)) as [es r]. cbn [fst snd].
        destruct (Str.is_empty es); reflexivity.
Qed.

Lemma match_number_frame (s rest : string) :
  delimited rest ->
  Json.match_number (s ++ rest) = framed rest (Json.match_number s).
Proof.
  intros H. unfold Json.match_number.
  assert (G : forall t neg,
             match Json.scan_int_part (t ++ rest) with
             | Some (ip, s2) =>
                 let '(fr, s3) := Json.scan_frac s2 in
                 let '(ex, s4) := Json.scan_exp s3 in
                 Some ({| Json.num_neg := neg; Json.num_int := ip;
                          Json.num_frac := fr; Json.num_exp := ex |}, s4)
             | None => None
             end
             = framed rest
                 match Json.scan_int_part t with
                 | Some (ip, s2) =>
                     let '(fr, s3) := Json.scan_frac s2 in
                     let '(ex, s4) := Json.scan_exp s3 in
                     Some ({| Json.num_neg := neg; Json.num_int := ip;
                              Json.num_frac := fr; Json.num_exp := ex |}, s4)
                 | None => None
                 end).
  { intros t neg. rewrite scan_int_part_frame by assumption.
    destruct (Json.scan_int_part t) as [[ip s2]|]; [ | reflexivity].
    cbn [framed]. rewrite scan_frac_frame by assumption.
    destruct (Json.scan_frac s2) as [fr s3]. cbn [fst snd].
    rewrite scan_exp_frame by assumption.
    now destruct (Json.scan_exp s3) as [ex s4]. }
  destruct s as [|c s].
  - cbn [append].
    destruct rest as [|x r]; [reflexivity | ]. cbn in H.
    destruct (is_delim_cases x H) as [-> | [-> | ->]]; reflexivity.
  - cbn [append]. destruct (N_of_ascii c =? 45)%N.
    + apply G.
    + apply (G (String c s)).
Qed.

Lemma startswith_frame (lit s rest : string) :
  delimited rest ->
  List.forallb (fun a => negb (is_delim a)) (list_ascii_of_string lit) = true ->
  Str.startswith (s ++ rest) lit = Str.startswith s lit.
Proof.
  intros H. revert s. induction lit as [|a lit IH]; intros s Hl;
    [reflexivity | ].
  cbn in Hl. apply andb_true_iff in Hl as [Ha Hl].
  destruct s as [|b s]; cbn [append Str.startswith].
  - destruct rest as [|x r]; [reflexivity | ]. cbn in H.
    destruct (Ascii.eqb_spec a x) as [-> | _]; [ | reflexivity].
    rewrite H in Ha. discriminate.
  - now rewrite IH.
Qed.

Lemma drop_frame (lit s rest : string) :
  Str.startswith s lit = true ->
  Json.drop (String.length lit) (s ++ rest)
  = Json.drop (String.length lit) s ++ rest.
Proof.
  revert s. induction lit as [|a lit IH]; intros s H.
  - cbn. now destruct s.
  - destruct s as [|b s]; [discriminate | ].
    cbn in H. apply andb_true_iff in H as [_ H].
    cbn [String.length append Json.drop]. now apply IH.
Qed.

Lemma literal_frame (lit : string) (v : Json.value) (s rest : string) :
  delimited rest ->
  List.forallb (fun a => negb (is_delim a)) (list_ascii_of_string lit) = true ->
  Json.literal lit v (s ++ rest) = framed rest (Json.literal lit v s).
Proof.
  intros H Hl. unfold Json.literal.
  rewrite startswith_frame by assumption.
  destruct (Str.startswith s lit) eqn:E; [ | reflexivity].
  cbn [framed]. now rewrite drop_frame.
Qed.

(** An atom read from [s] is read from [s] followed by a delimiter, and
    the delimiter is left. *)
Lemma scan_atom_frame (s rest : string) :
  delimited rest ->
  Json.scan_atom (s ++ rest) = framed rest (Json.scan_atom s)
  \/ Json.scan_atom s = None.
Proof.
  intros H. unfold Json.scan_atom, Json.constant.
  repeat (rewrite literal_frame by (assumption || reflexivity)).
  rewrite match_number_frame by assumption.
  destruct (Json.literal "null" _ s) as [[]|]; [now left | ].
  destruct (Json.literal "true" _ s) as [[]|]; [now left | ].
  destruct (Json.literal "false" _ s) as [[]|]; [now left | ].
  cbn [framed].
  destruct (Json.match_number s) as [[m r]|]; [now left | ].
  cbn [framed].
  destruct (Json.literal "NaN" _ s) as [[]|]; [now left | ].
  destruct (Json.literal "Infinity" _ s) as [[]|]; [now left | ].
  destruct (Json.literal "-Infinity" _ s) as [[]|]; [now left | now right].
Qed.

(** *** Atoms *)

Lemma digit_head (c : ascii) :
  Str.isdigit c = true ->
  Ascii.eqb "n" c = false /\ Ascii.eqb "t" c = false
  /\ Ascii.eqb "f" c = false /\ N.eqb (N_of_ascii c) 45 = false.
Proof.
  destruct c as [[] [] [] [] [] [] [] []]; intros H;
    try discriminate H; repeat split.
Qed.

Lemma match_number_minus (s : string) :
  Json.match_number (String "-" s) = number_after_sign true s.
Proof. reflexivity. Qed.

Lemma match_number_plain (c : ascii) (s : string) :
  N.eqb (N_of_ascii c) 45 = false ->
  Json.match_number (String c s) = number_after_sign false (String c s).
Proof. intros H. unfold Json.match_number. now rewrite H. Qed.

Lemma number_after_sign_digits (neg : bool) (c : ascii) (r : string) :
  Str.isdigit c = true -> N.eqb (N_of_ascii c) 48 = false ->
  Str.all_digits r = true ->
  number_after_sign neg (String c r)
  = Some ({| Json.num_neg := neg; Json.num_int := String c r;
             Json.num_frac := None; Json.num_exp := None |}, EmptyString).
Proof.
  intros Hc Hz Hr. unfold number_after_sign, Json.scan_int_part.
  rewrite Hz, Hc.
  rewrite span_digits_all by now apply all_digits_cons.
  reflexivity.
Qed.

(** The decoder reads [str(n)] as the integer [n]. *)
Lemma scan_atom_of_int (n : Z) :
  Json.scan_atom (Str.of_int n) = Some (Json.Int n, EmptyString).
Proof.
  destruct n as [|p|p].
  - reflexivity.
  - destruct (of_int_pos (Zpos p) eq_refl) as (c & r & E & Hc & Hz & Hr & Hv).
    unfold Str.of_int. cbn [Z.ltb Z.compare Z.abs]. rewrite E.
    destruct (digit_head c Hc) as (H1 & H2 & H3 & H4).
    unfold Json.scan_atom, Json.literal. cbn [Str.startswith].
    rewrite H1, H2, H3. cbn [andb].
    rewrite match_number_plain, number_after_sign_digits by assumption.
    unfold Json.number_value.
    cbn [Json.num_frac Json.num_exp Json.num_neg Json.num_int].
    now rewrite Hv.
  - destruct (of_int_pos (Zpos p) eq_refl) as (c & r & E & Hc & Hz & Hr & Hv).
    unfold Str.of_int. cbn [Z.ltb Z.compare Z.abs]. rewrite E.
    unfold Json.scan_atom, Json.literal.
    cbn [Str.startswith Ascii.eqb Bool.eqb andb].
    rewrite match_number_minus, number_after_sign_digits by assumption.
    unfold Json.number_value.
    cbn [Json.num_frac Json.num_exp Json.num_neg Json.num_int].
    now rewrite Hv.
Qed.

Lemma of_int_head (n : Z) :
  exists c r, Str.of_int n = String c r
              /\ (Str.isdigit c = true \/ c = "-"%char).
Proof.
  destruct n as [|p|p].
  - exists "0"%char, EmptyString. split; [reflexivity | now left].
  - destruct (of_int_pos (Zpos p) eq_refl) as (c & r & E & Hc & _).
    exists c, r. unfold Str.of_int. cbn [Z.ltb Z.compare Z.abs].
    split; [exact E | now left].
  - eexists "-"%char, _. unfold Str.of_int. cbn [Z.ltb Z.compare].
    split; [reflexivity | now right].
Qed.

(** *** No blank in the text of a number *)

Lemma clean_app (a b : string) : clean (a ++ b) = clean a && clean b.
Proof.
  unfold clean. induction a as [|c a IH]; [reflexivity | ].
  cbn. rewrite IH. now rewrite andb_assoc.
Qed.

Lemma clean_no_lf (s : string) : clean s = true -> no_lf s = true.
Proof.
  unfold clean, no_lf. induction s as [|c s IH]; [reflexivity | ].
  cbn. intros H. apply andb_true_iff in H as [Hc Hs].
  rewrite (IH Hs), andb_true_r.
  unfold Json.is_ws in Hc. apply negb_true_iff in Hc.
  apply orb_false_iff in Hc as [Hc _]. apply orb_false_iff in Hc as [_ Hc].
  now rewrite Hc.
Qed.

Lemma no_lf_app (a b : string) : no_lf (a ++ b) = no_lf a && no_lf b.
Proof.
  unfold no_lf. induction a as [|c a IH]; [reflexivity | ].
  cbn. rewrite IH. now rewrite andb_assoc.
Qed.

Lemma isdigit_not_ws (c : ascii) :
  Str.isdigit c = true -> Json.is_ws c = false.
Proof.
  destruct c as [[] [] [] [] [] [] [] []]; intros H;
    try discriminate H; reflexivity.
Qed.

Lemma all_digits_clean (s : string) : Str.all_digits s = true -> clean s = true.
Proof.
  unfold Str.all_digits, clean. induction s as [|c s IH]; [reflexivity | ].
  cbn. intros H. apply andb_true_iff in H as [Hc Hs].
  now rewrite (isdigit_not_ws c Hc), IH.
Qed.

Lemma clean_digits_of (fuel : nat) :
  forall n acc, clean acc = true -> clean (Str.digits_of fuel n acc) = true.
Proof.
  induction fuel as [|fuel IH]; intros n acc H; [exact H | ].
  cbn [Str.digits_of].
  assert (Hc : clean (String (Str.digit_char (n mod 10)) acc) = true).
  { unfold clean in *. cbn. rewrite H, andb_true_r.
    apply negb_true_iff, isdigit_not_ws.
    apply digit_char_spec. pose proof (Z.mod_pos_bound n 10). lia. }
  destruct (n <? 10); [exact Hc | now apply IH].
Qed.

Lemma clean_of_int (n : Z) : clean (Str.of_int n) = true.
Proof.
  unfold Str.of_int.
  destruct (n <? 0); [change (clean ("-" ++ Str.digits_of
      (S (Z.to_nat (Z.log2 (Z.abs n)))) (Z.abs n) EmptyString) = true);
      rewrite clean_app | ];
    now rewrite clean_digits_of.
Qed.

Lemma clean_substring (s : string) :
  clean s = true -> forall n m, clean (substring n m s) = true.
Proof.
  unfold clean. induction s as [|c s IH]; intros H n m.
  - now destruct n, m.
  - cbn in H. apply andb_true_iff in H as [Hc Hs].
    destruct n as [|n]; cbn [substring].
    + destruct m as [|m]; [reflexivity | ]. cbn. now rewrite Hc, IH.
    + now apply IH.
Qed.

Lemma clean_zeros (n : nat) : clean (Float.zeros n) = true.
Proof. induction n as [|n IH]; [reflexivity | exact IH]. Qed.

Lemma clean_of_list (l : list ascii) :
  clean (string_of_list_ascii l)
  = List.forallb (fun c => negb (Json.is_ws c)) l.
Proof. unfold clean. now rewrite list_ascii_of_string_of_list_ascii. Qed.

Lemma strip_zeros_rev_incl (l : list ascii) (c : ascii) :
  In c (Float.strip_zeros_rev l) -> In c l.
Proof.
  induction l as [|x l IH]; [trivial | ].
  cbn [Float.strip_zeros_rev].
  destruct (Ascii.eqb_spec x "0") as [-> | Hx].
  - intros H. right. now apply IH.
  - destruct x as [[] [] [] [] [] [] [] []]; trivial; now elim Hx.
Qed.

Lemma clean_strip_trailing_zeros (s : string) :
  clean s = true -> clean (Float.strip_trailing_zeros s) = true.
Proof.
  unfold Float.strip_trailing_zeros. rewrite clean_of_list.
  unfold clean. rewrite !forallb_forall. intros H c Hc.
  apply in_rev, strip_zeros_rev_incl, in_rev in Hc. now apply H.
Qed.

Lemma clean_layout (ds : string) (dp : Z) :
  clean ds = true -> clean (Float.layout ds dp) = true.
Proof.
  intros H. unfold Float.layout.
  repeat match goal with
         | |- context [if ?b then _ else _] => destruct b
         end;
    repeat rewrite clean_app;
    repeat rewrite clean_substring by assumption;
    repeat rewrite clean_of_int;
    repeat rewrite clean_zeros;
    repeat rewrite H; reflexivity.
Qed.

Lemma clean_repr (x : Float.float) : clean (Float.repr x) = true.
Proof.
  destruct x as [[]|[]| |neg m e]; try reflexivity.
  unfold Float.repr, Float.repr_finite.
  destruct (Float.shortest _ _ _ _ _ _) as [c p].
  rewrite clean_app, clean_layout
    by (apply clean_strip_trailing_zeros, clean_of_int).
  now destruct neg.
Qed.

Lemma clean_floatstr (x : Float.float) : clean (Json.floatstr x) = true.
Proof.
  destruct x as [[]|[]| |neg m e]; try reflexivity.
  exact (clean_repr (S754_finite neg m e)).
Qed.

(** *** Values *)

Lemma clean_skip_ws (s : string) : clean s = true -> Json.skip_ws s = s.
Proof.
  destruct s as [|c s]; [reflexivity | ].
  unfold clean. cbn. intros H. apply andb_true_iff in H as [H _].
  apply negb_true_iff in H. now rewrite H.
Qed.

Lemma skip_ws_blank (s rest : string) :
  Json.skip_ws s = EmptyString ->
  Json.skip_ws (s ++ rest) = Json.skip_ws rest.
Proof.
  induction s as [|c s IH]; [reflexivity | ].
  cbn. destruct (Json.is_ws c); [exact IH | discriminate].
Qed.

Lemma skip_ws_head (s rest : string) :
  value_head s -> Json.skip_ws (s ++ rest) = s ++ rest.
Proof. intros (c & r & -> & H & _). cbn. now rewrite H. Qed.

(** A [float] comes from the atom branch of the decoder. *)
Lemma scan_once_float (fuel : nat) (s : string) (x : Float.float)
    (r : string) :
  Json.scan_once (S fuel) s = Some (Json.Float x, r) ->
  Json.scan_atom s = Some (Json.Float x, r)
  /\ forall fuel' rest,
       Json.scan_once (S fuel') (s ++ rest) = Json.scan_atom (s ++ rest).
Proof.
  destruct s as [|c s]; [discriminate | ].
  cbn [Json.scan_once append].
  destruct (N_of_ascii c =? 34)%N.
  { destruct (Json.scanstring s) as [[]|]; discriminate. }
  destruct (N_of_ascii c =? 123)%N.
  { destruct (Json.skip_ws s) as [|c1 r1]; [discriminate | ].
    destruct (N_of_ascii c1 =? 125)%N; [discriminate | ].
    destruct (N_of_ascii c1 =? 34)%N; [ | discriminate].
    destruct (Json.object_items fuel r1 []) as [[]|]; discriminate. }
  destruct (N_of_ascii c =? 91)%N.
  { destruct (Json.skip_ws s) as [|c1 r1]; [discriminate | ].
    destruct (N_of_ascii c1 =? 93)%N; [discriminate | ].
    destruct (Json.array_items fuel (String c1 r1) []) as [[]|];
      discriminate. }
  intros H. split; [exact H | reflexivity].
Qed.

Lemma scan_atom_bracket (r : string) : Json.scan_atom (String "]" r) = None.
Proof. reflexivity. Qed.

Lemma readable_float (x : Float.float) :
  readable (Json.Float x) ->
  value_head (Json.floatstr x) /\ reads_back (Json.Float x).
Proof.
  cbn [readable Json.dumps]. unfold Json.loads.
  rewrite clean_skip_ws by apply clean_floatstr.
  destruct (Json.scan_once _ _) as [[v r]|] eqn:E; [ | discriminate].
  destruct (Str.is_empty (Json.skip_ws r)) eqn:Hr; [ | discriminate].
  intros [= ->]. apply is_empty_true in Hr.
  destruct (scan_once_float _ _ _ _ E) as [Ha Hb].
  split.
  - pose proof (clean_floatstr x) as Hc.
    destruct (Json.floatstr x) as [|c t]; [discriminate | ].
    exists c, t. split; [reflexivity | ].
    unfold clean in Hc. cbn in Hc. apply andb_true_iff in Hc as [Hc _].
    apply negb_true_iff in Hc. split; [exact Hc | ].
    intros ->. rewrite scan_atom_bracket in Ha. discriminate.
  - intros fuel rest Hf Hd. destruct fuel as [|fuel]; [cbn in Hf; lia | ].
    exists r. cbn [Json.dumps]. rewrite Hb.
    destruct (scan_atom_frame (Json.floatstr x) rest Hd) as [F | F];
      [ | rewrite F in Ha; discriminate].
    rewrite F, Ha. split; [reflexivity | ].
    now rewrite skip_ws_blank, delimited_skip_ws.
Qed.

Lemma scan_once_atom_head (fuel : nat) (c : ascii) (r : string) :
  Str.isdigit c = true \/ c = "-"%char ->
  Json.scan_once (S fuel) (String c r) = Json.scan_atom (String c r).
Proof.
  intros [H | ->]; [ | reflexivity].
  destruct c as [[] [] [] [] [] [] [] []]; try discriminate H; reflexivity.
Qed.

Lemma reads_back_int (n : Z) : reads_back (Json.Int n).
Proof.
  intros fuel rest Hf Hd. destruct fuel as [|fuel]; [cbn in Hf; lia | ].
  exists EmptyString. cbn [Json.dumps append].
  split; [ | now apply delimited_skip_ws].
  destruct (of_int_head n) as (c & r & E & Hc).
  pose proof (scan_atom_of_int n) as Ha.
  destruct (scan_atom_frame (Str.of_int n) rest Hd) as [F | F];
    [ | rewrite F in Ha; discriminate].
  rewrite Ha in F. cbn [framed append] in F.
  rewrite E in F |- *. cbn [append] in F |- *.
  now rewrite scan_once_atom_head.
Qed.

Lemma reads_back_str (s : string) : reads_back (Json.Str s).
Proof.
  intros fuel rest Hf Hd. destruct fuel as [|fuel]; [cbn in Hf; lia | ].
  exists EmptyString. split; [ | now apply delimited_skip_ws].
  cbn [Json.dumps]. unfold Json.encode_str.
  rewrite !append_assoc. cbn [Json.quote append Json.scan_once].
  change (N_of_ascii "034" =? 34)%N with true.
  cbv iota. now rewrite scanstring_escape.
Qed.

Lemma reads_back_const (v : Json.value) :
  match v with
  | Json.Null | Json.Bool _ => True
  | _ => False
  end -> reads_back v.
Proof.
  intros Hv fuel rest Hf Hd. destruct fuel as [|fuel];
    [destruct v; cbn in Hf; try lia; contradiction | ].
  exists EmptyString. split; [ | now apply delimited_skip_ws].
  destruct v as [ | [] | | | | | ]; try contradiction; reflexivity.
Qed.

Lemma dumps_head (v : Json.value) : readable v -> value_head (Json.dumps v).
Proof.
  destruct v as [ | [] | n | x | s | l | d ]; intros H.
  - exists "n"%char, "ull". now repeat split.
  - exists "t"%char, "rue". now repeat split.
  - exists "f"%char, "alse". now repeat split.
  - destruct (of_int_head n) as (c & r & E & Hc).
    exists c, r. split; [exact E | ].
    destruct Hc as [Hc | ->]; [ | now split].
    split; [now apply isdigit_not_ws | ]. intros ->. discriminate.
  - now apply readable_float.
  - eexists _, _. split; [reflexivity | now split].
  - eexists _, _. split; [reflexivity | now split].
  - eexists _, _. split; [reflexivity | now split].
Qed.

(** *** Lists and dicts *)

Lemma need_pos (v : Json.value) : (1 <= need v)%nat.
Proof. destruct v; cbn; lia. Qed.

Lemma need_list_in (l : list Json.value) (x : Json.value) :
  In x l -> (need x < need_list l)%nat.
Proof.
  induction l as [|y l IH]; [intros [] | ].
  cbn. intros [-> | H]; [lia | ]. specialize (IH H). unfold need_list in IH. lia.
Qed.

Lemma need_items_in (d : list (string * Json.value)) (kv : string * Json.value) :
  In kv d -> (need (snd kv) < need_items d)%nat.
Proof.
  induction d as [|y d IH]; [intros [] | ].
  cbn. intros [-> | H]; [lia | ]. specialize (IH H). unfold need_items in IH. lia.
Qed.

Lemma readable_list_in (l : list Json.value) (x : Json.value) :
  readable (Json.List l) -> In x l -> readable x.
Proof.
  cbn [readable]. induction l as [|y l IH]; [intros _ [] | ].
  cbn. intros [Hy Hl] [<- | H]; auto.
Qed.

Lemma readable_dict_in (d : list (string * Json.value))
    (kv : string * Json.value) :
  readable (Json.Dict d) -> In kv d -> readable (snd kv).
Proof.
  cbn [readable]. intros [_ H]. induction d as [|y d IH]; [intros [] | ].
  cbn in H. destruct H as [Hy Hd]. intros [<- | Hin]; auto.
Qed.

Lemma join_items_cons {A : Type} (f : A -> string) (x : A) (l : list A) :
  Json.join_items f (x :: l) = f x ++ more_items f l.
Proof. destruct l; reflexivity. Qed.

Lemma delimited_more {A : Type} (f : A -> string) (l : list A)
    (tail : string) :
  delimited tail -> delimited (more_items f l ++ tail).
Proof. destruct l; [trivial | reflexivity]. Qed.

(** The loop of [JSONArray] on the text of the items. *)
Lemma array_items_dumps (l : list Json.value) :
  forall (x : Json.value) (vs : list Json.value) (fuel : nat) (rest : string),
    reads_back x ->
    (forall y, In y l -> reads_back y /\ value_head (Json.dumps y)) ->
    (S (need x + need_list l) <= fuel)%nat -> delimited rest ->
    Json.array_items fuel
      (Json.dumps x ++ more_items Json.dumps l ++ String "]" rest) vs
    = Some ((vs ++ x :: l)%list, rest).
Proof.
  induction l as [|y l IH]; intros x vs fuel rest Hx Hl Hf Hd;
    (destruct fuel as [|fuel]; [lia | ]); cbn [Json.array_items].
  - destruct (Hx fuel (String "]" rest)) as (mid & E & Hm);
      [cbn in Hf; lia | reflexivity | ].
    cbn [more_items append] in *. rewrite E, Hm. reflexivity.
  - destruct (Hx fuel (more_items Json.dumps (y :: l) ++ String "]" rest))
      as (mid & E & Hm); [cbn in Hf |- *; lia | reflexivity | ].
    rewrite E, Hm. cbn [more_items]. rewrite join_items_cons.
    rewrite !append_assoc. cbn [append].
    change (N_of_ascii "," =? 93)%N with false.
    change (N_of_ascii "," =? 44)%N with true. cbv iota.
    change (Json.skip_ws (String " " ?s)) with (Json.skip_ws s).
    destruct (Hl y (or_introl eq_refl)) as [Hy Hh].
    rewrite skip_ws_head by assumption.
    rewrite IH; [now rewrite <- app_assoc | assumption | | | assumption].
    + intros z Hz. apply Hl. now right.
    + cbn in Hf |- *. unfold need_list in *. lia.
Qed.

(** The loop of [JSONObject] on the text of the items, entered after the
    opening quote of the first key. *)
Lemma object_items_dumps (d : list (string * Json.value)) :
  forall (k : string) (x : Json.value) (pairs : list (string * Json.value))
         (fuel : nat) (rest : string),
    reads_back x -> value_head (Json.dumps x) ->
    (forall kv, In kv d ->
                reads_back (snd kv) /\ value_head (Json.dumps (snd kv))) ->
    (S (need x + need_items d) <= fuel)%nat -> delimited rest ->
    Json.object_items fuel
      (Json.escape k
       ++ String "034"
            (String ":"
               (String " "
                  (Json.dumps x ++ more_items item_text d
                   ++ String "}" rest)))) pairs
    = Some ((pairs ++ (k, x) :: d)%list, rest).
Proof.
  induction d as [|[k2 x2] d IH]; intros k x pairs fuel rest Hx Hh Hl Hf Hd;
    (destruct fuel as [|fuel]; [lia | ]); cbn [Json.object_items];
    rewrite scanstring_escape;
    change (Json.skip_ws (String ":" ?s)) with (String ":" s);
    change (N_of_ascii ":" =? 58)%N with true; cbv iota;
    change (Json.skip_ws (String " " ?s)) with (Json.skip_ws s);
    rewrite skip_ws_head by assumption.
  - destruct (Hx fuel (String "}" rest)) as (mid & E & Hm);
      [cbn in Hf; lia | reflexivity | ].
    cbn [more_items append] in *. rewrite E, Hm. reflexivity.
  - destruct (Hx fuel (more_items item_text ((k2, x2) :: d) ++ String "}" rest))
      as (mid & E & Hm); [cbn in Hf |- *; lia | reflexivity | ].
    rewrite E, Hm. cbn [more_items]. rewrite join_items_cons.
    cbn [item_text]. unfold Json.encode_str.
    rewrite !append_assoc. cbn [append Json.quote].
    change (N_of_ascii "," =? 125)%N with false.
    change (N_of_ascii "," =? 44)%N with true. cbv iota.
    change (Json.skip_ws (String " " (String "034" ?s)))
      with (String "034"%char s).
    change (N_of_ascii "034" =? 34)%N with true. cbv iota.
    destruct (Hl (k2, x2) (or_introl eq_refl)) as [Hy Hh2].
    rewrite IH; [now rewrite <- app_assoc | assumption | assumption | | | assumption].
    + intros z Hz. apply Hl. now right.
    + cbn in Hf |- *. unfold need_items in *. lia.
Qed.

Lemma length_append (a b : string) :
  String.length (a ++ b) = (String.length a + String.length b)%nat.
Proof. induction a as [|c a IH]; cbn; [reflexivity | now rewrite IH]. Qed.

Lemma need_list_le (l : list Json.value) :
  (forall x, In x l -> (need x <= String.length (Json.dumps x))%nat) ->
  (need_list l <= String.length (Json.join_items Json.dumps l) + 1)%nat.
Proof.
  induction l as [|x l IH]; intros H; [cbn; lia | ].
  rewrite join_items_cons, length_append.
  pose proof (H x (or_introl eq_refl)) as Hx.
  assert (Hl : (need_list l <= String.length (Json.join_items Json.dumps l) + 1)%nat)
    by (apply IH; intros y Hy; apply H; now right).
  destruct l as [|y l]; [cbn in *; lia | ].
  unfold more_items. rewrite length_append.
  change (need_list (x :: y :: l)) with (S (need x + need_list (y :: l))).
  cbn [String.length]. lia.
Qed.

Lemma need_items_le (d : list (string * Json.value)) :
  (forall kv, In kv d ->
              (need (snd kv) <= String.length (Json.dumps (snd kv)))%nat) ->
  (need_items d <= String.length (Json.join_items item_text d) + 1)%nat.
Proof.
  induction d as [|[k x] d IH]; intros H; [cbn; lia | ].
  rewrite join_items_cons, length_append.
  pose proof (H (k, x) (or_introl eq_refl)) as Hx. cbn [snd] in Hx.
  assert (Hl : (need_items d
                <= String.length (Json.join_items item_text d) + 1)%nat)
    by (apply IH; intros y Hy; apply H; now right).
  assert (Hi : (String.length (Json.dumps x)
                <= String.length (item_text (k, x)))%nat).
  { cbn [item_text]. rewrite !length_append. lia. }
  destruct d as [|y d]; [cbn in *; lia | ].
  unfold more_items. rewrite length_append.
  change (need_items ((k, x) :: y :: d))
    with (S (need x + need_items (y :: d))).
  cbn [String.length]. lia.
Qed.

Lemma no_lf_escape (s : string) : no_lf (Json.escape s) = true.
Proof.
  induction s as [|c s IH]; [reflexivity | ].
  cbn [Json.escape]. now rewrite no_lf_app, escape_char_no_lf, IH.
Qed.

Lemma no_lf_encode_str (s : string) : no_lf (Json.encode_str s) = true.
Proof.
  unfold Json.encode_str. now rewrite !no_lf_app, no_lf_escape.
Qed.

Lemma no_lf_join {A : Type} (f : A -> string) (l : list A) :
  (forall x, In x l -> no_lf (f x) = true) ->
  no_lf (Json.join_items f l) = true.
Proof.
  induction l as [|x l IH]; intros H; [reflexivity | ].
  rewrite join_items_cons, no_lf_app, (H x (or_introl eq_refl)).
  assert (Hl : no_lf (Json.join_items f l) = true)
    by (apply IH; intros y Hy; apply H; now right).
  destruct l; [reflexivity | ].
  unfold more_items. now rewrite no_lf_app, Hl.
Qed.

(** [d[k] = v] for a key that is not there puts the item at the end. *)
Lemma setitem_fresh {V : Type} (d : list (string * V)) (k : string) (v : V) :
  ~ In k (List.map fst d) -> setitem d k v = (d ++ [(k, v)])%list.
Proof.
  induction d as [|[k' v'] d IH]; intros H; [reflexivity | ].
  cbn [setitem]. destruct (String.eqb_spec k k') as [-> | _].
  - elim H. now left.
  - cbn [app]. rewrite IH; [reflexivity | ]. intros Hin. apply H. now right.
Qed.

Lemma dict_of_acc {V : Type} (pairs : list (string * V)) :
  forall acc,
    NoDup (List.map fst (acc ++ pairs)) ->
    List.fold_left (fun d kv => setitem d (fst kv) (snd kv)) pairs acc
    = (acc ++ pairs)%list.
Proof.
  induction pairs as [|[k v] pairs IH]; intros acc H.
  - now rewrite app_nil_r.
  - cbn [List.fold_left fst snd].
    rewrite setitem_fresh.
    + rewrite IH; rewrite <- app_assoc; [reflexivity | exact H].
    + rewrite map_app in H. cbn in H. apply NoDup_remove_2 in H.
      intros Hin. apply H. apply in_or_app. now left.
Qed.

(** [dict(pairs)] is [pairs] when no key comes twice. *)
Lemma dict_of_nodup {V : Type} (pairs : list (string * V)) :
  NoDup (List.map fst pairs) -> dict_of pairs = pairs.
Proof. intros H. unfold dict_of. now rewrite dict_of_acc. Qed.

(** Every readable value is read back, its text is long enough to pay
    for the fuel, and holds no line feed. *)
Lemma readable_facts (n : nat) :
  forall v, (need v <= n)%nat -> readable v ->
    reads_back v
    /\ (need v <= String.length (Json.dumps v))%nat
    /\ no_lf (Json.dumps v) = true.
Proof.
  induction n as [|n IH]; intros v Hn Hv;
    [pose proof (need_pos v); lia | ].
  destruct v as [ | b | z | x | s | l | d ].
  - split; [now apply reads_back_const | split; [cbn; lia | reflexivity]].
  - split; [now apply reads_back_const | ].
    destruct b; (split; [cbn; lia | reflexivity]).
  - split; [apply reads_back_int | ]. split.
    + destruct (of_int_head z) as (c & r & E & _).
      cbn [Json.dumps need]. rewrite E. cbn. lia.
    + apply clean_no_lf, clean_of_int.
  - destruct (readable_float x Hv) as [(c & r & E & _) Hr].
    split; [exact Hr | ]. split.
    + cbn [Json.dumps need]. rewrite E. cbn. lia.
    + apply clean_no_lf, clean_floatstr.
  - split; [apply reads_back_str | ]. split.
    + cbn [Json.dumps need]. unfold Json.encode_str. cbn. lia.
    + apply no_lf_encode_str.
  - assert (Hall : forall x, In x l ->
               reads_back x
               /\ (need x <= String.length (Json.dumps x))%nat
               /\ no_lf (Json.dumps x) = true).
    { intros x Hx. apply IH; [ | now apply (readable_list_in l)].
      pose proof (need_list_in l x Hx).
      change (need (Json.List l)) with (S (need_list l)) in Hn. lia. }
    split; [ | split].
    + intros fuel rest Hf Hd.
      change (need (Json.List l)) with (S (need_list l)) in Hf.
      destruct fuel as [|fuel]; [lia | ].
      exists EmptyString. split; [ | now apply delimited_skip_ws].
      cbn [Json.dumps append]. rewrite !append_assoc. cbn [append].
      cbn [Json.scan_once].
      change (N_of_ascii "[" =? 34)%N with false.
      change (N_of_ascii "[" =? 123)%N with false.
      change (N_of_ascii "[" =? 91)%N with true. cbv iota.
      destruct l as [|x l]; [reflexivity | ].
      rewrite join_items_cons, append_assoc.
      assert (Hh : value_head (Json.dumps x))
        by (apply dumps_head, (readable_list_in (x :: l)); [exact Hv | now left]).
      rewrite skip_ws_head by assumption.
      destruct Hh as (c & r & E & _ & Hc). rewrite E. cbn [append].
      destruct (N.eqb_spec (N_of_ascii c) 93) as [E93 | _].
      { elim Hc. rewrite <- (ascii_N_embedding c), E93. reflexivity. }
      change (String c (r ++ ?t)) with (String c r ++ t). rewrite <- E.
      rewrite array_items_dumps; try assumption.
      * reflexivity.
      * apply Hall. now left.
      * intros y Hy. split; [apply Hall; now right | ].
        apply dumps_head, (readable_list_in (x :: l)); [exact Hv | now right].
      * change (need_list (x :: l)) with (S (need x + need_list l)) in Hf. lia.
    + change (need (Json.List l)) with (S (need_list l)).
      cbn [Json.dumps]. rewrite !length_append. cbn [String.length].
      pose proof (need_list_le l (fun x Hx => proj1 (proj2 (Hall x Hx)))).
      lia.
    + cbn [Json.dumps]. rewrite !no_lf_app.
      rewrite no_lf_join; [reflexivity | ]. intros x Hx. now apply Hall.
  - assert (Hall : forall kv, In kv d ->
               reads_back (snd kv)
               /\ (need (snd kv) <= String.length (Json.dumps (snd kv)))%nat
               /\ no_lf (Json.dumps (snd kv)) = true).
    { intros kv Hkv. apply IH; [ | now apply (readable_dict_in d)].
      pose proof (need_items_in d kv Hkv).
      change (need (Json.Dict d)) with (S (need_items d)) in Hn. lia. }
    split; [ | split].
    + intros fuel rest Hf Hd.
      change (need (Json.Dict d)) with (S (need_items d)) in Hf.
      destruct fuel as [|fuel]; [lia | ].
      exists EmptyString. split; [ | now apply delimited_skip_ws].
      change (Json.dumps (Json.Dict d))
        with ("{" ++ Json.join_items item_text d ++ "}").
      rewrite !append_assoc. cbn [append].
      cbn [Json.scan_once].
      change (N_of_ascii "{" =? 34)%N with false.
      change (N_of_ascii "{" =? 123)%N with true. cbv iota.
      destruct d as [|[k x] d]; [reflexivity | ].
      rewrite join_items_cons. cbn [item_text]. unfold Json.encode_str.
      rewrite !append_assoc. cbn [append Json.quote].
      change (Json.skip_ws (String "034" ?t)) with (String "034"%char t).
      change (N_of_ascii "034" =? 125)%N with false.
      change (N_of_ascii "034" =? 34)%N with true. cbv iota.
      rewrite object_items_dumps; try assumption.
      * cbn [app]. rewrite dict_of_nodup; [reflexivity | apply Hv].
      * apply (Hall (k, x)). now left.
      * apply dumps_head, (readable_dict_in ((k, x) :: d) (k, x));
          [exact Hv | now left].
      * intros kv Hkv. split; [apply Hall; now right | ].
        apply dumps_head, (readable_dict_in ((k, x) :: d)); [exact Hv | now right].
      * change (need_items ((k, x) :: d)) with (S (need x + need_items d)) in Hf.
        lia.
    + change (need (Json.Dict d)) with (S (need_items d)).
      change (Json.dumps (Json.Dict d))
        with ("{" ++ Json.join_items item_text d ++ "}").
      rewrite !length_append. cbn [String.length].
      pose proof (need_items_le d (fun kv Hkv => proj1 (proj2 (Hall kv Hkv)))).
      lia.
    + change (Json.dumps (Json.Dict d))
        with ("{" ++ Json.join_items item_text d ++ "}").
      rewrite !no_lf_app.
      rewrite no_lf_join; [reflexivity | ]. intros [k x] Hkv.
      cbn [item_text]. rewrite !no_lf_app, no_lf_encode_str.
      pose proof (proj2 (proj2 (Hall (k, x) Hkv))) as Hx. cbn [snd] in Hx.
      now rewrite Hx.
Qed.

(** [json.loads(json.dumps(v)) == v] *)
Lemma loads_dumps (v : Json.value) :
  readable v -> Json.loads (Json.dumps v) = Some v.
Proof.
  intros Hv.
  destruct (readable_facts (need v) v (le_n _) Hv) as (Hr & Hlen & _).
  unfold Json.loads.
  rewrite <- (append_nil_r (Json.dumps v)) at 2.
  rewrite skip_ws_head by now apply dumps_head.
  destruct (Hr (S (String.length (Json.dumps v))) EmptyString)
    as (mid & E & Hm); [lia | exact I | ].
  rewrite E, append_nil_r in *. now rewrite Hm.
Qed.

(** *** Lines *)

Lemma lines_from_line (t : string) :
  forall cur r,
    no_lf t = true ->
    Json.lines_from cur (t ++ String "010" r)
    = (cur ++ t) :: Json.lines_from EmptyString r.
Proof.
  induction t as [|c t IH]; intros cur r H.
  - cbn. now rewrite append_nil_r.
  - unfold no_lf in H. cbn in H. apply andb_true_iff in H as [Hc Ht].
    apply negb_true_iff in Hc.
    cbn [append Json.lines_from]. rewrite Hc.
    rewrite IH by exact Ht. now rewrite append_assoc.
Qed.

Lemma splitlines_lines (ts : list string) :
  (forall t, In t ts -> no_lf t = true) ->
  Json.splitlines
    (String.concat EmptyString
       (List.map (fun t => t ++ String "010" EmptyString) ts))
  = ts.
Proof.
  unfold Json.splitlines.
  induction ts as [|t ts IH]; intros H; [reflexivity | ].
  assert (Ht : no_lf t = true) by (apply H; now left).
  assert (Hts : forall u, In u ts -> no_lf u = true)
    by (intros u Hu; apply H; now right).
  cbn [List.map String.concat].
  destruct ts as [|u ts].
  - cbn [List.map]. now rewrite lines_from_line.
  - cbn [List.map] in *. cbn [append]. rewrite append_assoc.
    cbn [append]. rewrite lines_from_line by exact Ht.
    cbn [append]. now rewrite IH.
Qed.

Lemma all_some_loads (vs : list Json.value) :
  (forall v, In v vs -> readable v) ->
  Json.all_some (List.map Json.loads (List.map Json.dumps vs)) = Some vs.
Proof.
  induction vs as [|v vs IH]; intros H; [reflexivity | ].
  cbn [List.map Json.all_some].
  rewrite loads_dumps by (apply H; now left).
  rewrite IH; [reflexivity | ]. intros u Hu. apply H. now right.
Qed.

(** *** Records *)

Lemma readable_opt_str (o : option string) : readable (opt Json.Str o).
Proof. now destruct o. Qed.

Lemma readable_opt_int (o : option Z) : readable (opt Json.Int o).
Proof. now destruct o. Qed.

Lemma readable_product_info (d : list (string * string)) :
  NoDup (List.map fst d) ->
  readable (Json.Dict (List.map (fun kv => (fst kv, Json.Str (snd kv))) d)).
Proof.
  intros H. cbn [readable]. split.
  - now rewrite map_map.
  - clear H. induction d as [|kv d IH]; cbn; auto.
Qed.

Lemma as_dict_keys (b : BookRecord) :
  List.map fst (match as_dict b with Json.Dict d => d | _ => [] end)
  = ["url"; "title"; "price"; "currency"; "price_text"; "rating";
     "availability_count"; "availability_text"; "description";
     "product_info"].
Proof. reflexivity. Qed.

Lemma as_dict_readable (b : BookRecord) :
  keys_unique b -> price_reads_back b -> readable (as_dict b).
Proof.
  intros Hk Hp. unfold as_dict. cbn [readable List.map fst snd List.fold_right].
  split.
  - repeat (constructor;
            [cbn; intros H;
             repeat (destruct H as [H | H]; [discriminate H | ]); exact H | ]).
    constructor.
  - repeat split; try apply readable_opt_str; try apply readable_opt_int.
    + destruct (price b) as [x|] eqn:E; [ | exact I]. now apply Hp.
    + now rewrite map_map.
    + clear. induction (product_info b) as [|kv d IH]; cbn; auto.
Qed.

(** The lines written for readable values read back as the values. *)
Lemma read_lines_dumps (vs : list Json.value) :
  (forall v, In v vs -> readable v) ->
  Json.read_lines
    (String.concat EmptyString
       (List.map (fun v => Json.dumps v ++ String "010" EmptyString) vs))
  = Some vs.
Proof.
  intros Hr. unfold Json.read_lines.
  rewrite <- (map_map Json.dumps (fun t => t ++ String "010" EmptyString)).
  rewrite splitlines_lines.
  - now apply all_some_loads.
  - intros t Ht. apply in_map_iff in Ht as (v & <- & Hv).
    now apply (readable_facts (need v) v (le_n _) (Hr v Hv)).
Qed.

Lemma books_lines_as_dict (all_books : list BookRecord) :
  books_lines all_books
  = List.map (fun v => Json.dumps v ++ String "010" EmptyString)
             (List.map as_dict all_books).
Proof. unfold books_lines. now rewrite map_map. Qed.

(** ** Claim C8 *)



(** *** The records of a crawl *)

Lemma setitem_keys {V : Type} (d : list (string * V)) (k : string) (v : V) :
  NoDup (List.map fst d) -> NoDup (List.map fst (setitem d k v)).
Proof.
  intros H.
  destruct (in_dec string_dec k (List.map fst d)) as [Hin | Hout].
  - assert (E : List.map fst (setitem d k v) = List.map fst d);
      [ | now rewrite E].
    clear H. induction d as [|[k' v'] d IH]; [destruct Hin | ].
    cbn [setitem]. destruct (String.eqb_spec k k') as [-> | Hne];
      [reflexivity | ].
    cbn [List.map fst]. rewrite IH; [reflexivity | ].
    destruct Hin as [E | Hin]; [now elim Hne | exact Hin].
  - rewrite setitem_fresh, map_app by assumption. cbn.
    apply NoDup_app; [assumption | repeat constructor; intros [] | ].
    intros x Hx [<- | []]. contradiction.
Qed.

(** The [product_info] the extractor builds is a mapping. *)
Lemma book_data_of_keys_unique (soup : Bs4.Tag) (u : string) :
  keys_unique (book_data_of soup u).
Proof.
  unfold keys_unique, book_data_of.
  destruct (parse_price _) as [[a b] c].
  destruct (parse_availability _) as [d e]. cbn [product_info].
  destruct (Bs4.select_one soup Sel.info_table) as [t|]; [ | constructor].
  assert (G : forall rows acc,
             NoDup (List.map fst acc) ->
             NoDup (List.map fst (List.fold_left add_row rows acc))).
  { induction rows as [|r rows IH]; intros acc H; [exact H | ].
    cbn [List.fold_left]. apply IH. unfold add_row.
    destruct (Bs4.find r "th"); [ | exact H].
    destruct (Bs4.find r "td"); [ | exact H].
    now apply setitem_keys. }
  apply G. constructor.
Qed.

Section Saved.

Variable server : list string -> string -> reply.
Variable html_parser : string -> Bs4.node.

Lemma get_book_data_keys (u : string) (w : world) (d : BookRecord)
    (w' : world) :
  get_book_data server html_parser u w = (Ok d, w') -> keys_unique d.
Proof.
  intros H. pose proof (get_book_data_run server html_parser u w) as R.
  cbv zeta in R. destruct (verdict _) as [[e|]|].
  - destruct R as (_ & _ & E). rewrite E in H. discriminate.
  - contradiction.
  - destruct R as (r & _ & _ & E). rewrite E in H. injection H as <- _.
    apply book_data_of_keys_unique.
Qed.

Lemma for_cards_keys (cards : list Bs4.Tag) :
  forall acc w books w',
    for_cards server html_parser cards acc w = (Ok books, w') ->
    Forall keys_unique acc -> Forall keys_unique books.
Proof.
  induction cards as [|a rest IH]; intros acc w books w' H Hacc.
  - cbn in H. now injection H as <- _.
  - cbn [for_cards] in H.
    destruct (Bs4.get a "href") as [h|]; [ | now apply (IH _ _ _ _ H)].
    destruct (Str.is_empty h); [now apply (IH _ _ _ _ H) | ].
    unfold bind in H.
    destruct (get_book_data _ _ _ w) as [[d|e] w1] eqn:E; [ | discriminate].
    apply (IH _ _ _ _ H). apply Forall_app. split; [assumption | ].
    repeat constructor. now apply (get_book_data_keys _ _ _ _ E).
Qed.

Lemma while_true_keys (fuel : nat) :
  forall pages page_num acc w books w',
    while_true server html_parser fuel pages page_num acc w
    = Some (Ok books, w') ->
    Forall keys_unique acc -> Forall keys_unique books.
Proof.
  induction fuel as [|fuel IH]; intros pages page_num acc w books w' H Hacc;
    [discriminate | ].
  rewrite while_true_step in H. cbv zeta in H.
  destruct (req_reply _) as [r|]; [ | discriminate].
  destruct (negb _); [now injection H as <- _ | ].
  destruct (for_cards _ _ _ _ _) as [[books1|e] w2] eqn:Hc; [ | discriminate].
  apply for_cards_keys in Hc; [ | assumption].
  destruct (is_limit page_num pages); [now injection H as <- _ | ].
  now apply (IH _ _ _ _ _ _ H).
Qed.

(** X19: what a crawl saves reads back as what it returns: each line of
    the file, read with [json.loads], is the [dict] of the record at that
    place in the returned list, every [product_info] having each key
    once by construction; the price of each record has to be a float
    that reads back from the text written for it. *)
Theorem scrape_books_saved_reads_back (fuel : nat) (pages : option Z)
    (w : world) (books : list BookRecord) (w' : world) :
  scrape_books server html_parser fuel true pages w = Some (Ok books, w') ->
  (forall b, In b books -> price_reads_back b) ->
  exists content,
    books_file w' = Some content
    /\ Json.read_lines content = Some (List.map as_dict books).
Proof.
  unfold scrape_books. intros H Hp.
  destruct (while_true _ _ _ _ _ _ _) as [[[books1|e] w1]|] eqn:Hw;
    try discriminate.
  injection H as <- <-.
  apply while_true_keys in Hw; [ | constructor].
  eexists. split; [reflexivity | ].
  rewrite books_lines_as_dict. apply read_lines_dumps.
  intros v Hv. apply in_map_iff in Hv as (b & <- & Hb).
  rewrite Forall_forall in Hw.
  apply as_dict_readable; [now apply Hw | now apply Hp].
Qed.

End Saved.

(** * More of the module *)

(** ** Availability *)

Lemma book_data_of_availability (soup : Bs4.Tag) (u : string) :
  (availability_count (book_data_of soup u),
   availability_text (book_data_of soup u))
  = parse_availability
      match Bs4.select_one soup Sel.availability with
      | Some t => Some (Str.join " " (Str.split (Bs4.get_text t)))
      | None => None
      end.
Proof.
  unfold book_data_of.
  destruct (parse_price _) as [[a b] c].
  destruct (parse_availability _) as [d e]. reflexivity.
Qed.

Lemma search_digits_skip (pre t : string) :
  no_digit pre = true -> Re.search_digits (pre ++ t) = Re.search_digits t.
Proof.
  unfold no_digit. induction pre as [|c pre IH]; [reflexivity | ].
  cbn. intros H. apply andb_true_iff in H as [Hc Hp].
  apply negb_true_iff in Hc. rewrite Hc. now apply IH.
Qed.

Lemma search_digits_here (ds rest : string) :
  Str.all_digits ds = true -> ds <> EmptyString -> stops Str.isdigit rest ->
  Re.search_digits (ds ++ rest) = Some ds.
Proof.
  intros Hd Hne Hr. destruct ds as [|c ds]; [now elim Hne | ].
  pose proof Hd as Hd'. unfold Str.all_digits in Hd'. cbn in Hd'.
  apply andb_true_iff in Hd' as [Hc _].
  change (String c ds ++ rest) with (String c (ds ++ rest)).
  cbn [Re.search_digits]. rewrite Hc.
  change (String c (ds ++ rest)) with (String c ds ++ rest).
  now rewrite span_digits_app.
Qed.

Lemma search_digits_none (s : string) :
  no_digit s = true -> Re.search_digits s = None.
Proof.
  intros H. rewrite <- (append_nil_r s). now rewrite search_digits_skip.
Qed.

Lemma int_from_nonneg (s : string) :
  forall a, 0 <= a -> Str.all_digits s = true ->
            0 <= Str.int_of_digits_from a s.
Proof.
  unfold Str.all_digits.
  induction s as [|c s IH]; intros a Ha H; [exact Ha | ].
  cbn in H. apply andb_true_iff in H as [Hc Hs].
  cbn [Str.int_of_digits_from]. apply IH; [ | exact Hs].
  unfold Str.isdigit in Hc. cbv zeta in Hc.
  apply andb_true_iff in Hc as [H1 _]. apply N.leb_le in H1.
  unfold Str.digit_val. lia.
Qed.

Lemma search_digits_digits (s ds : string) :
  Re.search_digits s = Some ds -> Str.all_digits ds = true.
Proof.
  induction s as [|c s IH]; [discriminate | ].
  cbn [Re.search_digits]. destruct (Str.isdigit c) eqn:Hc; [ | exact IH].
  intros [= <-]. cbn [Str.span_digits]. rewrite Hc.
  destruct (Str.span_digits s) as [d r] eqn:E. cbn [fst].
  apply all_digits_cons; [exact Hc | ].
  clear - E. revert d r E. induction s as [|x s IH]; intros d r E.
  - now injection E as <- _.
  - cbn in E. destruct (Str.isdigit x) eqn:Hx.
    + destruct (Str.span_digits s) as [d' r'] eqn:E'.
      injection E as <- _. apply all_digits_cons; [exact Hx | ].
      now apply (IH d' r').
    + now injection E as <- _.
Qed.

(** *** Collapsed blanks *)

Lemma no_space_all (w : string) (c : ascii) :
  no_space (String c w) = true ->
  Str.isspace c = false /\ no_space w = true.
Proof.
  unfold no_space. cbn. intros H. apply andb_true_iff in H as [Hc Hw].
  apply negb_true_iff in Hc. now split.
Qed.

(** What [split_aux] returns: a first word with no blank in it, and words
    that are not empty and have no blank in them. *)
Lemma split_aux_words (s : string) :
  no_space (fst (Str.split_aux s)) = true
  /\ Forall (fun w => w <> EmptyString /\ no_space w = true)
            (snd (Str.split_aux s)).
Proof.
  induction s as [|c s [Hw Hws]]; [split; [reflexivity | constructor] | ].
  cbn [Str.split_aux]. destruct (Str.split_aux s) as [w ws].
  cbn [fst snd] in *. destruct (Str.isspace c) eqn:Hc; cbn [fst snd].
  - split; [reflexivity | ].
    destruct w as [|x w]; cbn [Str.is_empty]; [exact Hws | ].
    constructor; [ | exact Hws]. split; [discriminate | exact Hw].
  - split; [ | exact Hws]. unfold no_space in *. cbn. now rewrite Hc.
Qed.

Lemma split_words (s : string) :
  Forall (fun w => w <> EmptyString /\ no_space w = true) (Str.split s).
Proof.
  unfold Str.split. pose proof (split_aux_words s) as [Hw Hws].
  destruct (Str.split_aux s) as [w ws]. cbn [fst snd] in *.
  destruct w as [|x w]; cbn [Str.is_empty]; [exact Hws | ].
  constructor; [ | exact Hws]. split; [discriminate | exact Hw].
Qed.

Lemma collapsed_from_word (w rest : string) (prev : bool) :
  w <> EmptyString -> no_space w = true ->
  collapsed_from prev (w ++ rest) = collapsed_from false rest.
Proof.
  revert prev. induction w as [|c w IH]; intros prev Hne Hw; [now elim Hne | ].
  apply no_space_all in Hw as [Hc Hw].
  cbn [append collapsed_from]. rewrite Hc.
  destruct w as [|x w]; [reflexivity | ].
  apply IH; [discriminate | exact Hw].
Qed.

Lemma join_cons2 (sep x y : string) (l : list string) :
  Str.join sep (x :: y :: l) = x ++ sep ++ Str.join sep (y :: l).
Proof. reflexivity. Qed.

Lemma collapsed_from_join (ws : list string) :
  forall prev,
    ws <> [] ->
    Forall (fun w => w <> EmptyString /\ no_space w = true) ws ->
    collapsed_from prev (Str.join " " ws) = true.
Proof.
  induction ws as [|w ws IH]; intros prev Hne H; [now elim Hne | ].
  inversion H as [|? ? [Hw1 Hw2] Hws]; subst.
  destruct ws as [|y ws].
  - cbn [Str.join].
    pose proof (collapsed_from_word w EmptyString prev Hw1 Hw2) as E.
    now rewrite append_nil_r in E.
  - rewrite join_cons2, collapsed_from_word by assumption.
    cbn [append collapsed_from].
    change (Str.isspace " ") with true. cbv iota.
    change (Ascii.eqb " " " ") with true. cbn [andb negb].
    apply IH; [discriminate | exact Hws].
Qed.

Lemma collapsed_join (ws : list string) :
  ws <> [] ->
  Forall (fun w => w <> EmptyString /\ no_space w = true) ws ->
  collapsed (Str.join " " ws) = true.
Proof. apply collapsed_from_join. Qed.

Lemma join_nonempty (ws : list string) :
  ws <> [] ->
  Forall (fun w => w <> EmptyString /\ no_space w = true) ws ->
  Str.join " " ws <> EmptyString.
Proof.
  destruct ws as [|w ws]; [now intros H | intros _ H].
  inversion H as [|? ? [Hw1 _] _]; subst.
  destruct w as [|c w]; [now elim Hw1 | ].
  destruct ws; discriminate.
Qed.

Lemma join_empty : Str.join " " [] = EmptyString.
Proof. reflexivity. Qed.

Lemma rstrip_no_space (w : string) : no_space w = true -> Str.rstrip w = w.
Proof.
  induction w as [|c w IH]; [reflexivity | ]. intros H.
  apply no_space_all in H as [Hc Hw].
  cbn [Str.rstrip]. rewrite (IH Hw), Hc, andb_false_r. reflexivity.
Qed.

Lemma rstrip_app (a b : string) :
  Str.rstrip b <> EmptyString -> Str.rstrip (a ++ b) = a ++ Str.rstrip b.
Proof.
  intros H. induction a as [|c a IH]; [reflexivity | ].
  cbn [append Str.rstrip]. rewrite IH.
  destruct (a ++ Str.rstrip b) as [|x t] eqn:E; [ | reflexivity].
  destruct a; [now elim H | discriminate].
Qed.

Lemma rstrip_join (ws : list string) :
  ws <> [] ->
  Forall (fun w => w <> EmptyString /\ no_space w = true) ws ->
  Str.rstrip (Str.join " " ws) = Str.join " " ws.
Proof.
  induction ws as [|w ws IH]; intros Hne H; [now elim Hne | ].
  inversion H as [|? ? [Hw1 Hw2] Hws]; subst.
  destruct ws as [|y ws]; [now apply rstrip_no_space | ].
  assert (Hj : Str.rstrip (Str.join " " (y :: ws)) = Str.join " " (y :: ws))
    by (apply IH; [discriminate | exact Hws]).
  assert (Hn : Str.join " " (y :: ws) <> EmptyString)
    by (apply join_nonempty; [discriminate | exact Hws]).
  rewrite join_cons2.
  rewrite rstrip_app; [rewrite rstrip_app; [now rewrite Hj | now rewrite Hj] | ].
  rewrite rstrip_app by now rewrite Hj. discriminate.
Qed.

Lemma lstrip_join (ws : list string) :
  Forall (fun w => w <> EmptyString /\ no_space w = true) ws ->
  Str.lstrip (Str.join " " ws) = Str.join " " ws.
Proof.
  destruct ws as [|w ws]; [reflexivity | ]. intros H.
  inversion H as [|? ? [Hw1 Hw2] Hws]; subst.
  destruct w as [|c w]; [now elim Hw1 | ].
  apply no_space_all in Hw2 as [Hc _].
  destruct ws; cbn; now rewrite Hc.
Qed.

(** [" ".join(s.split())] is left alone by [strip]. *)
Lemma strip_join_split (s : string) :
  Str.strip (Str.join " " (Str.split s)) = Str.join " " (Str.split s).
Proof.
  unfold Str.strip. pose proof (split_words s) as H.
  rewrite lstrip_join by exact H.
  destruct (Str.split s) as [|w ws] eqn:E; [reflexivity | ].
  rewrite <- E in *. apply rstrip_join; [rewrite E; discriminate | exact H].
Qed.

Lemma split_all_spaces (s : string) :
  Str.all_spaces s = true -> Str.split s = [].
Proof.
  intros H. unfold Str.split.
  assert (E : Str.split_aux s = (EmptyString, [])).
  { unfold Str.all_spaces in H. induction s as [|c s IH]; [reflexivity | ].
    cbn in H. apply andb_true_iff in H as [Hc Hs].
    cbn [Str.split_aux]. now rewrite (IH Hs), Hc. }
  now rewrite E.
Qed.

Lemma no_digit_app (a b : string) :
  no_digit (a ++ b) = no_digit a && no_digit b.
Proof.
  unfold no_digit. induction a as [|c a IH]; [reflexivity | ].
  cbn. rewrite IH. now rewrite andb_assoc.
Qed.

Lemma no_digit_split_aux (s : string) :
  no_digit s = true ->
  no_digit (fst (Str.split_aux s)) = true
  /\ Forall (fun w => no_digit w = true) (snd (Str.split_aux s)).
Proof.
  induction s as [|c s IH]; intros H; [split; [reflexivity | constructor] | ].
  unfold no_digit in H. cbn in H. apply andb_true_iff in H as [Hc Hs].
  destruct (IH Hs) as [H1 H2].
  cbn [Str.split_aux]. destruct (Str.split_aux s) as [w ws].
  cbn [fst snd] in *. destruct (Str.isspace c); cbn [fst snd].
  - split; [reflexivity | ].
    destruct (Str.is_empty w); [exact H2 | now constructor].
  - split; [ | exact H2]. unfold no_digit in *. cbn. now rewrite Hc.
Qed.

(** Collapsing the blanks of a text brings no digit in. *)
Lemma no_digit_join_split (s : string) :
  no_digit s = true -> no_digit (Str.join " " (Str.split s)) = true.
Proof.
  intros H. destruct (no_digit_split_aux s H) as [H1 H2]. unfold Str.split.
  destruct (Str.split_aux s) as [w ws]. cbn [fst snd] in *.
  assert (Hall : Forall (fun w => no_digit w = true)
                   (if Str.is_empty w then ws else w :: ws))
    by (destruct (Str.is_empty w); [exact H2 | now constructor]).
  clear - Hall. induction Hall as [|x l Hx Hl IH]; [reflexivity | ].
  destruct l as [|y l]; [exact Hx | ].
  rewrite join_cons2, !no_digit_app, Hx, IH. reflexivity.
Qed.

(** X1: the availability count is the number the first run of digits of
    the availability text spells, whatever comes before and after it, as
    long as the run is no longer than the digit strings [int] converts
    (past that length [int] raises and no record is built). *)
Theorem X1_availability_count (soup node : Bs4.Tag) (book_url : string)
    (pre ds rest : string) :
  Bs4.select_one soup Sel.availability = Some node ->
  Str.join " " (Str.split (Bs4.get_text node)) = pre ++ ds ++ rest ->
  no_digit pre = true ->
  Str.all_digits ds = true -> ds <> EmptyString ->
  (String.length ds <= Str.int_max_str_digits)%nat ->
  stops Str.isdigit rest ->
  availability_count (book_data_of soup book_url) = Some (Str.int ds).
Proof.
  intros Hsel Htxt Hpre Hds Hne _ Hrest.
  pose proof (book_data_of_availability soup book_url) as E.
  rewrite Hsel, Htxt in E. unfold parse_availability in E.
  assert (Hnon : Str.is_empty (pre ++ ds ++ rest) = false).
  { destruct pre; [ | reflexivity]. destruct ds; [now elim Hne | reflexivity]. }
  rewrite Hnon, search_digits_skip, search_digits_here in E by assumption.
  now injection E as -> _.
Qed.

Lemma X1_availability_count_witness :
  availability_count (book_data_of (Bs4.soup_of Sample.attic) Sample.attic_url)
  = Some 22.
Proof.
  apply (X1_availability_count (Bs4.soup_of Sample.attic)
           (Sample.found Sel.availability) Sample.attic_url
           "In stock (" "22" " available)");
    try reflexivity; [discriminate | unfold Str.int_max_str_digits; cbn; lia].
Defined.

(** X2: when the page has no availability element, or one whose text is
    only blanks, the record has neither a count nor an availability text
    (the text is [None], not an empty string); when the text has words
    and no digit, the count is [None] and the text is kept. *)
Theorem X2_availability_edges (soup : Bs4.Tag) (book_url : string) :
  (Bs4.select_one soup Sel.availability = None ->
   availability_count (book_data_of soup book_url) = None
   /\ availability_text (book_data_of soup book_url) = None)
  /\ (forall node,
        Bs4.select_one soup Sel.availability = Some node ->
        Str.all_spaces (Bs4.get_text node) = true ->
        availability_count (book_data_of soup book_url) = None
        /\ availability_text (book_data_of soup book_url) = None)
  /\ (forall node,
        Bs4.select_one soup Sel.availability = Some node ->
        Str.split (Bs4.get_text node) <> [] ->
        no_digit (Bs4.get_text node) = true ->
        availability_count (book_data_of soup book_url) = None
        /\ availability_text (book_data_of soup book_url)
           = Some (Str.join " " (Str.split (Bs4.get_text node)))).
Proof.
  pose proof (book_data_of_availability soup book_url) as E.
  split; [ | split].
  - intros Hsel. rewrite Hsel in E. cbn in E. now injection E as -> ->.
  - intros node Hsel Hsp. rewrite Hsel, split_all_spaces in E by assumption.
    cbn in E. now injection E as -> ->.
  - intros node Hsel Hw Hd. rewrite Hsel in E. unfold parse_availability in E.
    pose proof (split_words (Bs4.get_text node)) as Hwords.
    pose proof (join_nonempty _ Hw Hwords) as Hne.
    apply is_empty_false in Hne. rewrite Hne in E.
    rewrite strip_join_split in E.
    rewrite search_digits_none in E by now apply no_digit_join_split.
    now injection E as -> ->.
Qed.

Lemma X2_availability_edges_witness :
  availability_count (book_data_of (Bs4.soup_of Sample.hollow) Sample.attic_url)
  = None
  /\ availability_text (book_data_of (Bs4.soup_of Sample.hollow)
                                     Sample.attic_url) = None.
Proof.
  exact (proj1 (proj2 (X2_availability_edges (Bs4.soup_of Sample.hollow)
                         Sample.attic_url))
           (Sample.found_in Sample.hollow Sel.availability) eq_refl eq_refl).
Defined.

(** X3: an availability text, when the record has one, is the text of the
    availability element with its blanks collapsed: it is not empty, has
    no blank at either end, and no blank inside but single spaces (the
    [strip] of [parse_availability] finds nothing to remove). *)
Theorem X3_availability_text_collapsed (soup : Bs4.Tag) (book_url t : string) :
  availability_text (book_data_of soup book_url) = Some t ->
  collapsed t = true
  /\ t <> EmptyString
  /\ exists node,
       Bs4.select_one soup Sel.availability = Some node
       /\ t = Str.join " " (Str.split (Bs4.get_text node)).
Proof.
  intros H. pose proof (book_data_of_availability soup book_url) as E.
  rewrite H in E.
  destruct (Bs4.select_one soup Sel.availability) as [node|];
    [ | discriminate].
  unfold parse_availability in E.
  destruct (Str.is_empty _) eqn:Hne; [discriminate | ].
  rewrite strip_join_split in E. injection E as _ ->.
  apply is_empty_false in Hne.
  pose proof (split_words (Bs4.get_text node)) as Hw.
  assert (Hs : Str.split (Bs4.get_text node) <> []).
  { intros E. rewrite E in Hne. now apply Hne. }
  split; [now apply collapsed_join | ].
  split; [exact Hne | ]. now exists node.
Qed.

Lemma X3_availability_text_collapsed_witness :
  collapsed "In stock (22 available)" = true.
Proof.
  exact (proj1 (X3_availability_text_collapsed (Bs4.soup_of Sample.attic)
                  Sample.attic_url "In stock (22 available)" eq_refl)).
Defined.

(** ** What every record satisfies *)

Lemma shr_1_nonneg (mrs : shr_record) :
  0 <= shr_m mrs -> 0 <= shr_m (shr_1 mrs).
Proof.
  destruct mrs as [m r s]. cbn [shr_m]. intros H. unfold shr_1.
  destruct m as [|[p|p|]|p]; cbn [shr_m]; lia.
Qed.

Lemma iter_pos_shr_nonneg (p : positive) :
  forall mrs, 0 <= shr_m mrs -> 0 <= shr_m (iter_pos shr_1 p mrs).
Proof.
  induction p as [p IH|p IH|]; intros mrs H; cbn [iter_pos].
  - apply IH, IH, shr_1_nonneg, H.
  - apply IH, IH, H.
  - apply shr_1_nonneg, H.
Qed.

Lemma shr_fexp_nonneg (prec emax m e : Z) (l : location) :
  0 <= m -> 0 <= shr_m (fst (shr_fexp prec emax m e l)).
Proof.
  intros H. unfold shr_fexp, shr.
  assert (H0 : 0 <= shr_m (shr_record_of_loc m l))
    by (unfold shr_record_of_loc; destruct l as [|[]]; exact H).
  destruct (_ - e) as [|p|p]; cbn [fst]; try exact H0.
  now apply iter_pos_shr_nonneg.
Qed.

Lemma binary_round_aux_nonneg (prec emax : Z) (mx ex : Z) (lx : location) :
  0 <= mx ->
  nonneg_float (binary_round_aux prec emax false mx ex lx) = true.
Proof.
  intros H. unfold binary_round_aux.
  pose proof (shr_fexp_nonneg prec emax mx ex lx H) as H1.
  destruct (shr_fexp prec emax mx ex lx) as [mrs' e']. cbn [fst] in H1.
  assert (H2 : 0 <= round_nearest_even (shr_m mrs') (loc_of_shr_record mrs')).
  { unfold round_nearest_even.
    destruct (loc_of_shr_record mrs') as [|[]]; try exact H1; try lia.
    destruct (Z.even (shr_m mrs')); lia. }
  pose proof (shr_fexp_nonneg prec emax _ e' loc_Exact H2) as H3.
  destruct (shr_fexp prec emax _ e' loc_Exact) as [mrs'' e'']. cbn [fst] in H3.
  destruct (shr_m mrs'') as [|p|p]; [reflexivity | | lia].
  destruct (e'' <=? emax - prec); reflexivity.
Qed.

(** The quotient of two positive integers, rounded, is a number and is
    not below zero. *)
Lemma of_ratio_nonneg (num den : Z) :
  nonneg_float (Float.of_ratio false num den) = true.
Proof.
  unfold Float.of_ratio.
  destruct num as [|n|n]; try reflexivity.
  destruct den as [|d|d]; try reflexivity.
  unfold SFdiv. cbn [xorb].
  destruct (SFdiv_core_binary _ _ _ _ _ _) as [[mz ez] lz] eqn:E.
  apply binary_round_aux_nonneg.
  unfold SFdiv_core_binary in E.
  match type of E with
  | (let '(q, r) := Z.div_eucl ?a ?b in _) = _ =>
      pose proof (Z.div_eucl_eq a b) as Hq;
      pose proof (Z.mod_pos_bound a b) as Hr;
      assert (Ha : 0 <= a); [ | unfold Z.modulo in Hr;
        destruct (Z.div_eucl a b) as [q r] eqn:Hd]
  end.
  - match goal with
    | |- 0 <= match ?s with _ => _ end => destruct s
    end; try lia. rewrite Z.shiftl_mul_pow2 by lia.
    apply Z.mul_nonneg_nonneg; [lia | apply Z.pow_nonneg; lia].
  - injection E as <- _ _.
    specialize (Hq ltac:(lia)). specialize (Hr ltac:(lia)). nia.
Qed.

Lemma of_decimal_nonneg (ip fp : string) (e : Z) :
  nonneg_float (Float.of_decimal false ip fp e) = true.
Proof.
  unfold Float.of_decimal. destruct (0 <=? _); apply of_ratio_nonneg.
Qed.

Lemma of_str_nonneg (s : string) : nonneg_float (Float.of_str s) = true.
Proof.
  unfold Float.of_str. destruct (Str.span_digits s) as [ip r].
  destruct r as [|c fp]; [apply of_decimal_nonneg | ].
  destruct c as [[] [] [] [] [] [] [] []]; apply of_decimal_nonneg.
Qed.

Lemma first_rating_range (classes : list string) (n : Z) :
  first_rating classes = Some n -> 1 <= n <= 5.
Proof.
  induction classes as [|c r IH]; [discriminate | ].
  cbn [first_rating].
  destruct (rating_lookup c rating_map) as [m|] eqn:E; [ | exact IH].
  intros [= <-]. unfold rating_map, rating_lookup in E.
  repeat match type of E with
         | (if ?b then _ else _) = _ =>
             destruct b; [injection E as <-; lia | ]
         end.
  discriminate.
Qed.

(** X4: every record the extractor builds keeps the invariants of a book
    record: its [url] is the URL it was asked for, a rating is between 1
    and 5, an availability count is not negative, a price is a number and
    is not negative (a minus sign in the price text is read as the
    currency marker), and no key of [product_info] comes twice. *)
Theorem X4_record_invariants (soup : Bs4.Tag) (book_url : string) :
  url (book_data_of soup book_url) = book_url
  /\ (forall n, rating (book_data_of soup book_url) = Some n -> 1 <= n <= 5)
  /\ (forall n, availability_count (book_data_of soup book_url) = Some n ->
                0 <= n)
  /\ (forall x, price (book_data_of soup book_url) = Some x ->
                nonneg_float x = true)
  /\ NoDup (List.map fst (product_info (book_data_of soup book_url))).
Proof.
  split; [apply book_data_of_url | ].
  split; [ | split; [ | split]].
  - intros n H. rewrite book_data_of_rating in H.
    destruct (Bs4.select_one soup Sel.rating) as [t|]; [ | discriminate].
    now apply (first_rating_range (Bs4.get_class t)).
  - intros n H. pose proof (book_data_of_availability soup book_url) as E.
    rewrite H in E. unfold parse_availability in E.
    destruct (match Bs4.select_one soup Sel.availability with
              | Some t => _ | None => None end) as [r|]; [ | discriminate].
    destruct (Str.is_empty r); [discriminate | ].
    destruct (Re.search_digits r) as [ds|] eqn:Hs; [ | discriminate].
    injection E as -> _. apply int_from_nonneg; [lia | ].
    now apply (search_digits_digits r).
  - intros x H. pose proof (book_data_of_price_fields soup book_url) as E.
    rewrite H in E. unfold parse_price in E.
    destruct (text_or_none _) as [r|]; [ | discriminate].
    destruct (Str.is_empty r); [discriminate | ].
    destruct (Re.search_price r) as [m|]; [ | discriminate].
    injection E as -> _ _. apply of_str_nonneg.
  - apply book_data_of_keys_unique.
Qed.

Lemma X4_record_invariants_witness :
  1 <= 3 <= 5 /\ 0 <= 22
  /\ nonneg_float (S754_finite false 7285979772155331 (-47)) = true.
Proof.
  pose (H := X4_record_invariants (Bs4.soup_of Sample.attic) Sample.attic_url).
  split; [exact (proj1 (proj2 H) 3 eq_refl) | ].
  split; [exact (proj1 (proj2 (proj2 H)) 22 eq_refl) | ].
  exact (proj1 (proj2 (proj2 (proj2 H))) _ eq_refl).
Defined.

(** ** The rating *)

Lemma rating_lookup_some (c : string) (n : Z) :
  rating_lookup c rating_map = Some n -> In (c, n) rating_map.
Proof.
  unfold rating_map, rating_lookup. intros H.
  repeat match type of H with
         | (if String.eqb c ?w then _ else _) = _ =>
             destruct (String.eqb_spec c w) as [-> | _];
             [injection H as <-; simpl; tauto | ]
         end.
  discriminate.
Qed.

Lemma rating_lookup_word (c : string) :
  rating_lookup c rating_map = None -> ~ In c rating_words.
Proof.
  intros H Hin. simpl in Hin.
  repeat (destruct Hin as [<- | Hin]; [discriminate | ]). exact Hin.
Qed.

(** The loop returns at the first token the map knows. *)
Lemma first_rating_some (classes : list string) (n : Z) :
  first_rating classes = Some n ->
  exists pre tok post,
    classes = (pre ++ tok :: post)%list
    /\ (forall c, In c pre -> ~ In c rating_words)
    /\ In (tok, n) rating_map.
Proof.
  induction classes as [|c r IH]; [discriminate | ].
  cbn [first_rating].
  destruct (rating_lookup c rating_map) as [m|] eqn:E.
  - intros [= ->]. exists [], c, r.
    split; [reflexivity | ]. split; [now intros x [] | ].
    now apply rating_lookup_some.
  - intros H. destruct (IH H) as (pre & tok & post & -> & Hpre & Htok).
    exists (c :: pre), tok, post. split; [reflexivity | ].
    split; [ | exact Htok].
    intros x [<- | Hx]; [now apply rating_lookup_word | now apply Hpre].
Qed.

(** X5: the rating is decided by the first class token of the rating
    element that is one of the five words, whatever tokens follow it,
    other rating words among them; and a record has a rating only in
    this way. *)
Theorem X5_rating_first_word (soup : Bs4.Tag) (book_url : string) (n : Z) :
  rating (book_data_of soup book_url) = Some n
  <-> exists node pre tok post,
        Bs4.select_one soup Sel.rating = Some node
        /\ Bs4.get_class node = (pre ++ tok :: post)%list
        /\ (forall c, In c pre -> ~ In c rating_words)
        /\ In (tok, n) rating_map.
Proof.
  rewrite book_data_of_rating. unfold parse_rating. split.
  - destruct (Bs4.select_one soup Sel.rating) as [node|]; [ | discriminate].
    intros H. destruct (first_rating_some _ _ H) as (pre & tok & post & E & R).
    now exists node, pre, tok, post.
  - intros (node & pre & tok & post & -> & -> & Hpre & Htok).
    apply first_rating_one; [exact Hpre | ].
    now apply rating_map_values.
Qed.

Lemma X5_rating_first_word_witness :
  rating (book_data_of (Bs4.soup_of Sample.two_levels) Sample.attic_url)
  = Some 2.
Proof.
  apply (proj2 (X5_rating_first_word (Bs4.soup_of Sample.two_levels)
                  Sample.attic_url 2)).
  exists (Sample.found_in Sample.two_levels Sel.rating),
         ["star-rating"], "Two", ["Five"].
  split; [reflexivity | ]. split; [reflexivity | ].
  split; [ | simpl; tauto].
  intros c [<- | []] Hin. simpl in Hin.
  repeat (destruct Hin as [Hin | Hin]; [discriminate | ]). exact Hin.
Defined.

(** ** Prices with something after the number *)

(** Text with no digit in it, before a marker, holds no match of the
    price pattern and is passed over. *)
Lemma skip_spaces_words (pre : string) (c : ascii) (t : string) :
  no_digit pre = true -> Str.isdigit c = false -> Str.isspace c = false ->
  stops Str.isdigit (Str.skip_spaces (pre ++ String c t)).
Proof.
  intros Hpre Hc1 Hc2. induction pre as [|x pre IH].
  - cbn. now rewrite Hc2.
  - unfold no_digit in Hpre. cbn in Hpre.
    apply andb_true_iff in Hpre as [Hx Hp]. apply negb_true_iff in Hx.
    cbn [append Str.skip_spaces].
    destruct (Str.isspace x); [now apply IH | exact Hx].
Qed.

Lemma search_price_skip_words (pre : string) (c : ascii) (t : string) :
  no_digit pre = true -> Str.isdigit c = false -> Str.isspace c = false ->
  Re.search_price (pre ++ String c t) = Re.search_price (String c t).
Proof.
  intros Hpre Hc1 Hc2. induction pre as [|x pre IH]; [reflexivity | ].
  pose proof Hpre as Hp. unfold no_digit in Hp. cbn in Hp.
  apply andb_true_iff in Hp as [_ Hp].
  change (Re.search_price (String x pre ++ String c t))
    with (match Re.match_price_here (String x (pre ++ String c t)) with
          | Some m => Some m
          | None => Re.search_price (pre ++ String c t)
          end).
  assert (E : Re.match_price_here (String x (pre ++ String c t)) = None).
  { unfold Re.match_price_here.
    destruct (negb (Str.isdigit x) && negb (Str.isspace x)); [ | reflexivity].
    pose proof (skip_spaces_words pre c t Hp Hc1 Hc2) as Hs.
    pose proof (span_digits_app EmptyString _ eq_refl Hs) as Hd.
    cbn [append] in Hd. rewrite Hd. reflexivity. }
  rewrite E. now apply IH.
Qed.

Lemma no_digit_nonempty (pre : string) (c : ascii) (t : string) :
  Str.is_empty (pre ++ String c t) = false.
Proof. destruct pre; reflexivity. Qed.

(** X6: a price text with no digit before its marker, then the marker,
    optional blanks and digits, which goes on with anything but a digit
    or a fraction (a grouping comma, a unit, a dot with no digit behind
    it), gives the whole number the digits spell as [price]; what comes
    before the marker and after the digits is dropped from the price and
    kept in [price_text]. *)
Theorem X6_price_whole_number (soup node : Bs4.Tag) (book_url : string)
    (pre : string) (c : ascii) (ws ds rest : string) :
  Bs4.select_one soup Sel.price = Some node ->
  Bs4.get_text_strip node = pre ++ String c (ws ++ ds ++ rest) ->
  no_digit pre = true ->
  Str.isdigit c = false -> Str.isspace c = false ->
  Str.all_spaces ws = true ->
  Str.all_digits ds = true -> ds <> EmptyString ->
  ends_number rest ->
  price (book_data_of soup book_url)
  = Some (Float.of_decimal false ds EmptyString 0)
  /\ currency (book_data_of soup book_url) = Some (String c EmptyString)
  /\ price_text (book_data_of soup book_url)
     = Some (pre ++ String c (ws ++ ds ++ rest)).
Proof.
  intros Hsel Htxt Hpre Hc1 Hc2 Hws Hds Hne Hrest.
  pose proof (book_data_of_price_fields soup book_url) as E.
  rewrite Hsel in E. cbn [text_or_none] in E. rewrite Htxt in E.
  unfold parse_price in E.
  rewrite no_digit_nonempty, search_price_skip_words in E by assumption.
  rewrite (search_price_here _ _
             (match_price_here_whole c ws ds rest Hc1 Hc2 Hws Hds Hne Hrest))
    in E.
  cbn [Re.val Re.cur] in E. rewrite of_str_digits in E by assumption.
  injection E as -> -> ->. now repeat split.
Qed.

Lemma X6_price_whole_number_witness :
  price (book_data_of (Bs4.soup_of Sample.two_levels) Sample.attic_url)
  = Some (S754_finite false 4503599627370496 (-52))
  /\ currency (book_data_of (Bs4.soup_of Sample.two_levels) Sample.attic_url)
     = Some Sample.pound
  /\ price_text (book_data_of (Bs4.soup_of Sample.two_levels)
                              Sample.attic_url)
     = Some (Sample.pound ++ "1,234.50").
Proof.
  apply (X6_price_whole_number (Bs4.soup_of Sample.two_levels)
           (Sample.found_in Sample.two_levels Sel.price) Sample.attic_url
           EmptyString (ascii_of_N 163) EmptyString "1" ",234.50");
    try reflexivity; [discriminate | ].
  split; [reflexivity | discriminate].
Defined.

(** X7: what comes after the fraction of a price is dropped as well: no
    digit before the marker, then the marker, optional blanks, digits, a
    dot, digits and then anything that does not start with a digit give
    the value of the decimal. *)
Theorem X7_price_trailing_text (soup node : Bs4.Tag) (book_url : string)
    (pre : string) (c : ascii) (ws ds fs rest : string) :
  Bs4.select_one soup Sel.price = Some node ->
  Bs4.get_text_strip node = pre ++ String c (ws ++ ds ++ "." ++ fs ++ rest) ->
  no_digit pre = true ->
  Str.isdigit c = false -> Str.isspace c = false ->
  Str.all_spaces ws = true ->
  Str.all_digits ds = true -> ds <> EmptyString ->
  Str.all_digits fs = true -> fs <> EmptyString ->
  stops Str.isdigit rest ->
  price (book_data_of soup book_url) = Some (Float.of_decimal false ds fs 0)
  /\ currency (book_data_of soup book_url) = Some (String c EmptyString)
  /\ price_text (book_data_of soup book_url)
     = Some (pre ++ String c (ws ++ ds ++ "." ++ fs ++ rest)).
Proof.
  intros Hsel Htxt Hpre Hc1 Hc2 Hws Hds Hne Hfs Hnf Hrest.
  pose proof (book_data_of_price_fields soup book_url) as E.
  rewrite Hsel in E. cbn [text_or_none] in E. rewrite Htxt in E.
  unfold parse_price in E.
  rewrite no_digit_nonempty, search_price_skip_words in E by assumption.
  rewrite (search_price_here _ _
             (match_price_here_fraction c ws ds fs rest
                Hc1 Hc2 Hws Hds Hne Hfs Hnf Hrest)) in E.
  cbn [Re.val Re.cur] in E. rewrite of_str_decimal in E by assumption.
  injection E as -> -> ->. now repeat split.
Qed.

Lemma X7_price_trailing_text_witness :
  price (book_data_of (Bs4.soup_of Sample.per_copy) Sample.attic_url)
  = Some (S754_finite false 7285979772155331 (-47))
  /\ currency (book_data_of (Bs4.soup_of Sample.per_copy) Sample.attic_url)
     = Some Sample.pound
  /\ price_text (book_data_of (Bs4.soup_of Sample.per_copy) Sample.attic_url)
     = Some ("now " ++ Sample.pound ++ " 51.77 a copy").
Proof.
  apply (X7_price_trailing_text (Bs4.soup_of Sample.per_copy)
           (Sample.found_in Sample.per_copy Sel.price) Sample.attic_url
           "now " (ascii_of_N 163) " " "51" "77" " a copy");
    try reflexivity; discriminate.
Defined.

(** ** Texts read with [get_text(strip=True)] *)

Lemma book_data_of_texts (soup : Bs4.Tag) (u : string) :
  title (book_data_of soup u) = text_or_none (Bs4.select_one soup Sel.title)
  /\ description (book_data_of soup u)
     = match Bs4.select_one soup Sel.description with
       | Some desc_anchor => text_or_none (Bs4.find_next desc_anchor "p")
       | None => None
       end
  /\ product_info (book_data_of soup u)
     = match Bs4.select_one soup Sel.info_table with
       | Some info_table =>
           List.fold_left add_row (Bs4.select info_table Sel.row) []
       | None => []
       end.
Proof.
  unfold book_data_of.
  destruct (parse_price _) as [[a b] c].
  destruct (parse_availability _) as [d e]. now repeat split.
Qed.

Lemma lstrip_stops (s : string) : stops Str.isspace (Str.lstrip s).
Proof.
  induction s as [|c s IH]; [exact I | ]. cbn [Str.lstrip].
  destruct (Str.isspace c) eqn:Hc; [exact IH | exact Hc].
Qed.

Lemma lstrip_id (s : string) : stops Str.isspace s -> Str.lstrip s = s.
Proof.
  destruct s as [|c s]; [reflexivity | ]. cbn. now intros ->.
Qed.

Lemma rstrip_stops (s : string) :
  stops Str.isspace s -> stops Str.isspace (Str.rstrip s).
Proof.
  destruct s as [|c s]; [trivial | ]. cbn [stops Str.rstrip]. intros H.
  now rewrite H, andb_false_r.
Qed.

Lemma rstrip_rstrip (s : string) : Str.rstrip (Str.rstrip s) = Str.rstrip s.
Proof.
  induction s as [|c s IH]; [reflexivity | ]. cbn [Str.rstrip].
  destruct (Str.is_empty (Str.rstrip s) && Str.isspace c) eqn:E;
    [reflexivity | ].
  cbn [Str.rstrip]. now rewrite IH, E.
Qed.

(** What [strip] returns: nothing for [strip] to remove again. *)
Lemma strip_facts (s : string) :
  stops Str.isspace (Str.strip s)
  /\ Str.rstrip (Str.strip s) = Str.strip s.
Proof.
  unfold Str.strip. split.
  - apply rstrip_stops, lstrip_stops.
  - apply rstrip_rstrip.
Qed.

Lemma concat_cons (p : string) (l : list string) :
  String.concat EmptyString (p :: l) = p ++ String.concat EmptyString l.
Proof.
  destruct l; cbn [String.concat]; [now rewrite append_nil_r | reflexivity].
Qed.

(** Pieces that are not empty, start with no blank and end with none, put
    one after the other. *)
Lemma concat_trimmed (l : list string) :
  Forall (fun p => p <> EmptyString /\ stops Str.isspace p
                   /\ Str.rstrip p = p) l ->
  stops Str.isspace (String.concat EmptyString l)
  /\ Str.rstrip (String.concat EmptyString l) = String.concat EmptyString l
  /\ (l <> [] -> String.concat EmptyString l <> EmptyString).
Proof.
  induction l as [|p l IH]; intros H; [now repeat split | ].
  inversion H as [|? ? (Hne & Hst & Hr) Hl]; subst.
  destruct (IH Hl) as (_ & IHr & IHn). rewrite concat_cons.
  destruct p as [|c p]; [now elim Hne | ].
  split; [exact Hst | ]. split; [ | discriminate].
  destruct l as [|q l].
  - cbn [String.concat]. now rewrite append_nil_r.
  - rewrite rstrip_app; rewrite IHr; [reflexivity | ].
    apply IHn. discriminate.
Qed.

Lemma get_text_strip_trimmed (t : Bs4.Tag) :
  Str.strip (Bs4.get_text_strip t) = Bs4.get_text_strip t.
Proof.
  unfold Bs4.get_text_strip.
  set (l := List.filter _ _).
  assert (H : Forall (fun p => p <> EmptyString /\ stops Str.isspace p
                               /\ Str.rstrip p = p) l).
  { apply Forall_forall. intros p Hp. apply filter_In in Hp as [Hin Hne].
    apply in_map_iff in Hin as (s & <- & _).
    apply negb_true_iff, is_empty_false in Hne.
    split; [exact Hne | apply strip_facts]. }
  destruct (concat_trimmed l H) as (Hst & Hr & _).
  unfold Str.strip. now rewrite lstrip_id.
Qed.

Lemma text_or_none_trimmed (node : option Bs4.Tag) (t : string) :
  text_or_none node = Some t -> Str.strip t = t.
Proof.
  destruct node as [n|]; [ | discriminate]. intros [= <-].
  apply get_text_strip_trimmed.
Qed.

Lemma setitem_in {V : Type} (d : list (string * V)) (k : string) (v : V)
    (kv : string * V) :
  In kv (setitem d k v) -> kv = (k, v) \/ In kv d.
Proof.
  induction d as [|[k' v'] d IH]; cbn [setitem].
  - intros [<- | []]. now left.
  - destruct (String.eqb_spec k k') as [-> | _].
    + intros [<- | H]; [now left | right; now right].
    + intros [<- | H]; [right; now left | ].
      destruct (IH H) as [E | Hin]; [now left | right; now right].
Qed.

Lemma add_row_in (rows : list Bs4.Tag) (kv : string * string) :
  forall acc,
    In kv (List.fold_left add_row rows acc) ->
    In kv acc
    \/ exists th td, kv = (Bs4.get_text_strip th, Bs4.get_text_strip td).
Proof.
  induction rows as [|r rows IH]; intros acc H; [now left | ].
  cbn [List.fold_left] in H. destruct (IH _ H) as [Hin | Hex];
    [ | now right].
  unfold add_row in Hin.
  destruct (Bs4.find r "th") as [th|]; [ | now left].
  destruct (Bs4.find r "td") as [td|]; [ | now left].
  destruct (setitem_in _ _ _ _ Hin) as [E | Hacc]; [ | now left].
  right. now exists th, td.
Qed.

(** X8: every text the record takes with [get_text(strip=True)] is
    trimmed, for every page: [title], [price_text], [description] and
    the keys and values of [product_info] have no blank at either end
    ([strip] leaves them as they are), and a [price_text] is never
    empty. *)
Theorem X8_texts_trimmed (soup : Bs4.Tag) (book_url : string) :
  (forall t, title (book_data_of soup book_url) = Some t -> Str.strip t = t)
  /\ (forall t, price_text (book_data_of soup book_url) = Some t ->
                Str.strip t = t /\ t <> EmptyString)
  /\ (forall t, description (book_data_of soup book_url) = Some t ->
                Str.strip t = t)
  /\ (forall k v, In (k, v) (product_info (book_data_of soup book_url)) ->
                  Str.strip k = k /\ Str.strip v = v).
Proof.
  destruct (book_data_of_texts soup book_url) as (Et & Ed & Ep).
  split; [ | split; [ | split]].
  - intros t H. rewrite Et in H. now apply text_or_none_trimmed in H.
  - intros t H. pose proof (book_data_of_price_fields soup book_url) as E.
    rewrite H in E. unfold parse_price in E.
    destruct (text_or_none (Bs4.select_one soup Sel.price)) as [r|] eqn:Hr;
      [ | discriminate].
    destruct (Str.is_empty r) eqn:Hne; [discriminate | ].
    assert (E' : Some t = Some r)
      by (destruct (Re.search_price r); congruence).
    injection E' as ->. split; [ | now apply is_empty_false].
    now apply text_or_none_trimmed in Hr.
  - intros t H. rewrite Ed in H.
    destruct (Bs4.select_one soup Sel.description); [ | discriminate].
    now apply text_or_none_trimmed in H.
  - intros k v H. rewrite Ep in H.
    destruct (Bs4.select_one soup Sel.info_table) as [tb|]; [ | destruct H].
    destruct (add_row_in _ _ _ H) as [[] | (th & td & [= -> ->])].
    split; apply get_text_strip_trimmed.
Qed.

Lemma X8_texts_trimmed_witness :
  Str.strip "A Light in the Attic" = "A Light in the Attic".
Proof.
  exact (proj1 (X8_texts_trimmed (Bs4.soup_of Sample.attic) Sample.attic_url)
           "A Light in the Attic" eq_refl).
Defined.

(** ** The product table *)

Lemma lookup_setitem (d : list (string * string)) (k k' v : string) :
  Bs4.lookup k (setitem d k' v)
  = if String.eqb k k' then Some v else Bs4.lookup k d.
Proof.
  induction d as [|[k0 v0] d IH]; cbn [setitem Bs4.lookup].
  - reflexivity.
  - destruct (String.eqb_spec k' k0) as [-> | Hne]; cbn [Bs4.lookup].
    + destruct (String.eqb k k0); reflexivity.
    + rewrite IH. destruct (String.eqb_spec k k0) as [-> | _];
        [ | reflexivity].
      destruct (String.eqb_spec k0 k') as [-> | _];
        [now elim Hne | reflexivity].
Qed.

Lemma lookup_app (k : string) (a b : list (string * string)) :
  Bs4.lookup k (a ++ b)
  = match Bs4.lookup k a with
    | Some v => Some v
    | None => Bs4.lookup k b
    end.
Proof.
  induction a as [|[k0 v0] a IH]; cbn [app Bs4.lookup]; [reflexivity | ].
  destruct (String.eqb k k0); [reflexivity | exact IH].
Qed.

Lemma add_row_item (acc : list (string * string)) (tr : Bs4.Tag) :
  add_row acc tr
  = match row_item tr with
    | Some kv => setitem acc (fst kv) (snd kv)
    | None => acc
    end.
Proof.
  unfold add_row, row_item.
  destruct (Bs4.find tr "th"); [ | reflexivity].
  destruct (Bs4.find tr "td"); reflexivity.
Qed.

Lemma fold_add_row (rows : list Bs4.Tag) :
  forall acc,
    List.fold_left add_row rows acc
    = List.fold_left (fun d kv => setitem d (fst kv) (snd kv))
                     (row_items rows) acc.
Proof.
  induction rows as [|r rows IH]; intros acc; [reflexivity | ].
  cbn [List.fold_left row_items]. rewrite IH, add_row_item.
  destruct (row_item r); reflexivity.
Qed.

Lemma lookup_fold_setitem (k : string) (pairs : list (string * string)) :
  forall acc,
    Bs4.lookup k (List.fold_left (fun d kv => setitem d (fst kv) (snd kv))
                                 pairs acc)
    = match Bs4.lookup k (List.rev pairs) with
      | Some v => Some v
      | None => Bs4.lookup k acc
      end.
Proof.
  induction pairs as [|[k0 v0] pairs IH]; intros acc; [reflexivity | ].
  cbn [List.fold_left List.rev fst snd]. rewrite IH, lookup_app.
  destruct (Bs4.lookup k (List.rev pairs)); [reflexivity | ].
  rewrite lookup_setitem. cbn [Bs4.lookup].
  destruct (String.eqb k k0); reflexivity.
Qed.

(** X9: [product_info] is the dictionary of the rows of the first
    product table that have both a header cell and a data cell, rows
    short of a cell left out; the value under a key is the one of the
    last such row with that key, and no key comes twice. *)
Theorem X9_product_info_rows (soup table : Bs4.Tag) (book_url : string) :
  Bs4.select_one soup Sel.info_table = Some table ->
  product_info (book_data_of soup book_url)
  = dict_of (row_items (Bs4.select table Sel.row))
  /\ (forall k,
        Bs4.lookup k (product_info (book_data_of soup book_url))
        = Bs4.lookup k (List.rev (row_items (Bs4.select table Sel.row))))
  /\ NoDup (List.map fst (product_info (book_data_of soup book_url))).
Proof.
  intros Hsel. destruct (book_data_of_texts soup book_url) as (_ & _ & Ep).
  rewrite Hsel in Ep. rewrite Ep, fold_add_row.
  split; [reflexivity | ]. split.
  - intros k. rewrite lookup_fold_setitem.
    now destruct (Bs4.lookup k (List.rev _)).
  - rewrite <- fold_add_row, <- Ep. apply book_data_of_keys_unique.
Qed.

Lemma X9_product_info_rows_witness :
  product_info (book_data_of (Bs4.soup_of Sample.table_page) Sample.attic_url)
  = [("UPC", "new"); ("Price", "51.77")].
Proof.
  exact (proj1 (X9_product_info_rows (Bs4.soup_of Sample.table_page)
                  (Sample.found_in Sample.table_page Sel.info_table)
                  Sample.attic_url eq_refl)).
Defined.

(** ** Elements with nothing in them *)

(** X10: an element that is there with no text in it is not treated the
    same way by every field: an empty title element gives the empty
    string as [title], while an empty price element gives [None] for
    [price], [currency] and [price_text] alike, as a missing one does. *)
Theorem X10_empty_elements (soup : Bs4.Tag) (book_url : string) :
  (forall node,
      Bs4.select_one soup Sel.title = Some node ->
      Bs4.get_text_strip node = EmptyString ->
      title (book_data_of soup book_url) = Some EmptyString)
  /\ (forall node,
        Bs4.select_one soup Sel.price = Some node ->
        Bs4.get_text_strip node = EmptyString ->
        price (book_data_of soup book_url) = None
        /\ currency (book_data_of soup book_url) = None
        /\ price_text (book_data_of soup book_url) = None)
  /\ (Bs4.select_one soup Sel.price = None ->
      price (book_data_of soup book_url) = None
      /\ currency (book_data_of soup book_url) = None
      /\ price_text (book_data_of soup book_url) = None).
Proof.
  destruct (book_data_of_texts soup book_url) as (Et & _).
  pose proof (book_data_of_price_fields soup book_url) as E.
  split; [ | split].
  - intros node Hsel Htxt. rewrite Et, Hsel. cbn [text_or_none].
    now rewrite Htxt.
  - intros node Hsel Htxt. rewrite Hsel in E. cbn [text_or_none] in E.
    rewrite Htxt in E. cbn in E. injection E as -> -> ->. now repeat split.
  - intros Hsel. rewrite Hsel in E. cbn in E.
    injection E as -> -> ->. now repeat split.
Qed.

Lemma X10_empty_elements_witness :
  title (book_data_of (Bs4.soup_of Sample.hollow) Sample.attic_url)
  = Some EmptyString
  /\ price_text (book_data_of (Bs4.soup_of Sample.hollow) Sample.attic_url)
     = None.
Proof.
  pose (H := X10_empty_elements (Bs4.soup_of Sample.hollow) Sample.attic_url).
  split.
  - exact (proj1 H (Sample.found_in Sample.hollow Sel.title)
             eq_refl eq_refl).
  - exact (proj2 (proj2 (proj1 (proj2 H)
                           (Sample.found_in Sample.hollow Sel.price)
                           eq_refl eq_refl))).
Defined.

(** ** The requests of a crawl *)

(** A catalogue request followed by the book requests of its page. *)
Lemma page_requests (q : request) (new : list request) :
  req_by q = Catalog ->
  Forall (fun q => req_by q = Detail
                   /\ exists h, req_url q = book_url_of h) new ->
  List.filter is_catalog (q :: new) = [q]
  /\ List.filter is_detail (q :: new) = new.
Proof.
  intros Hq Hnew. cbn [List.filter]. unfold is_catalog at 1, is_detail at 1.
  rewrite Hq.
  assert (H : List.filter is_catalog new = []
              /\ List.filter is_detail new = new).
  { induction Hnew as [|x l [Hx _] _ (IH1 & IH2)]; [now split | ].
    cbn [List.filter]. unfold is_catalog at 1, is_detail at 1.
    rewrite Hx, IH1, IH2. now split. }
  destruct H as (-> & ->). now split.
Qed.

Section Trace.

Variable server : list string -> string -> reply.
Variable html_parser : string -> Bs4.node.

(** The [for] loop over the cards: one book request for each record, in
    order, each to the URL of the record. *)
Lemma for_cards_trace (cards : list Bs4.Tag) :
  forall (acc : list BookRecord) (w : world) res w',
    for_cards server html_parser cards acc w = (res, w') ->
    exists new recs,
      extends w w' new recs
      /\ Forall (fun q => req_by q = Detail
                          /\ exists h, req_url q = book_url_of h) new
      /\ match res with
         | Ok books => books = (acc ++ recs)%list
                       /\ List.map url recs = List.map req_url new
         | Raise _ => True
         end.
Proof.
  induction cards as [|a rest IH]; intros acc w res w' H.
  - cbn in H. injection H as <- <-. exists [], [].
    split; [apply extends_refl | ]. split; [constructor | ].
    split; [now rewrite app_nil_r | reflexivity].
  - cbn [for_cards] in H.
    destruct (Bs4.get a "href") as [h|]; [ | now apply IH].
    destruct (Str.is_empty h); [now apply IH | ].
    unfold bind in H.
    pose proof (get_book_data_cases server html_parser (book_url_of h) w)
      as C. cbv zeta in C.
    set (q := request_of server Detail (book_url_of h) w) in C.
    destruct C as [(d & _ & Hu & E) | (e & _ & E)]; rewrite E in H.
    + apply IH in H as (new & recs & Hext & Hall & Hres).
      exists (q :: new), (d :: recs). split.
      { exact (extends_trans _ _ _ _ _ _ _
                 (extends_trans _ _ _ _ _ _ _
                    (extends_request q w) (extends_print d _)) Hext). }
      split.
      { constructor; [ | exact Hall]. split; [reflexivity | now exists h]. }
      destruct res as [books|e]; [ | exact I].
      destruct Hres as [-> Hm]. rewrite <- app_assoc.
      split; [reflexivity | ]. cbn [List.map]. now rewrite Hu, Hm.
    + injection H as <- <-. exists [q], [].
      split; [apply extends_request | ]. split; [ | exact I].
      constructor; [ | constructor]. split; [reflexivity | now exists h].
Qed.

(** The [while True] loop: the catalogue pages from [page_num] on, one
    after the other, each followed by the book requests of its page. *)
Lemma while_true_trace (fuel : nat) :
  forall (pages : option Z) (page_num : Z) (acc : list BookRecord)
         (w : world) res w',
    while_true server html_parser fuel pages page_num acc w = Some (res, w') ->
    exists new recs k,
      extends w w' new recs
      /\ List.map req_url (List.filter is_catalog new)
         = List.map page_url (pages_from page_num k)
      /\ (1 <= k <= fuel)%nat
      /\ (forall n, pages = Some n -> page_num <= n ->
                    page_num + Z.of_nat k <= n + 1)
      /\ match res with
         | Ok books =>
             books = (acc ++ recs)%list
             /\ List.map url recs
                = List.map req_url (List.filter is_detail new)
         | Raise _ => True
         end.
Proof.
  induction fuel as [|fuel IH]; intros pages page_num acc w res w' H;
    [discriminate | ].
  rewrite while_true_step in H. cbv zeta in H.
  set (q := request_of server Catalog (page_url page_num) w) in *.
  assert (Hone : forall w2 new1 recs1 (res1 : result (list BookRecord)),
             extends (after_request q w) w2 new1 recs1 ->
             Forall (fun q => req_by q = Detail
                              /\ exists h, req_url q = book_url_of h) new1 ->
             match res1 with
             | Ok books => books = (acc ++ recs1)%list
                           /\ List.map url recs1 = List.map req_url new1
             | Raise _ => True
             end ->
             exists new recs k,
               extends w w2 new recs
               /\ List.map req_url (List.filter is_catalog new)
                  = List.map page_url (pages_from page_num k)
               /\ (1 <= k <= S fuel)%nat
               /\ (forall n, pages = Some n -> page_num <= n ->
                             page_num + Z.of_nat k <= n + 1)
               /\ match res1 with
                  | Ok books =>
                      books = (acc ++ recs)%list
                      /\ List.map url recs
                         = List.map req_url (List.filter is_detail new)
                  | Raise _ => True
                  end).
  { intros w2 new1 recs1 res1 Hext Hall Hres.
    destruct (page_requests q new1 eq_refl Hall) as (Hc & Hd).
    exists (q :: new1), recs1, 1%nat.
    split; [exact (extends_trans _ _ _ _ _ _ _ (extends_request q w) Hext) | ].
    rewrite Hc, Hd. split; [reflexivity | ]. split; [lia | ].
    split; [intros; lia | exact Hres]. }
  destruct (req_reply q) as [resp|] eqn:Hq.
  2:{ injection H as <- <-.
      apply (Hone _ [] [] (Raise (ConnectionError (page_url page_num)))
               (extends_refl _) (Forall_nil _) I). }
  destruct (negb (status_code resp =? 200)).
  { injection H as <- <-.
    apply (Hone _ [] [] (Ok acc) (extends_refl _) (Forall_nil _)).
    now rewrite app_nil_r. }
  destruct (for_cards _ _ _ _ _) as [[books1|e] w2] eqn:Hc.
  2:{ injection H as <- <-.
      apply for_cards_trace in Hc as (new1 & recs1 & Hext & Hall & _).
      now apply (Hone _ new1 recs1 (Raise e)). }
  apply for_cards_trace in Hc as (new1 & recs1 & Hext & Hall & Hb & Hurl).
  destruct (is_limit page_num pages) eqn:Hl.
  { injection H as <- <-. now apply (Hone _ new1 recs1 (Ok books1)). }
  apply IH in H as (new2 & recs2 & k & Hext2 & Hcat & Hk & Hlim & Hres).
  destruct (page_requests q new1 eq_refl Hall) as (Hc & Hd).
  exists (q :: new1 ++ new2)%list, (recs1 ++ recs2)%list, (S k).
  split.
  { exact (extends_trans _ _ _ _ _ _ _
             (extends_trans _ _ _ _ _ _ _ (extends_request q w) Hext) Hext2). }
  change (q :: new1 ++ new2)%list with ((q :: new1) ++ new2)%list.
  rewrite !filter_app, Hc, Hd. split.
  { cbn [app List.map pages_from]. now rewrite Hcat. }
  split; [lia | ]. split.
  { intros n -> Hle. unfold is_limit in Hl. apply Z.eqb_neq in Hl.
    specialize (Hlim n eq_refl). lia. }
  destruct res as [books|e]; [ | exact I].
  destruct Hres as [-> Hm]. rewrite Hb, <- app_assoc.
  split; [reflexivity | ]. now rewrite !map_app, Hurl, Hm.
Qed.

(** A limit below the first page number is never met. *)
Lemma while_true_limit_below (n : Z) (fuel : nat) :
  forall (page_num : Z) (acc : list BookRecord) (w : world),
    n < page_num ->
    while_true server html_parser fuel (Some n) page_num acc w
    = while_true server html_parser fuel None page_num acc w.
Proof.
  induction fuel as [|fuel IH]; intros page_num acc w Hn; [reflexivity | ].
  cbn [while_true].
  destruct (session_get _ _ _ _) as [[resp|e] w1]; [ | reflexivity].
  destruct (negb _); [reflexivity | ].
  destruct (for_cards _ _ _ _ _) as [[books|e] w2]; [ | reflexivity].
  cbn [is_limit]. replace (page_num =? n) with false
    by (symmetry; apply Z.eqb_neq; lia).
  apply IH. lia.
Qed.

(** With a limit ahead the loop is over after the pages up to it. *)
Lemma while_true_limit_terminates (n : Z) :
  forall (k fuel : nat) (page_num : Z) (acc : list BookRecord) (w : world),
    page_num + Z.of_nat k = n -> (k < fuel)%nat ->
    exists res w',
      while_true server html_parser fuel (Some n) page_num acc w
      = Some (res, w').
Proof.
  induction k as [|k IH]; intros fuel page_num acc w Hn Hf;
    (destruct fuel as [|fuel]; [lia | ]).
  - replace n with page_num by lia.
    destruct (while_true_last_page server html_parser fuel page_num acc w)
      as (res & w' & _ & E & _).
    now exists res, w'.
  - cbn [while_true].
    destruct (session_get _ _ _ _) as [[resp|e] w1]; [ | now eexists; eexists].
    destruct (negb _); [now eexists; eexists | ].
    destruct (for_cards _ _ _ _ _) as [[books|e] w2];
      [ | now eexists; eexists].
    destruct (is_limit _ _); [now eexists; eexists | ].
    apply IH; lia.
Qed.

End Trace.

(** ** The lines of the file *)

Lemma no_lf_opt_str (o : option string) :
  no_lf (Json.dumps (opt Json.Str o)) = true.
Proof. destruct o; [apply no_lf_encode_str | reflexivity]. Qed.

Lemma no_lf_opt_int (o : option Z) :
  no_lf (Json.dumps (opt Json.Int o)) = true.
Proof. destruct o; [apply clean_no_lf, clean_of_int | reflexivity]. Qed.

Lemma no_lf_opt_float (o : option Float.float) :
  no_lf (Json.dumps (opt Json.Float o)) = true.
Proof. destruct o; [apply clean_no_lf, clean_floatstr | reflexivity]. Qed.

Lemma no_lf_product_info (d : list (string * string)) :
  no_lf (Json.dumps
           (Json.Dict (List.map (fun kv => (fst kv, Json.Str (snd kv))) d)))
  = true.
Proof.
  cbn [Json.dumps]. rewrite !no_lf_app, no_lf_join; [reflexivity | ].
  intros [k x] Hin. apply in_map_iff in Hin as ([k' v] & [= <- <-] & _).
  cbn [Json.dumps]. now rewrite !no_lf_app, !no_lf_encode_str.
Qed.

(** The text [json.dumps] writes for a record holds no line feed. *)
Lemma no_lf_dumps_as_dict (b : BookRecord) :
  no_lf (Json.dumps (as_dict b)) = true.
Proof.
  unfold as_dict. cbn [Json.dumps].
  rewrite !no_lf_app, no_lf_join; [reflexivity | ].
  intros [k x] Hin. rewrite !no_lf_app, no_lf_encode_str.
  cbn [andb no_lf list_ascii_of_string List.forallb N_of_ascii N.eqb negb].
  cbn [In] in Hin.
  repeat (destruct Hin as [[= <- <-] | Hin];
          [first [ apply no_lf_opt_str | apply no_lf_opt_int
                 | apply no_lf_opt_float | apply no_lf_product_info
                 | apply no_lf_encode_str ] | ]).
  destruct Hin.
Qed.

Lemma splitlines_books_lines (books : list BookRecord) :
  Json.splitlines (String.concat EmptyString (books_lines books))
  = List.map (fun b => Json.dumps (as_dict b)) books.
Proof.
  unfold books_lines.
  rewrite <- (map_map (fun b => Json.dumps (as_dict b))
                      (fun t => t ++ String "010" EmptyString)).
  apply splitlines_lines. intros t Ht.
  apply in_map_iff in Ht as (b & <- & _). apply no_lf_dumps_as_dict.
Qed.

(** ** The crawl as a whole *)

(** X11: the file is written only by a crawl that returns with [is_save]
    set, and then holds one line for each returned record, in order, the
    text [json.dumps] gives for it (which never holds a line feed of its
    own), whatever the file held before; without [is_save], or when the
    crawl raises, the file is left as it was. *)
Theorem X11_books_file
    (server : list string -> string -> reply)
    (html_parser : string -> Bs4.node)
    (fuel : nat) (is_save : bool) (pages_to_scrape : option Z)
    (w : world) (res : result (list BookRecord)) (w' : world) :
  scrape_books server html_parser fuel is_save pages_to_scrape w
  = Some (res, w') ->
  match res with
  | Ok books =>
      if is_save
      then exists content,
             books_file w' = Some content
             /\ Json.splitlines content
                = List.map (fun b => Json.dumps (as_dict b)) books
      else books_file w' = books_file w
  | Raise _ => books_file w' = books_file w
  end.
Proof.
  intros H.
  destruct (scrape_books_run server html_parser _ _ _ _ _ _ H)
    as (new & recs & _ & _ & _ & Hres).
  destruct res as [books|e]; [ | exact Hres].
  destruct Hres as [_ Hf]. destruct is_save; [ | exact Hf].
  eexists. split; [exact Hf | apply splitlines_books_lines].
Qed.

Lemma X11_books_file_witness :
  exists content,
    books_file (snd (Sample.run_of Sample.server 3 true None)) = Some content
    /\ Json.splitlines content
       = List.map (fun b => Json.dumps (as_dict b)) Sample.books.
Proof.
  refine (X11_books_file Sample.server Sample.html_parser 3 true None
            Sample.start (Ok Sample.books)
            (snd (Sample.run_of Sample.server 3 true None)) _).
  vm_compute. reflexivity.
Defined.

(** X12: a page limit below one is never met, since the page numbers
    start at one and go up: the crawl runs as it does with no limit. *)
Theorem X12_limit_below_one
    (server : list string -> string -> reply)
    (html_parser : string -> Bs4.node)
    (fuel : nat) (is_save : bool) (n : Z) (w : world) :
  n <= 0 ->
  scrape_books server html_parser fuel is_save (Some n) w
  = scrape_books server html_parser fuel is_save None w.
Proof.
  intros Hn. unfold scrape_books.
  rewrite while_true_limit_below by lia. reflexivity.
Qed.

Lemma X12_limit_below_one_witness :
  scrape_books Sample.server Sample.html_parser 3 false (Some 0) Sample.start
  = scrape_books Sample.server Sample.html_parser 3 false None Sample.start.
Proof.
  apply (X12_limit_below_one Sample.server Sample.html_parser 3 false 0
           Sample.start).
  lia.
Defined.

(** X13: with a page limit of at least one the crawl comes to an end on
    every site, whatever the site answers: the loop is over after at most
    as many rounds as the limit. *)
Theorem X13_limit_terminates
    (server : list string -> string -> reply)
    (html_parser : string -> Bs4.node)
    (fuel : nat) (is_save : bool) (n : Z) (w : world) :
  1 <= n -> (Z.to_nat n <= fuel)%nat ->
  exists res w',
    scrape_books server html_parser fuel is_save (Some n) w = Some (res, w').
Proof.
  intros Hn Hf. unfold scrape_books.
  destruct (while_true_limit_terminates server html_parser n
              (Z.to_nat (n - 1)) fuel 1 [] w) as (res & w1 & E);
    [lia | lia | ].
  rewrite E. destruct res as [books|e]; [ | now eexists; eexists].
  destruct is_save; now eexists; eexists.
Qed.

Lemma X13_limit_terminates_witness :
  exists res w',
    scrape_books Sample.server_304 Sample.html_parser 2 true (Some 2)
      Sample.start
    = Some (res, w').
Proof.
  apply (X13_limit_terminates Sample.server_304 Sample.html_parser 2 true 2
           Sample.start); [lia | vm_compute; lia].
Defined.

(** X14: the catalogue pages a crawl asks for are page 1, page 2 and so
    on with no gap and no repeat, at least one of them, and with a page
    limit of at least one never more pages than the limit. *)
Theorem X14_catalogue_pages_in_order
    (server : list string -> string -> reply)
    (html_parser : string -> Bs4.node)
    (fuel : nat) (is_save : bool) (pages_to_scrape : option Z)
    (w : world) (res : result (list BookRecord)) (w' : world) :
  scrape_books server html_parser fuel is_save pages_to_scrape w
  = Some (res, w') ->
  exists new k,
    requests w' = (requests w ++ new)%list
    /\ List.map req_url (List.filter is_catalog new)
       = List.map page_url (pages_from 1 k)
    /\ (1 <= k <= fuel)%nat
    /\ (forall n, pages_to_scrape = Some n -> 1 <= n -> Z.of_nat k <= n).
Proof.
  unfold scrape_books. intros H.
  destruct (while_true _ _ _ _ _ _ _) as [[res1 w1]|] eqn:Hw;
    [ | discriminate].
  apply while_true_trace in Hw
    as (new & recs & k & (Hq & _) & Hcat & Hk & Hlim & _).
  assert (Hq' : requests w' = (requests w ++ new)%list).
  { destruct res1 as [books|e]; [destruct is_save | ];
      injection H as _ <-; exact Hq. }
  exists new, k. split; [exact Hq' | ]. split; [exact Hcat | ].
  split; [exact Hk | ]. intros n Hp Hn. specialize (Hlim n Hp). lia.
Qed.

Lemma X14_catalogue_pages_in_order_witness :
  exists new k,
    requests (snd (Sample.run_of Sample.server 3 true None))
    = (requests Sample.start ++ new)%list
    /\ List.map req_url (List.filter is_catalog new)
       = List.map page_url (pages_from 1 k)
    /\ (1 <= k <= 3)%nat
    /\ (forall n, None = Some n -> 1 <= n -> Z.of_nat k <= n).
Proof.
  refine (X14_catalogue_pages_in_order Sample.server Sample.html_parser
            3 true None Sample.start
            (fst (Sample.run_of Sample.server 3 true None))
            (snd (Sample.run_of Sample.server 3 true None)) _).
  vm_compute. reflexivity.
Defined.

(** X15: a crawl that returns gives back one record for each book page
    it asked for, in the order of the requests, each under the URL that
    was asked for, and these are the records it printed. *)
Theorem X15_records_follow_requests
    (server : list string -> string -> reply)
    (html_parser : string -> Bs4.node)
    (fuel : nat) (is_save : bool) (pages_to_scrape : option Z)
    (w : world) (books : list BookRecord) (w' : world) :
  scrape_books server html_parser fuel is_save pages_to_scrape w
  = Some (Ok books, w') ->
  exists new,
    requests w' = (requests w ++ new)%list
    /\ List.map url books = List.map req_url (List.filter is_detail new)
    /\ stdout w' = (stdout w ++ books)%list.
Proof.
  unfold scrape_books. intros H.
  destruct (while_true _ _ _ _ _ _ _) as [[[books1|e] w1]|] eqn:Hw;
    try discriminate.
  apply while_true_trace in Hw
    as (new & recs & k & (Hq & Hs & _) & _ & _ & _ & Hb & Hu).
  cbn [app] in Hb. subst books1.
  exists new. destruct is_save; injection H as <- <-; now repeat split.
Qed.

Lemma X15_records_follow_requests_witness :
  exists new,
    requests (snd (Sample.run_of Sample.server 3 true None))
    = (requests Sample.start ++ new)%list
    /\ List.map url Sample.books
       = List.map req_url (List.filter is_detail new)
    /\ stdout (snd (Sample.run_of Sample.server 3 true None))
       = (stdout Sample.start ++ Sample.books)%list.
Proof.
  refine (X15_records_follow_requests Sample.server Sample.html_parser
            3 true None Sample.start Sample.books
            (snd (Sample.run_of Sample.server 3 true None)) _).
  vm_compute. reflexivity.
Defined.

(** X17: when the first catalogue page comes back with another status
    than 200, the crawl returns the empty list after that one request,
    with nothing printed; with [is_save] set it still writes the file,
    which is then empty. *)
Theorem X17_first_page_missing
    (server : list string -> string -> reply)
    (html_parser : string -> Bs4.node)
    (fuel : nat) (is_save : bool) (pages_to_scrape : option Z)
    (w : world) (r : Response) :
  server (history w) (page_url 1) = Reply r -> status_code r <> 200 ->
  scrape_books server html_parser (S fuel) is_save pages_to_scrape w
  = Some (Ok [],
          {| requests := requests w
                         ++ [request_of server Catalog (page_url 1) w];
             stdout := stdout w;
             books_file := if is_save then Some EmptyString
                           else books_file w |}).
Proof.
  intros Hr Hs. unfold scrape_books. rewrite while_true_step. cbv zeta.
  unfold request_of at 1. cbn [req_reply]. rewrite Hr.
  apply Z.eqb_neq in Hs. rewrite Hs. cbn [negb].
  destruct is_save; reflexivity.
Qed.

Lemma X17_first_page_missing_witness :
  scrape_books Sample.server_down Sample.html_parser 1 true None Sample.start
  = Some (Ok [],
          {| requests :=
               [request_of Sample.server_down Catalog (page_url 1)
                  Sample.start];
             stdout := [];
             books_file := Some EmptyString |}).
Proof.
  apply (X17_first_page_missing Sample.server_down Sample.html_parser
           O true None Sample.start
           {| status_code := 503; text := EmptyString |});
    [reflexivity | cbn; lia].
Defined.

(** X18: a catalogue page that cannot be fetched at all ends the crawl
    with the connection error of that page: the request is the last one,
    the records read so far are not returned, and the file is left as it
    was. *)
Theorem X18_catalogue_unreachable
    (server : list string -> string -> reply)
    (html_parser : string -> Bs4.node)
    (fuel : nat) (is_save : bool) (pages_to_scrape : option Z)
    (w : world) (res : result (list BookRecord)) (w' : world) :
  scrape_books server html_parser fuel is_save pages_to_scrape w
  = Some (res, w') ->
  exists new,
    requests w' = (requests w ++ new)%list
    /\ forall q, In q new -> req_by q = Catalog -> req_reply q = NoReply ->
         res = Raise (ConnectionError (req_url q))
         /\ (exists pre, new = (pre ++ [q])%list)
         /\ books_file w' = books_file w.
Proof.
  intros H.
  destruct (scrape_books_run server html_parser _ _ _ _ _ _ H)
    as (new & recs & Hq & _ & Hshape & Hres).
  exists new. split; [exact Hq | ]. intros q Hin Hby Hno.
  assert (Hv : verdict q = Some (Some (ConnectionError (req_url q))))
    by (unfold verdict; now rewrite Hno).
  destruct (run_shape_stop new res q Hshape Hin) as (pre & Hpre & Hend);
    [now rewrite Hv | ].
  destruct res as [books|e]; rewrite Hv in Hend; [discriminate | ].
  injection Hend as <-. split; [reflexivity | ].
  split; [now exists pre | exact Hres].
Qed.

Lemma X18_catalogue_unreachable_witness :
  fst (Sample.run_of Sample.server_cut 3 true None)
  = Raise (ConnectionError "http://books.toscrape.com/catalogue/page-2.html")
  /\ books_file (snd (Sample.run_of Sample.server_cut 3 true None)) = None
  /\ List.length (stdout (snd (Sample.run_of Sample.server_cut 3 true None)))
     = 2%nat.
Proof.
  destruct (X18_catalogue_unreachable Sample.server_cut Sample.html_parser
              3 true None Sample.start
              (fst (Sample.run_of Sample.server_cut 3 true None))
              (snd (Sample.run_of Sample.server_cut 3 true None))
              eq_refl)
    as (new & Hq & Hc).
  cbn [Sample.start requests app] in Hq.
  destruct (Hc {| req_by := Catalog;
                  req_url := "http://books.toscrape.com/catalogue/page-2.html";
                  req_reply := NoReply |})
    as (Hres & _ & Hf).
  - rewrite <- Hq. vm_compute. tauto.
  - reflexivity.
  - reflexivity.
  - split; [exact Hres | ]. split; [exact Hf | reflexivity].
Defined.

Lemma scrape_books_saved_reads_back_witness :
  exists content,
    books_file (snd (Sample.run_of Sample.server 3 true None)) = Some content
    /\ Json.read_lines content = Some (List.map as_dict Sample.books).
Proof.
  refine (scrape_books_saved_reads_back Sample.server Sample.html_parser
            3 None Sample.start Sample.books
            (snd (Sample.run_of Sample.server 3 true None)) _ _).
  - vm_compute. reflexivity.
  - intros b [<- | [<- | []]] x Hx; vm_compute in Hx; injection Hx as <-;
      vm_compute; reflexivity.
Defined.

(** ** A site that never says no *)

Section Endless.

Variable server : list string -> string -> reply.
Variable html_parser : string -> Bs4.node.

Hypothesis always_200 :
  forall h u, exists r, server h u = Reply r /\ status_code r = 200.

Lemma for_cards_returns (cards : list Bs4.Tag) :
  forall (acc : list BookRecord) (w : world),
    exists books w',
      for_cards server html_parser cards acc w = (Ok books, w').
Proof.
  induction cards as [|a rest IH]; intros acc w; [now eexists; eexists | ].
  cbn [for_cards].
  destruct (Bs4.get a "href") as [h|]; [ | apply IH].
  destruct (Str.is_empty h); [apply IH | ].
  unfold bind.
  pose proof (get_book_data_cases server html_parser (book_url_of h) w) as C.
  cbv zeta in C. destruct C as [(d & _ & _ & E) | (e & Hv & _)].
  - rewrite E. apply IH.
  - exfalso. unfold verdict, request_of in Hv.
    cbn [req_reply req_by req_url] in Hv.
    destruct (always_200 (history w) (book_url_of h)) as (r & Hr & Hs).
    rewrite Hr, Hs in Hv. discriminate.
Qed.

Lemma while_true_runs_on (fuel : nat) :
  forall (page_num : Z) (acc : list BookRecord) (w : world),
    while_true server html_parser fuel None page_num acc w = None.
Proof.
  induction fuel as [|fuel IH]; intros page_num acc w; [reflexivity | ].
  rewrite while_true_step. cbv zeta.
  unfold request_of at 1. cbn [req_reply].
  destruct (always_200 (history w) (page_url page_num)) as (r & Hr & Hs).
  rewrite Hr, Hs. cbn [Z.eqb Pos.eqb negb].
  destruct (for_cards_returns
              (Bs4.select (BeautifulSoup html_parser (text r)) Sel.book_cards)
              acc
              (after_request
                 (request_of server Catalog (page_url page_num) w) w))
    as (books & w2 & E).
  rewrite E. cbn [is_limit]. apply IH.
Qed.

End Endless.

(** X20: on a site that answers every request with status 200 the crawl
    with no page limit never comes to an end: whatever bound is put on
    the number of rounds of the loop, the loop is still running when the
    bound is reached, and nothing is returned or saved. *)
Theorem X20_endless_crawl
    (server : list string -> string -> reply)
    (html_parser : string -> Bs4.node)
    (fuel : nat) (is_save : bool) (w : world) :
  (forall h u, exists r, server h u = Reply r /\ status_code r = 200) ->
  scrape_books server html_parser fuel is_save None w = None.
Proof.
  intros H. unfold scrape_books. now rewrite while_true_runs_on.
Qed.

Lemma X20_endless_crawl_witness :
  scrape_books Sample.server_moving Sample.html_parser 4 true None
    Sample.start
  = None.
Proof.
  apply (X20_endless_crawl Sample.server_moving Sample.html_parser 4 true
           Sample.start).
  intros h u. unfold Sample.server_moving.
  destruct (List.existsb (String.eqb u) h); eexists; split; reflexivity.
Defined.
